(** * Research Reproducer: a shallow embedding of the reproduction pipeline

    The development follows the Python package [research_reproducer]:
    - [Retry]        : retry_utils.py  (retry_with_backoff, SmartRetry)
    - [Cache]        : cache.py        (ReproducerCache)
    - [Executor]     : executor.py     (CodeExecutor.execute)
    - [Finder]       : repo_finder.py  (get_official_repository)
    - [EnvSetup]     : env_setup.py    (setup_* strategies, auto_setup)
    - [Diagnosis]    : error_diagnosis.py (ErrorDiagnoser.diagnose)
    - [Orchestrator] : orchestrator.py (_reproduce_from_metadata, checkpoints)

    External effects (child processes, the file system, the clock, network
    collaborators) are explicit arguments: an oracle says what the outside
    world answers, and the embedded function is the control flow of the
    source around those answers. *)

From Stdlib Require Import ZArith Lia List String Ascii Bool Floats.
From stdpp Require Import gmap strings list pretty.

Local Open Scope string_scope.
Local Open Scope list_scope.

(* ===================================================================== *)
(** * retry_utils.py *)
(* ===================================================================== *)

Module Retry.

(** Exceptions the retriers distinguish.  [HTTPError] carries the status
    code of its response when it has one. *)
Inductive exn : Type :=
  | RequestsTimeout
  | RequestsConnectionError
  | RetryableError
  | NonRetryableError
  | HTTPError (status : option Z)
  | OtherException (name : string).

(** One invocation of the wrapped callable either returns or raises. *)
Inductive outcome (A : Type) : Type :=
  | Return (v : A)
  | Raise (e : exn).
Arguments Return {A} v.
Arguments Raise {A} e.

(** What the wrapper itself does in the end.  [ReturnedNone] is the
    [return None] after the loop of [retry_with_backoff]; [OutOfFuel] only
    marks an exhausted recursion bound of the model. *)
Inductive result (A : Type) : Type :=
  | Returned (v : A)
  | Raised (e : exn)
  | ReturnedNone
  | OutOfFuel.
Arguments Returned {A} v.
Arguments Raised {A} e.
Arguments ReturnedNone {A}.
Arguments OutOfFuel {A}.

(** Observable actions: the [attempt]-th call of the callable, and
    [time.sleep(delay)].  Delays are binary64 floating-point numbers, as
    the parameters are annotated in the source, and
    [delay * exponential_base] is their rounded product.  [time.sleep]
    is taken to return, as it does on a delay that is neither negative
    nor a NaN nor too large for the clock. *)
Inductive event : Type :=
  | Call (attempt : nat)
  | Sleep (delay : float).

(** [min(a, b)] of Python on two floats: the second argument when it is
    below the first, otherwise the first. *)
Definition py_min (a b : float) : float :=
  if PrimFloat.ltb b a then b else a.

(** Number of invocations of the callable recorded in a trace. *)
Fixpoint calls (tr : list event) : nat :=
  match tr with
  | [] => O
  | Call _ :: tr' => S (calls tr')
  | Sleep _ :: tr' => calls tr'
  end.

Fixpoint sleeps (tr : list event) : list float :=
  match tr with
  | [] => []
  | Call _ :: tr' => sleeps tr'
  | Sleep d :: tr' => d :: sleeps tr'
  end.

(** [is_retryable_error]: network errors and [RetryableError] are retried,
    an [HTTPError] only for a 5xx status. *)
Definition is_retryable_error (e : exn) : bool :=
  match e with
  | RequestsTimeout | RequestsConnectionError | RetryableError => true
  | HTTPError (Some status_code) =>
      ((500 <=? status_code) && (status_code <? 600))%Z
  | _ => false
  end.

Definition is_NonRetryableError (e : exn) : bool :=
  match e with NonRetryableError => true | _ => false end.

Section Retriers.
Context {A : Type}.

(** The callable: the outcome of its [attempt]-th invocation. *)
Variable func : nat -> outcome A.


(** ** [retry_with_backoff(...)(func)] *)
Section Decorator.
(** A count of attempts; a negative Python integer behaves as 0. *)
Variable max_attempts : nat.
Variables base_delay max_delay exponential_base : float.
(** [isinstance(e, exceptions)] for the configured tuple. *)
Variable exceptions : exn -> bool.

Fixpoint wrapper_loop (fuel attempt : nat) (delay : float)
  : list event * result A :=
  match fuel with
  | O => ([], OutOfFuel)
  | S fuel' =>
      if (attempt <=? max_attempts)%nat then
        match func attempt with
        | Return v => ([Call attempt], Returned v)
        | Raise e =>
            if exceptions e then
              if (attempt =? max_attempts)%nat then
                ([Call attempt], Raised e)
              else
                let '(tr, r) :=
                  wrapper_loop fuel' (S attempt)
                    (py_min (PrimFloat.mul delay exponential_base) max_delay) in
                (Call attempt :: Sleep delay :: tr, r)
            else ([Call attempt], Raised e)
        end
      else ([], ReturnedNone)
  end.

(** [attempt = 1; delay = base_delay; while attempt <= max_attempts: ...] *)
Definition wrapper : list event * result A :=
  wrapper_loop (S max_attempts) 1 base_delay.

(** The value of the variable [delay] after [n] updates. *)
Fixpoint delay_after (n : nat) : float :=
  match n with
  | O => base_delay
  | S n' => py_min (PrimFloat.mul (delay_after n') exponential_base) max_delay
  end.
End Decorator.

(** ** [SmartRetry(max_attempts, base_delay, max_delay).execute(func)] *)
Section SmartRetry.
Variable max_attempts : nat.
Variables base_delay max_delay : float.

Fixpoint execute_loop (fuel attempt : nat) (delay : float)
  : list event * result A :=
  match fuel with
  | O => ([], OutOfFuel)
  | S fuel' =>
      if (attempt <=? max_attempts)%nat then
        match func attempt with
        | Return v => ([Call attempt], Returned v)
        | Raise e =>
            if is_NonRetryableError e then ([Call attempt], Raised e)
            else if negb (is_retryable_error e)
                    || (attempt =? max_attempts)%nat then
              ([Call attempt], Raised e)
            else
              let '(tr, r) :=
                execute_loop fuel' (S attempt)
                  (py_min (PrimFloat.mul delay 2%float) max_delay) in
              (Call attempt :: Sleep delay :: tr, r)
        end
      else
        (* [raise last_exception] with [last_exception = None] *)
        ([], Raised (OtherException "TypeError"))
  end.

Definition execute : list event * result A :=
  execute_loop (S max_attempts) 1 base_delay.
End SmartRetry.
End Retriers.

(** An operation that fails the same way on every invocation. *)
Definition always_raises (e : exn) : nat -> outcome unit := fun _ => Raise e.

End Retry.

(* ===================================================================== *)
(** * Python string operations used by the package *)
(* ===================================================================== *)

(** Texts are sequences of ASCII characters ([string]); the Unicode-only
    corners of Python's [str] are outside the model. *)
Module Str.

(** [hay.startswith(p)] *)
Fixpoint startswith (p hay : string) : bool :=
  match p, hay with
  | EmptyString, _ => true
  | String a p', String b hay' => if Ascii.eqb a b then startswith p' hay' else false
  | String _ _, EmptyString => false
  end.

(** [needle in hay] *)
Fixpoint contains (needle hay : string) : bool :=
  startswith needle hay ||
  match hay with
  | EmptyString => false
  | String _ hay' => contains needle hay'
  end.

(** [s.split(sep)] for a one-character separator. *)
Fixpoint split (sep : ascii) (s : string) : list string :=
  match s with
  | EmptyString => [EmptyString]
  | String c s' =>
      if Ascii.eqb c sep then EmptyString :: split sep s'
      else match split sep s' with
           | h :: t => String c h :: t
           | [] => [String c EmptyString]
           end
  end.

(** ASCII white space as [str.strip] sees it. *)
Definition is_space (c : ascii) : bool :=
  let n := nat_of_ascii c in
  ((9 <=? n)%nat && (n <=? 13)%nat) || ((28 <=? n)%nat && (n <=? 32)%nat).

Fixpoint lstrip (s : string) : string :=
  match s with
  | EmptyString => EmptyString
  | String c s' => if is_space c then lstrip s' else s
  end.

Fixpoint rev_append (s acc : string) : string :=
  match s with
  | EmptyString => acc
  | String c s' => rev_append s' (String c acc)
  end.

Definition rev (s : string) : string := rev_append s EmptyString.

Definition strip (s : string) : string := rev (lstrip (rev (lstrip s))).

(** [''.join(parts)] *)
Definition join (parts : list string) : string :=
  fold_right String.append EmptyString parts.

(** [list(set(l))] up to the order, which Python leaves unspecified: the
    first occurrence of every element is kept. *)
Fixpoint dedup (l : list string) : list string :=
  match l with
  | [] => []
  | x :: l' => x :: List.filter (fun y => negb (String.eqb x y)) (dedup l')
  end.

Definition newline : ascii := ascii_of_nat 10.

(** [s.lower()] on ASCII text. *)
Definition lower_char (c : ascii) : ascii :=
  let n := nat_of_ascii c in
  if ((65 <=? n)%nat && (n <=? 90)%nat) then ascii_of_nat (n + 32) else c.

Fixpoint lower (s : string) : string :=
  match s with
  | EmptyString => EmptyString
  | String c s' => String (lower_char c) (lower s')
  end.

(** [s.rstrip(c)] for a single character [c]. *)
Fixpoint lstrip_char (c : ascii) (s : string) : string :=
  match s with
  | EmptyString => EmptyString
  | String d s' => if Ascii.eqb d c then lstrip_char c s' else s
  end.

Definition rstrip_char (c : ascii) (s : string) : string :=
  rev (lstrip_char c (rev s)).

(** Every character of [s] satisfies [p]. *)
Fixpoint all_chars (p : ascii -> bool) (s : string) : bool :=
  match s with
  | EmptyString => true
  | String c s' => p c && all_chars p s'
  end.

End Str.

(* ===================================================================== *)
(** * executor.py *)
(* ===================================================================== *)

Module Executor.

(** [ExecutionResult]; the wall-clock fields ([start_time], [end_time],
    [execution_time]) are left out. *)
Record ExecutionResult : Type := mkResult {
  success : bool;
  exit_code : option Z;
  stdout : string;
  stderr : string;
  errors : list string;
  warnings : list string;
  timed_out : bool
}.

(** [ExecutionResult.__init__] *)
Definition new_result : ExecutionResult :=
  {| success := false; exit_code := None; stdout := ""; stderr := "";
     errors := []; warnings := []; timed_out := false |}.

(** What the child process does under the timeout given to [execute].
    - [Exits]: it ends in time with [returncode]; the lines are what the
      readers collected from its two pipes.
    - [StillRunning]: [wait]/[communicate] raises [TimeoutExpired]. The
      readers have collected [stdout_seen]/[stderr_seen] so far;
      [returncode_at_kill] is what [process.returncode] holds once
      [process.kill()] has returned; a later [communicate()] reaps the
      process with [returncode_reaped] and drains [stdout_rest]/[stderr_rest]. *)
Inductive behaviour : Type :=
  | Exits (returncode : Z) (stdout_lines stderr_lines : list string)
  | StillRunning (stdout_seen stderr_seen : list string)
                 (returncode_at_kill : option Z) (returncode_reaped : Z)
                 (stdout_rest stderr_rest : list string).

(** [subprocess.Popen(...)] either raises or starts the child. *)
Inductive popen : Type :=
  | PopenRaises (msg : string)
  | PopenStarted (b : behaviour).

(** [str(timeout)] inside the time-out message. *)
Definition show_timeout (timeout : option Z) : string :=
  match timeout with
  | Some t => pretty t
  | None => "None"
  end.

Definition timeout_message (timeout : option Z) : string :=
  ("Execution timed out after " ++ show_timeout timeout ++ " seconds")%string.

Definition error_patterns : list string :=
  ["Error:"; "ERROR:"; "Exception:"; "Traceback"; "FAILED"; "ImportError";
   "ModuleNotFoundError"; "FileNotFoundError"; "RuntimeError"; "ValueError";
   "TypeError"].

(** [_analyze_errors] *)
Definition _analyze_errors (stderr_text : string) : list string :=
  match stderr_text with
  | EmptyString => []
  | _ =>
      Str.dedup
        (List.map Str.strip
           (List.filter
              (fun line => existsb (fun pattern => Str.contains pattern line)
                             error_patterns)
              (Str.split Str.newline stderr_text)))
  end.

(** [_analyze_warnings] *)
Definition _analyze_warnings (stderr_text : string) : list string :=
  match stderr_text with
  | EmptyString => []
  | _ =>
      Str.dedup
        (List.map Str.strip
           (List.filter
              (fun line => Str.contains "Warning:" line
                           || Str.contains "WARNING:" line)
              (Str.split Str.newline stderr_text)))
  end.

(** The [try] block of [execute] up to line 177: start the process, wait,
    collect output, record exit code and success. *)
Definition run_and_wait (timeout : option Z)
    (capture_output stream_output : bool) (b : behaviour)
  : ExecutionResult :=
  let waited :=
    if capture_output && stream_output then
      (* reader threads + process.wait(timeout) *)
      match b with
      | Exits _ out err =>
          (Str.join out, Str.join err, false, [] : list string)
      | StillRunning _ _ _ _ _ _ =>
          ("", "", true, [timeout_message timeout])
      end
    else
      (* process.communicate(timeout) *)
      match b with
      | Exits _ out err =>
          if capture_output then (Str.join out, Str.join err, false, [])
          else ("", "", false, [])
      | StillRunning out err _ _ out' err' =>
          if capture_output
          then (Str.join (out ++ out'), Str.join (err ++ err'), true,
                [timeout_message timeout])
          else ("", "", true, [timeout_message timeout])
      end in
  let '(out_text, err_text, timed, errs) := waited in
  let returncode :=
    match b with
    | Exits rc _ _ => Some rc
    | StillRunning _ _ rc_kill rc_reaped _ _ =>
        if capture_output && stream_output then rc_kill else Some rc_reaped
    end in
  {| success :=
       match returncode with Some rc => (rc =? 0)%Z | None => false end
       && negb timed;
     exit_code := returncode;
     stdout := out_text; stderr := err_text;
     errors := errs; warnings := []; timed_out := timed |}.

(** [CodeExecutor.execute] (console output and the log file are not part
    of the returned value and are left out). *)
Definition execute (command : string) (timeout : option Z)
    (capture_output stream_output : bool) (world : popen)
  : ExecutionResult :=
  let result :=
    match world with
    | PopenRaises msg =>
        {| success := false; exit_code := None; stdout := ""; stderr := "";
           errors := [("Execution failed: " ++ msg)%string]; warnings := [];
           timed_out := false |}
    | PopenStarted b => run_and_wait timeout capture_output stream_output b
    end in
  {| success := success result;
     exit_code := exit_code result;
     stdout := stdout result; stderr := stderr result;
     errors := errors result ++ _analyze_errors (stderr result);
     warnings := warnings result ++ _analyze_warnings (stderr result);
     timed_out := timed_out result |}.

(** [result.exit_code == 0] *)
Definition exit_code_is_zero (r : ExecutionResult) : bool :=
  match exit_code r with Some rc => (rc =? 0)%Z | None => false end.

End Executor.

(* ===================================================================== *)
(** * repo_finder.py *)
(* ===================================================================== *)

Module Finder.

(** A repository candidate as [find_repositories] produces it.  [source]
    is [r.get('source')]; [is_official] is the truth value of
    [r.get('is_official')] (absent for candidates taken from the paper). *)
Record repo : Type := mkRepo {
  url : string;
  stars : Z;
  source : option string;
  is_official : bool
}.

Definition from_paper_text (r : repo) : bool :=
  match source r with
  | Some src => String.eqb src "paper_text"
  | None => false
  end.

(** [get_official_repository] *)
Definition get_official_repository (repos : list repo) : option repo :=
  match repos with
  | [] => None
  | first :: _ =>
      match List.filter is_official repos with
      | official0 :: _ => Some official0
      | [] =>
          match List.filter from_paper_text repos with
          | from_paper0 :: _ => Some from_paper0
          | [] => Some first
          end
      end
  end.


(** The list is ordered by stars, largest first, as [find_repositories]
    leaves it. *)
Fixpoint sorted_by_stars (l : list repo) : Prop :=
  match l with
  | [] => True
  | r :: l' => List.Forall (fun x => (stars x <= stars r)%Z) l' /\ sorted_by_stars l'
  end.

(** [repo['url'].rstrip('/').lower()]: the key of [unique_repos]. *)
Definition url_key (r : repo) : string :=
  Str.lower (Str.rstrip_char "/" (url r)).

(** One round of the loop "Deduplicate by URL" on the dictionary
    [unique_repos], kept as its items in insertion order. *)
Definition remember (unique : list (string * repo)) (r : repo)
  : list (string * repo) :=
  if existsb (fun item => String.eqb (fst item) (url_key r)) unique
  then unique
  else unique ++ [(url_key r, r)].

Definition unique_repos (repos : list repo) : list (string * repo) :=
  fold_left remember repos [].

(** [sorted(values, key=stars, reverse=True)]: descending, and candidates
    with equal stars keep their order. *)
Fixpoint insert_by_stars (r : repo) (l : list repo) : list repo :=
  match l with
  | [] => [r]
  | x :: l' =>
      if (stars x <=? stars r)%Z then r :: x :: l'
      else x :: insert_by_stars r l'
  end.

Definition sort_by_stars (l : list repo) : list repo :=
  fold_right insert_by_stars [] l.

(** [repo_info['source'] = 'paper_text'] *)
Definition mark_paper_text (r : repo) : repo :=
  mkRepo (url r) (stars r) (Some "paper_text") (is_official r).

(** [_search_by_arxiv_id]: the body builds a URL and returns the empty
    list. *)
Definition _search_by_arxiv_id (arxiv_id : string) : list repo := [].

Section FindRepositories.
(** The two network lookups, as what they yield: the star count
    [_get_repo_info] reads from the answer of the GitHub API ([None] when
    the method returns [None]), and the list [_search_papers_with_code]
    returns. *)
Variable github_stars : string -> option Z.
Variable _search_papers_with_code : string -> list repo.

(** [_get_repo_info]: the dictionary holds the URL it was called with; it
    has no key ['source'] and no key ['is_official']. *)
Definition _get_repo_info (github_url : string) : option repo :=
  option_map (fun stargazers_count => mkRepo github_url stargazers_count None false)
    (github_stars github_url).

(** The candidates of the three strategies, in the order the source
    collects them. *)
Definition candidates (github_urls : list string) (title arxiv_id : option string)
    (use_papers_with_code : bool) : list repo :=
  flat_map (fun github_url =>
              match _get_repo_info github_url with
              | Some repo_info => [mark_paper_text repo_info]
              | None => []
              end) github_urls
  ++ (match title with
      | Some (String c t) =>
          if use_papers_with_code then _search_papers_with_code (String c t)
          else []
      | _ => []
      end)
  ++ (match arxiv_id with
      | Some (String c a) => _search_by_arxiv_id (String c a)
      | _ => []
      end).

(** [find_repositories] *)
Definition find_repositories (github_urls : list string)
    (title arxiv_id : option string) (use_papers_with_code : bool)
  : list repo :=
  sort_by_stars
    (List.map snd
       (unique_repos (candidates github_urls title arxiv_id
                        use_papers_with_code))).
End FindRepositories.

(** The dictionary [unique_repos] as it is kept: every key is the key of
    its value and no key occurs twice. *)
Definition keyed (unique : list (string * repo)) : Prop :=
  List.NoDup (List.map fst unique) /\
  forall item, In item unique -> fst item = url_key (snd item).

(** One invocation of the body of [_get_repo_info] or of
    [_search_papers_with_code]: it runs to its end, or an exception is
    raised inside its [try] block, whose handler logs it; the method then
    returns what it has so far ([None], or the repositories collected
    before the exception). *)
Inductive body_outcome (A : Type) : Type :=
  | Finishes (v : A)
  | RaisesInside (e : Retry.exn) (so_far : A).
Arguments Finishes {A} v.
Arguments RaisesInside {A} e so_far.

(** The method as the decorator sees it. *)
Definition guarded_body {A : Type} (body : nat -> body_outcome A)
  : nat -> Retry.outcome A :=
  fun attempt =>
    match body attempt with
    | Finishes v => Retry.Return v
    | RaisesInside _ so_far => Retry.Return so_far
    end.

(** [isinstance(e, requests.exceptions.RequestException)] *)
Definition is_request_exception (e : Retry.exn) : bool :=
  match e with
  | Retry.RequestsTimeout | Retry.RequestsConnectionError
  | Retry.HTTPError _ => true
  | _ => false
  end.

(** [@retry_with_backoff(max_attempts=3, base_delay=2.0,
    exceptions=(requests.exceptions.RequestException,))] on such a
    method. *)
Definition decorated_lookup {A : Type} (body : nat -> body_outcome A)
  : list Retry.event * Retry.result A :=
  Retry.wrapper (guarded_body body) 3 2 60 2 is_request_exception.

End Finder.

(* ===================================================================== *)
(** * env_setup.py *)
(* ===================================================================== *)

Module EnvSetup.

(** The part of the repository analysis the provisioner reads. *)
Record python_deps : Type := mkPythonDeps {
  requirements_files : list string;
  setup_py : bool;
  conda_env : bool;
  conda_files : list string
}.

Record node_deps : Type := mkNodeDeps { package_json : bool }.

Record entry_point : Type := mkEntryPoint {
  ep_file : string;
  ep_command : option string
}.

Record analysis : Type := mkAnalysis {
  languages : list string;
  deps_python : option python_deps;   (* analysis['dependencies'].get('python') *)
  deps_node : option node_deps;       (* analysis['dependencies'].get('node') *)
  entry_points : list entry_point;
  docker_support : bool;
  container_files : list string
}.

(** [analysis['dependencies'].get('python', {})] *)
Definition python_deps_of (a : analysis) : python_deps :=
  match deps_python a with
  | Some d => d
  | None => mkPythonDeps [] false false []
  end.

Definition node_deps_of (a : analysis) : node_deps :=
  match deps_node a with
  | Some d => d
  | None => mkNodeDeps false
  end.

(** What one [subprocess.run(argv, ...)] does. *)
Inductive run_outcome : Type :=
  | Completed (returncode : Z) (stderr : string)
  | RaisesFileNotFound (str_e : string)
  | RaisesTimeoutExpired (str_e : string)
  | RaisesOther (str_e : string).

(** The host as the provisioner sees it: what every command does, which
    paths exist, whether [os.name == 'nt'], and how Python renders a
    [CalledProcessError]. *)
Record world : Type := mkWorld {
  run : list string -> run_outcome;
  path_exists : string -> bool;
  os_is_nt : bool;
  called_process_error_str : list string -> Z -> string
}.

(** Exceptions of a [try] block in this module. *)
Inductive raised : Type :=
  | FileNotFoundError (str_e : string)
  | TimeoutExpired (str_e : string)
  | CalledProcessError (str_e : string) (stderr : string)
  | OtherError (str_e : string).

Definition str_of (e : raised) : string :=
  match e with
  | FileNotFoundError m | TimeoutExpired m | CalledProcessError m _
  | OtherError m => m
  end.

(** [subprocess.run(argv, check=True, ...)]: [None] when it returns. *)
Definition run_check (w : world) (argv : list string) : option raised :=
  match run w argv with
  | Completed rc err =>
      if (rc =? 0)%Z then None
      else Some (CalledProcessError (called_process_error_str w argv rc) err)
  | RaisesFileNotFound m => Some (FileNotFoundError m)
  | RaisesTimeoutExpired m => Some (TimeoutExpired m)
  | RaisesOther m => Some (OtherError m)
  end.

(** [a / b] on paths, for a relative [b]. *)
Definition path_join (a b : string) : string := (a ++ "/" ++ b)%string.

(** The dictionary a [setup_*] strategy returns. *)
Record strategy_info : Type := mkStrategy {
  s_type : string;
  s_success : bool;
  s_errors : list string;
  s_activation_command : option string;
  s_run_command : option string
}.

(** The dictionary [auto_setup] returns: the result of one strategy, or
    the ['multi'] aggregate, or the ['none'] descriptor. *)
Inductive env_info : Type :=
  | Strategy (s : strategy_info)
  | Multi (environments : list strategy_info) (success : bool)
  | NoEnvironment (errors : list string).

Definition env_type (e : env_info) : string :=
  match e with
  | Strategy s => s_type s
  | Multi _ _ => "multi"
  | NoEnvironment _ => "none"
  end.

Definition env_success (e : env_info) : bool :=
  match e with
  | Strategy s => s_success s
  | Multi _ ok => ok
  | NoEnvironment _ => false
  end.

Definition env_errors (e : env_info) : list string :=
  match e with
  | Strategy s => s_errors s
  | Multi _ _ => []
  | NoEnvironment errs => errs
  end.

Section Strategies.
Variable w : world.
Variable work_dir : string.
Variable repo_path : string.
Variable a : analysis.

(** The loop over [requirements_files] of [setup_python_venv]: a
    [CalledProcessError] is recorded and the loop goes on; any other
    exception leaves the loop. *)
Fixpoint venv_install_requirements (pip_cmd : string) (files : list string)
    (errs : list string) : list string * option raised :=
  match files with
  | [] => (errs, None)
  | req_file :: files' =>
      let req_path := path_join repo_path req_file in
      if path_exists w req_path then
        match run_check w [pip_cmd; "install"; "-r"; req_path] with
        | None => venv_install_requirements pip_cmd files' errs
        | Some (CalledProcessError _ err) =>
            venv_install_requirements pip_cmd files'
              (errs ++ [("Failed to install from " ++ req_file ++ ": " ++ err)%string])
        | Some e => (errs, Some e)
        end
      else venv_install_requirements pip_cmd files' errs
  end.

(** [setup_python_venv] *)
Definition setup_python_venv (env_name : string) (python_version : option string)
  : strategy_info :=
  let env_path := path_join work_dir env_name in
  let failed (activation : option string) (errs : list string) (e : raised) :=
    mkStrategy "python_venv" false
      (errs ++ [("Failed to setup Python environment: " ++ str_of e)%string])
      activation None in
  let python_cmd :=
    match python_version with
    | None | Some EmptyString => "python3"
    | Some v => ("python" ++ v)%string
    end in
  match run_check w [python_cmd; "-m"; "venv"; env_path] with
  | Some e => failed None [] e
  | None =>
      let activation :=
        if os_is_nt w
        then path_join (path_join env_path "Scripts") "activate.bat"
        else ("source " ++ env_path ++ "/bin/activate")%string in
      let pip_cmd :=
        if os_is_nt w
        then path_join (path_join env_path "Scripts") "pip"
        else path_join (path_join env_path "bin") "pip" in
      match run_check w [pip_cmd; "install"; "--upgrade"; "pip"] with
      | Some e => failed (Some activation) [] e
      | None =>
          let python_deps := python_deps_of a in
          match venv_install_requirements pip_cmd
                  (requirements_files python_deps) [] with
          | (errs, Some e) => failed (Some activation) errs e
          | (errs, None) =>
              let after_setup_py :=
                if setup_py python_deps
                   && path_exists w (path_join repo_path "setup.py") then
                  match run_check w [pip_cmd; "install"; "-e"; repo_path] with
                  | None => (errs, None)
                  | Some (CalledProcessError _ err) =>
                      (errs ++ [("Failed to install from setup.py: " ++ err)%string],
                       None)
                  | Some e => (errs, Some e)
                  end
                else (errs, None) in
              match after_setup_py with
              | (errs', Some e) => failed (Some activation) errs' e
              | (errs', None) =>
                  mkStrategy "python_venv" true errs' (Some activation) None
              end
          end
      end
  end.

(** The loop over [requirements_files] of [setup_conda_env]: the first
    exception leaves it. *)
Fixpoint conda_install_requirements (env_name : string) (files : list string)
  : option raised :=
  match files with
  | [] => None
  | req_file :: files' =>
      let req_path := path_join repo_path req_file in
      if path_exists w req_path then
        match run_check w ["conda"; "run"; "-n"; env_name; "pip"; "install";
                           "-r"; req_path] with
        | None => conda_install_requirements env_name files'
        | Some e => Some e
        end
      else conda_install_requirements env_name files'
  end.

(** [setup_conda_env] *)
Definition setup_conda_env (env_name : string) : strategy_info :=
  let activation := Some ("conda activate " ++ env_name)%string in
  let attempt : option raised :=
    match run_check w ["conda"; "--version"] with
    | Some e => Some e
    | None =>
        let python_deps := python_deps_of a in
        match conda_env python_deps, conda_files python_deps with
        | true, env_file0 :: _ =>
            run_check w ["conda"; "env"; "create"; "-f";
                         path_join repo_path env_file0; "-n"; env_name]
        | _, _ =>
            match run_check w ["conda"; "create"; "-n"; env_name;
                               "python=3.9"; "-y"] with
            | Some e => Some e
            | None =>
                conda_install_requirements env_name
                  (requirements_files python_deps)
            end
        end
    end in
  match attempt with
  | None => mkStrategy "conda" true [] activation None
  | Some (FileNotFoundError _) =>
      mkStrategy "conda" false ["Conda is not installed or not in PATH"]
        activation None
  | Some e =>
      mkStrategy "conda" false
        [("Failed to setup Conda environment: " ++ str_of e)%string]
        activation None
  end.

(** The handlers of [setup_docker_env]. *)
Definition docker_failure (e : raised) : strategy_info :=
  match e with
  | FileNotFoundError _ =>
      mkStrategy "docker" false ["Docker is not installed or not in PATH"]
        None None
  | TimeoutExpired _ =>
      mkStrategy "docker" false ["Docker build timed out (30 minutes)"]
        None None
  | _ =>
      mkStrategy "docker" false
        [("Failed to setup Docker environment: " ++ str_of e)%string] None None
  end.

(** [setup_docker_env] *)
Definition setup_docker_env (image_name : string) : strategy_info :=
  match run_check w ["docker"; "--version"] with
  | Some e => docker_failure e
  | None =>
      let dockerfiles :=
        List.filter (fun f => Str.contains "Dockerfile" f) (container_files a) in
      match dockerfiles with
      | [] => mkStrategy "docker" false ["No Dockerfile found"] None None
      | dockerfile :: _ =>
          let dockerfile_path := path_join repo_path dockerfile in
          match run w ["docker"; "build"; "-f"; dockerfile_path;
                       "-t"; image_name; repo_path] with
          | Completed rc err =>
              if (rc =? 0)%Z then
                mkStrategy "docker" true [] None
                  (Some ("docker run -it " ++ image_name)%string)
              else
                mkStrategy "docker" false
                  [("Docker build failed: " ++ err)%string] None None
          | RaisesFileNotFound m => docker_failure (FileNotFoundError m)
          | RaisesTimeoutExpired m => docker_failure (TimeoutExpired m)
          | RaisesOther m => docker_failure (OtherError m)
          end
      end
  end.

(** [setup_node_env] *)
Definition setup_node_env : strategy_info :=
  let attempt : option raised * bool :=
    match run_check w ["npm"; "--version"] with
    | Some e => (Some e, false)
    | None =>
        if package_json (node_deps_of a) then
          match run_check w ["npm"; "install"] with
          | Some e => (Some e, false)
          | None => (None, true)
          end
        else (None, false)
    end in
  match attempt with
  | (None, ok) => mkStrategy "node" ok [] None None
  | (Some (FileNotFoundError _), _) =>
      mkStrategy "node" false ["npm is not installed or not in PATH"] None None
  | (Some e, _) =>
      mkStrategy "node" false
        [("Failed to setup Node.js environment: " ++ str_of e)%string] None None
  end.

Definition has_language (lang : string) : bool :=
  existsb (String.eqb lang) (languages a).

(** The Python part of [auto_setup]: what is appended to [results]. *)
Definition python_results (prefer_conda : bool) : list strategy_info :=
  if has_language "Python" then
    if prefer_conda then
      let result := setup_conda_env "research_env" in
      if s_success result then [result]
      else [setup_python_venv "venv" None]
    else [setup_python_venv "venv" None]
  else [].

(** The Node part of [auto_setup]. *)
Definition node_results : list strategy_info :=
  if existsb has_language ["JavaScript"; "TypeScript"]
  then [setup_node_env] else [].

(** The strategies implied by the detected languages, in the order
    [auto_setup] attempts them. *)
Definition language_results (prefer_conda : bool) : list strategy_info :=
  python_results prefer_conda ++ node_results.

(** The tail of [auto_setup], after the Docker attempt. *)
Definition combine_results (results : list strategy_info) : env_info :=
  match results with
  | [] => NoEnvironment ["No compatible environment setup found"]
  | _ => Multi results (existsb s_success results)
  end.

(** [auto_setup] *)
Definition auto_setup (prefer_docker prefer_conda : bool) : env_info :=
  let docker_attempt :=
    if prefer_docker && docker_support a
    then Some (setup_docker_env "research_reproducer") else None in
  match docker_attempt with
  | Some result =>
      if s_success result then Strategy result
      else combine_results (language_results prefer_conda)
  | None => combine_results (language_results prefer_conda)
  end.

End Strategies.

(** A host without Docker, where every other command succeeds. *)
Definition host_without_docker : world :=
  mkWorld
    (fun argv =>
       match argv with
       | "docker" :: _ => RaisesFileNotFound "No such file or directory: 'docker'"
       | _ => Completed 0 ""
       end)
    (fun _ => true) false (fun _ _ => "non-zero exit status").

(** A host where every command succeeds. *)
Definition obliging_host : world :=
  mkWorld (fun _ => Completed 0 "") (fun _ => true) false
    (fun _ _ => "non-zero exit status").

(** A repository with a compose file but no Dockerfile, in R or in Python. *)
Definition compose_only (languages : list string) : analysis :=
  mkAnalysis languages None None [] true ["docker-compose.yml"].

(** No entry of [container_files] names a Dockerfile. *)
Definition no_dockerfile (a : analysis) : Prop :=
  List.filter (fun f => Str.contains "Dockerfile" f) (container_files a) = [].

(** The interpreter and the [pip] of [setup_python_venv]. *)
Definition venv_python_cmd (python_version : option string) : string :=
  match python_version with
  | None | Some EmptyString => "python3"
  | Some v => ("python" ++ v)%string
  end.

Definition venv_pip_cmd (w : world) (env_path : string) : string :=
  if os_is_nt w
  then path_join (path_join env_path "Scripts") "pip"
  else path_join (path_join env_path "bin") "pip".

(** A [subprocess.run] that returns a [CompletedProcess], whatever its
    return code. *)
Definition returns (w : world) (argv : list string) : bool :=
  match run w argv with
  | Completed _ _ => true
  | _ => false
  end.

(** The error [setup_python_venv] records for an install that exits with
    a non-zero code. *)
Definition install_failure (w : world) (argv : list string) (label : string)
  : list string :=
  match run w argv with
  | Completed rc err =>
      if (rc =? 0)%Z then []
      else [("Failed to install from " ++ label ++ ": " ++ err)%string]
  | _ => []
  end.

(** The installs [setup_python_venv] attempts from requirements files:
    the files that exist, with the command run on each. *)
Definition requirement_installs (w : world) (repo_path pip_cmd : string)
    (a : analysis) : list (string * list string) :=
  List.map (fun req_file =>
              (req_file, [pip_cmd; "install"; "-r"; path_join repo_path req_file]))
    (List.filter (fun req_file => path_exists w (path_join repo_path req_file))
       (requirements_files (python_deps_of a))).

(** The install from [setup.py], when it is attempted. *)
Definition setup_py_installs (w : world) (repo_path pip_cmd : string)
    (a : analysis) : list (string * list string) :=
  if setup_py (python_deps_of a) && path_exists w (path_join repo_path "setup.py")
  then [("setup.py", [pip_cmd; "install"; "-e"; repo_path])] else [].

End EnvSetup.

(* ===================================================================== *)
(** * Regular expressions, as [re.search] runs them *)
(* ===================================================================== *)

(** A backtracking matcher for the fragment of Python's [re] syntax that
    the pattern table of the diagnoser uses, under [re.IGNORECASE]:
    literals are compared ignoring ASCII case; repetition applies to
    character classes. *)
Module Regex.

Inductive regex : Type :=
  | Lit (text : string)
  | Cls (p : ascii -> bool)
  | Seq (r1 r2 : regex)
  | Alt (r1 r2 : regex)
  | Star (greedy : bool) (p : ascii -> bool)
  | Group (r : regex).

(** [p+] and [p+?] *)
Definition Plus (greedy : bool) (p : ascii -> bool) : regex :=
  Seq (Cls p) (Star greedy p).

Definition lower (c : ascii) : ascii :=
  let n := nat_of_ascii c in
  if ((65 <=? n)%nat && (n <=? 90)%nat) then ascii_of_nat (n + 32) else c.

Definition in_range (lo hi : nat) (c : ascii) : bool :=
  let n := nat_of_ascii c in ((lo <=? n)%nat && (n <=? hi)%nat).

(** [\w] on ASCII text. *)
Definition word (c : ascii) : bool :=
  in_range 48 57 c || in_range 65 90 c || in_range 97 122 c
  || Ascii.eqb c (ascii_of_nat 95).

(** [.] without [re.DOTALL]. *)
Definition dot (c : ascii) : bool := negb (Ascii.eqb c (ascii_of_nat 10)).

(** The class of the two quote characters. *)
Definition quote (c : ascii) : bool :=
  Ascii.eqb c (ascii_of_nat 39) || Ascii.eqb c (ascii_of_nat 34).

(** Match a literal at the start of [s]; the rest of [s] on success. *)
Fixpoint lit_match (text s : string) : option string :=
  match text, s with
  | EmptyString, _ => Some s
  | String a text', String b s' =>
      if Ascii.eqb (lower a) (lower b) then lit_match text' s' else None
  | String _ _, EmptyString => None
  end.

Section Matcher.
Context {R : Type}.

(** Greedy repetition: take one more character first, give it back when
    the rest of the pattern fails. *)
Fixpoint star_greedy (p : ascii -> bool) (s : string)
    (k : string -> option R) : option R :=
  match s with
  | String c s' =>
      if p c then
        match star_greedy p s' k with
        | Some res => Some res
        | None => k s
        end
      else k s
  | EmptyString => k s
  end.

(** Lazy repetition: try the rest of the pattern first. *)
Fixpoint star_lazy (p : ascii -> bool) (s : string)
    (k : string -> option R) : option R :=
  match k s with
  | Some res => Some res
  | None =>
      match s with
      | String c s' => if p c then star_lazy p s' k else None
      | EmptyString => None
      end
  end.

(** The text between the start [s] of a group and the suffix [s'] of [s]
    at which the group ended. *)
Definition consumed (s s' : string) : string :=
  String.substring 0 (String.length s - String.length s') s.

(** [rmatch r s caps k]: match [r] at the start of [s]; [k] continues with
    the rest of the text and the groups captured so far. *)
Fixpoint rmatch (r : regex) (s : string) (caps : list string)
    (k : string -> list string -> option R) : option R :=
  match r with
  | Lit text =>
      match lit_match text s with
      | Some s' => k s' caps
      | None => None
      end
  | Cls p =>
      match s with
      | String c s' => if p c then k s' caps else None
      | EmptyString => None
      end
  | Seq r1 r2 =>
      rmatch r1 s caps (fun s' caps' => rmatch r2 s' caps' k)
  | Alt r1 r2 =>
      match rmatch r1 s caps k with
      | Some res => Some res
      | None => rmatch r2 s caps k
      end
  | Star true p => star_greedy p s (fun s' => k s' caps)
  | Star false p => star_lazy p s (fun s' => k s' caps)
  | Group r1 =>
      rmatch r1 s caps (fun s' caps' => k s' (caps' ++ [consumed s s']))
  end.
End Matcher.

(** A match starting exactly at the start of [s]: its groups. *)
Definition match_here (r : regex) (s : string) : option (list string) :=
  rmatch r s [] (fun _ caps => Some caps).

(** [re.search(r, s, re.IGNORECASE | re.MULTILINE)]: the leftmost match. *)
Fixpoint search (r : regex) (s : string) : option (list string) :=
  match match_here r s with
  | Some caps => Some caps
  | None =>
      match s with
      | EmptyString => None
      | String _ s' => search r s'
      end
  end.

(** Does the pattern have a capturing group ([match.groups()] non-empty)? *)
Fixpoint has_groups (r : regex) : bool :=
  match r with
  | Lit _ | Cls _ | Star _ _ => false
  | Seq r1 r2 | Alt r1 r2 => has_groups r1 || has_groups r2
  | Group _ => true
  end.

(** No match of [r] starts inside [before] when the text is
    [before ++ rest]. *)
Fixpoint no_match_within (r : regex) (before rest : string) : bool :=
  match before with
  | EmptyString => true
  | String _ before' =>
      match match_here r (before ++ rest)%string with
      | Some _ => false
      | None => no_match_within r before' rest
      end
  end.

End Regex.

(* ===================================================================== *)
(** * error_diagnosis.py *)
(* ===================================================================== *)

Module Diagnosis.
Import Regex.

Record pattern_info : Type := mkInfo {
  pattern : regex;
  category : string;
  fixes : list string
}.

(** [self.error_patterns]: an insertion-ordered dictionary.  The lists of
    fixes are mutable objects of the table, so the table is a state. *)
Definition table : Type := list (string * pattern_info).

Definition alts (texts : list string) : regex :=
  match texts with
  | [] => Lit ""
  | t :: ts => fold_left (fun acc x => Alt acc (Lit x)) ts (Lit t)
  end.

(** [r"ModuleNotFoundError: No module named '(\w+)'"] *)
Definition missing_module_pattern : regex :=
  Seq (Lit "ModuleNotFoundError: No module named '")
    (Seq (Group (Plus true word)) (Lit "'")).

(** [_initialize_patterns] *)
Definition _initialize_patterns : table :=
  [ ("ModuleNotFoundError",
     mkInfo missing_module_pattern
       "dependency"
       ["Install the missing package: pip install {module}";
        "Check if package name has changed or been deprecated";
        "Try installing with conda: conda install {module}";
        "Check requirements.txt for correct package name"]);
    ("ImportError",
     mkInfo (Seq (Lit "ImportError: cannot import name '")
               (Seq (Group (Plus true word)) (Lit "'")))
       "dependency"
       ["Package version mismatch - check requirements.txt for correct version";
        "Try upgrading the package: pip install --upgrade {module}";
        "The import may have been moved in newer versions"]);
    ("CUDA_ERROR",
     mkInfo (alts ["CUDA"; "cuda"; "RuntimeError: CUDA"])
       "gpu"
       ["Install CUDA toolkit matching PyTorch/TensorFlow version";
        "Check GPU availability: nvidia-smi";
        "Set environment to use CPU: export CUDA_VISIBLE_DEVICES=''";
        "Update GPU drivers";
        "Try CPU version of the framework"]);
    ("OutOfMemoryError",
     mkInfo (alts ["OutOfMemoryError"; "CUDA out of memory"])
       "gpu"
       ["Reduce batch size in training/inference";
        "Clear GPU cache: torch.cuda.empty_cache()";
        "Use gradient accumulation instead of large batches";
        "Enable mixed precision training (fp16)";
        "Use a smaller model variant"]);
    ("FileNotFoundError",
     mkInfo (Seq (Lit "FileNotFoundError")
               (Seq (Star true dot)
                  (Seq (Cls quote) (Seq (Group (Plus false dot)) (Cls quote)))))
       "data"
       ["Download required data files";
        "Check data directory paths in config files";
        "Run data preparation scripts first";
        "Update file paths to match your directory structure"]);
    ("PermissionError",
     mkInfo (Lit "PermissionError")
       "system"
       ["Check file/directory permissions: ls -la";
        "You may need write permissions: chmod +w {file}";
        "Try running with appropriate permissions";
        "Check if file is being used by another process"]);
    ("ConnectionError",
     mkInfo (alts ["ConnectionError"; "Connection refused"; "timeout"])
       "network"
       ["Check internet connection";
        "API endpoint may be down - try again later";
        "Check firewall settings";
        "Increase timeout in configuration"]);
    ("ValueError",
     mkInfo (Seq (Lit "ValueError: ") (Group (Plus true dot)))
       "runtime"
       ["Check input data format and types";
        "Verify configuration parameters";
        "Look at the specific error message for hints";
        "Check data preprocessing steps"]);
    ("KeyError",
     mkInfo (Seq (Lit "KeyError: ")
               (Seq (Cls quote) (Seq (Group (Plus true word)) (Cls quote))))
       "runtime"
       ["Missing required key '{key}' in config or data";
        "Check configuration file for required fields";
        "Verify data format matches expected structure"]);
    ("TypeError",
     mkInfo (Seq (Lit "TypeError: ") (Group (Plus true dot)))
       "runtime"
       ["Type mismatch - check function arguments";
        "May be caused by version incompatibility";
        "Review API documentation for correct types"]);
    ("VersionConflict",
     mkInfo (alts ["version"; "Version"; "compatible"; "compatibility"])
       "dependency"
       ["Check package version requirements";
        "Create fresh virtual environment";
        "Use pip freeze to check installed versions";
        "Refer to paper's requirements for exact versions"]) ].

(** [s.replace(old, new)] for a non-empty [old]; [skip] characters of the
    occurrence just replaced are still to be dropped. *)
Fixpoint replace_from (old new s : string) (skip : nat) : string :=
  match s with
  | EmptyString => EmptyString
  | String c s' =>
      match skip with
      | S skip' => replace_from old new s' skip'
      | O =>
          if Str.startswith old s
          then (new ++ replace_from old new s' (String.length old - 1))%string
          else String c (replace_from old new s' 0)
      end
  end.

(** [fix.format(name=detail)] on a template whose only replacement field
    is [{name}]. *)
Definition format_field (name detail template : string) : string :=
  replace_from ("{" ++ name ++ "}")%string detail template 0.

(** The body of the loop that customises the fixes. *)
Definition customise (detail template : string) : string :=
  if Str.contains "{module}" template then format_field "module" detail template
  else if Str.contains "{key}" template then format_field "key" detail template
  else if Str.contains "{file}" template then format_field "file" detail template
  else template.

Record Diagnosis : Type := mkDiagnosis {
  error_type : string;
  d_category : string;
  description : string;
  root_cause : option string;
  suggested_fixes : list string;
  matched_pattern : bool
}.

(** A non-empty [context] dictionary. *)
Record context : Type := mkContext {
  gpu_available : option bool;      (* context.get('gpu_available', True) *)
  python_version : option string;
  docker_available : bool
}.

(** [_get_context_specific_fixes] *)
Definition _get_context_specific_fixes (cat : string) (ctx : context)
  : list string :=
  (if String.eqb cat "gpu" then
     match gpu_available ctx with
     | Some false => ["âš ï¸ No GPU detected - consider using CPU-only version"]
     | _ => []
     end
   else [])
  ++ (if String.eqb cat "dependency" then
        match python_version ctx with
        | None | Some EmptyString => []
        | Some v => [("Python version: " ++ v ++ " - check compatibility")%string]
        end
      else [])
  ++ (if docker_available ctx then ["ðŸ’¡ Consider using Docker for better isolation"] else []).

Definition context_fixes (cat : string) (ctx : option context) : list string :=
  match ctx with
  | Some c => _get_context_specific_fixes cat c
  | None => []
  end.

(** The first entry of the table whose pattern is found in the message:
    the entries before it, the entry with the captured groups, and the
    entries after it. *)
Fixpoint first_match (t : table) (error_message : string)
  : option (table * (string * pattern_info * list string) * table) :=
  match t with
  | [] => None
  | (name, info) :: t' =>
      match search (pattern info) error_message with
      | Some caps => Some ([], (name, info, caps), t')
      | None =>
          match first_match t' error_message with
          | Some (before, hit, after) => Some ((name, info) :: before, hit, after)
          | None => None
          end
      end
  end.

(** [diagnose]: the diagnosis and the table afterwards.  When the matched
    pattern has no group, [suggested_fixes] is the very list stored in the
    table, and extending it with the context fixes extends the table's
    list as well. *)
Definition diagnose (t : table) (error_message : string)
    (ctx : option context) : Diagnosis * table :=
  let descr := String.substring 0 200 error_message in
  match first_match t error_message with
  | None =>
      (mkDiagnosis "unknown" "unknown" descr None
         ([] ++ context_fixes "unknown" ctx) false, t)
  | Some (before, (name, info, caps), after) =>
      if has_groups (pattern info) then
        let detail := List.hd EmptyString caps in
        (mkDiagnosis name (category info) descr (Some detail)
           (List.map (customise detail) (fixes info)
              ++ context_fixes (category info) ctx) true, t)
      else
        let extended := fixes info ++ context_fixes (category info) ctx in
        (mkDiagnosis name (category info) descr None extended true,
         before ++ (name, mkInfo (pattern info) (category info) extended)
                :: after)
  end.

(** Tables a diagnoser can hold: the initial one, and what calls of
    [diagnose] make of it. *)
Inductive reachable : table -> Prop :=
  | reachable_init : reachable _initialize_patterns
  | reachable_step (t : table) (error_message : string)
      (ctx : option context) :
      reachable t -> reachable (snd (diagnose t error_message ctx)).

(** The error line that reports the missing module [foo]. *)
Definition missing_foo : string := "ModuleNotFoundError: No module named 'foo'".

(** A trace that reports two missing modules, 'bar' before 'foo'. *)
Definition two_missing_modules : string :=
  ("ModuleNotFoundError: No module named 'bar'" ++ String Str.newline missing_foo)%string.

(** An entry of a later table against the entry [_initialize_patterns]
    put there: same name, pattern and category; the list of fixes has
    only grown, and not at all when the pattern has a group. *)
Definition grown_from (initial current : string * pattern_info) : Prop :=
  fst current = fst initial /\
  pattern (snd current) = pattern (snd initial) /\
  category (snd current) = category (snd initial) /\
  (exists added, fixes (snd current) = fixes (snd initial) ++ added) /\
  (has_groups (pattern (snd initial)) = true ->
   fixes (snd current) = fixes (snd initial)).

(** [n] calls of [diagnose] on the same message with the same context. *)
Fixpoint diagnose_repeatedly (n : nat) (t : table) (error_message : string)
    (ctx : option context) : table :=
  match n with
  | O => t
  | S n' =>
      diagnose_repeatedly n' (snd (diagnose t error_message ctx))
        error_message ctx
  end.

(** The categories of the pattern table, and the one of a message that
    matches no pattern. *)
Definition categories : list string :=
  ["dependency"; "gpu"; "data"; "system"; "network"; "runtime"; "unknown"].

(** The traceback line for a missing module [name]. *)
Definition missing_module_line (name : string) : string :=
  ("ModuleNotFoundError: No module named '" ++ name ++ "'")%string.

(** [self.error_patterns.get(error_type)] *)
Definition lookup_pattern (t : table) (name : string) : option pattern_info :=
  option_map snd (List.find (fun entry => String.eqb (fst entry) name) t).

(** [get_quick_fix]: the fixes of a diagnoser made for the call. *)
Definition get_quick_fix (name : string) : list string :=
  match lookup_pattern _initialize_patterns name with
  | Some info => fixes info
  | None => ["No quick fixes available for this error type"]
  end.

(** The dictionary [analyze_execution_result] returns (without the
    execution time). *)
Record ExecutionAnalysis : Type := mkExecutionAnalysis {
  ea_success : bool;
  ea_exit_code : option Z;
  ea_errors : list Diagnosis;
  ea_warnings : list string;
  ea_recommendations : list string
}.

(** [categories[cat] = categories.get(cat, 0) + 1] on the items of the
    dictionary, in insertion order. *)
Fixpoint bump (cat : string) (counts : list (string * nat))
  : list (string * nat) :=
  match counts with
  | [] => [(cat, 1%nat)]
  | (c, n) :: counts' =>
      if String.eqb c cat then (c, S n) :: counts'
      else (c, n) :: bump cat counts'
  end.

Definition count_categories (errors : list Diagnosis) : list (string * nat) :=
  fold_left (fun counts error => bump (d_category error) counts) errors [].

(** [max(categories, key=categories.get)]: the first key with the largest
    count; [None] for the empty dictionary, where the source does not
    call [max]. *)
Definition most_common (counts : list (string * nat)) : option string :=
  match counts with
  | [] => None
  | first :: counts' =>
      Some (fst (fold_left (fun best item =>
                              if (snd best <? snd item)%nat then item else best)
                   counts' first))
  end.

Definition review_logs : string := "ðŸ“ Review full error logs for more details".

(** [_generate_recommendations] *)
Definition _generate_recommendations (errors : list Diagnosis)
    (exit_code : option Z) : list string :=
  (match most_common (count_categories errors) with
   | Some cat =>
       if String.eqb cat "dependency" then
         ["ðŸ”§ Consider creating a fresh virtual environment"; "ðŸ“¦ Review and install all dependencies from requirements.txt"]
       else if String.eqb cat "gpu" then
         ["ðŸŽ® Check GPU availability and CUDA installation"; "ðŸ’» Consider running on CPU or cloud GPU service"]
       else if String.eqb cat "data" then
         ["ðŸ“ Verify all required data files are downloaded"; "ðŸ” Check README for data preparation instructions"]
       else if String.eqb cat "network" then
         ["ðŸŒ Check internet connectivity"; "â±ï¸ Try increasing timeout settings"]
       else []
   | None => []
   end)
  ++ (match exit_code with
      | Some 0%Z => []
      | _ => [review_logs]
      end).

(** The recommendations for a category, as a table. *)
Definition category_advice (cat : string) : list string :=
  if String.eqb cat "dependency" then
    ["ðŸ”§ Consider creating a fresh virtual environment"; "ðŸ“¦ Review and install all dependencies from requirements.txt"]
  else if String.eqb cat "gpu" then
    ["ðŸŽ® Check GPU availability and CUDA installation"; "ðŸ’» Consider running on CPU or cloud GPU service"]
  else if String.eqb cat "data" then
    ["ðŸ“ Verify all required data files are downloaded"; "ðŸ” Check README for data preparation instructions"]
  else if String.eqb cat "network" then
    ["ðŸŒ Check internet connectivity"; "â±ï¸ Try increasing timeout settings"]
  else [].

(** [categories.get(cat, 0)] *)
Fixpoint count_of (cat : string) (counts : list (string * nat)) : nat :=
  match counts with
  | [] => 0%nat
  | (c, n) :: counts' => if String.eqb c cat then n else count_of cat counts'
  end.

(** The number of diagnoses of the category [cat]. *)
Definition occurrences (cat : string) (errors : list Diagnosis) : nat :=
  List.length
    (List.filter (fun error => String.eqb (d_category error) cat) errors).

(** [cat] is the most common category of [errors]: it is the category of
    one of them, no category has more diagnoses, and every diagnosis
    before the first one of category [cat] has a category with fewer. *)
Definition most_common_category (cat : string) (errors : list Diagnosis)
  : Prop :=
  (exists error, In error errors /\ d_category error = cat) /\
  (forall other, (occurrences other errors <= occurrences cat errors)%nat) /\
  (forall before error after,
     errors = before ++ error :: after ->
     (forall e, In e (before ++ [error]) -> d_category e <> cat) ->
     (occurrences (d_category error) errors < occurrences cat errors)%nat).

(** The loop over [result_dict['errors']]: each error is diagnosed
    without a context, on the diagnoser as the calls before left it. *)
Fixpoint diagnose_each (t : table) (errors : list string)
  : list Diagnosis * table :=
  match errors with
  | [] => ([], t)
  | error :: errors' =>
      let '(d, t1) := diagnose t error None in
      let '(ds, t2) := diagnose_each t1 errors' in
      (d :: ds, t2)
  end.

(** [analyze_execution_result] on the dictionary of an execution
    result. *)
Definition analyze_execution_result (t : table) (r : Executor.ExecutionResult)
  : ExecutionAnalysis * table :=
  let '(ds, t1) := diagnose_each t (Executor.errors r) in
  let '(ds', t2) :=
    match Executor.stderr r with
    | EmptyString => (ds, t1)
    | stderr_text =>
        let '(d, t2) := diagnose t1 stderr_text None in
        (if matched_pattern d then ds ++ [d] else ds, t2)
    end in
  (mkExecutionAnalysis (Executor.success r) (Executor.exit_code r) ds'
     (Executor.warnings r)
     (if Executor.success r then []
      else _generate_recommendations ds' (Executor.exit_code r)),
   t2).

End Diagnosis.

(* ===================================================================== *)
(** * cache.py *)
(* ===================================================================== *)

Module Cache.

(** ** [hashlib.md5] (RFC 1321) *)
Module MD5.
Local Open Scope Z_scope.

(** 32-bit words are integers in [0, 2^32). *)
Definition word (x : Z) : Z := Z.land x 0xffffffff.

Definition rotl (x : Z) (c : Z) : Z :=
  Z.lor (word (Z.shiftl x c)) (Z.shiftr x (32 - c)).

Definition lnot32 (x : Z) : Z := Z.lxor x 0xffffffff.

(** The shift of each of the 64 operations, and the constants
    [floor(2^32 * abs(sin(i + 1)))]. *)
Definition shifts : list Z :=
  [7; 12; 17; 22; 7; 12; 17; 22; 7; 12; 17; 22; 7; 12; 17; 22;
   5; 9; 14; 20; 5; 9; 14; 20; 5; 9; 14; 20; 5; 9; 14; 20;
   4; 11; 16; 23; 4; 11; 16; 23; 4; 11; 16; 23; 4; 11; 16; 23;
   6; 10; 15; 21; 6; 10; 15; 21; 6; 10; 15; 21; 6; 10; 15; 21].

Definition sines : list Z :=
  [0xd76aa478; 0xe8c7b756; 0x242070db; 0xc1bdceee;
   0xf57c0faf; 0x4787c62a; 0xa8304613; 0xfd469501;
   0x698098d8; 0x8b44f7af; 0xffff5bb1; 0x895cd7be;
   0x6b901122; 0xfd987193; 0xa679438e; 0x49b40821;
   0xf61e2562; 0xc040b340; 0x265e5a51; 0xe9b6c7aa;
   0xd62f105d; 0x02441453; 0xd8a1e681; 0xe7d3fbc8;
   0x21e1cde6; 0xc33707d6; 0xf4d50d87; 0x455a14ed;
   0xa9e3e905; 0xfcefa3f8; 0x676f02d9; 0x8d2a4c8a;
   0xfffa3942; 0x8771f681; 0x6d9d6122; 0xfde5380c;
   0xa4beea44; 0x4bdecfa9; 0xf6bb4b60; 0xbebfbc70;
   0x289b7ec6; 0xeaa127fa; 0xd4ef3085; 0x04881d05;
   0xd9d4d039; 0xe6db99e5; 0x1fa27cf8; 0xc4ac5665;
   0xf4292244; 0x432aff97; 0xab9423a7; 0xfc93a039;
   0x655b59c3; 0x8f0ccc92; 0xffeff47d; 0x85845dd1;
   0x6fa87e4f; 0xfe2ce6e0; 0xa3014314; 0x4e0811a1;
   0xf7537e82; 0xbd3af235; 0x2ad7d2bb; 0xeb86d391].

(** The bytes of [identifier.encode()]: a string holds the UTF-8
    encoding of its text. *)
Fixpoint bytes_of (s : string) : list Z :=
  match s with
  | EmptyString => []
  | String c s' => Z.of_N (N_of_ascii c) :: bytes_of s'
  end.

(** [n] as [count] bytes, least significant first. *)
Fixpoint le_bytes (count : nat) (n : Z) : list Z :=
  match count with
  | O => []
  | S count' => Z.land n 0xff :: le_bytes count' (Z.shiftr n 8)
  end.

(** The message, the byte 0x80, zero bytes up to 56 modulo 64, and the
    length of the message in bits as 8 bytes. *)
Definition pad (message : list Z) : list Z :=
  let len := Z.of_nat (List.length message) in
  let zeros := Z.to_nat ((55 - len) mod 64) in
  message ++ [0x80] ++ repeat 0 zeros
    ++ le_bytes 8 (Z.land (8 * len) 0xffffffffffffffff).

(** The first [count] little-endian words of a block. *)
Fixpoint words_of (count : nat) (block : list Z) : list Z :=
  match count with
  | O => []
  | S count' =>
      match block with
      | b0 :: b1 :: b2 :: b3 :: block' =>
          (b0 + Z.shiftl b1 8 + Z.shiftl b2 16 + Z.shiftl b3 24)
            :: words_of count' block'
      | _ => []
      end
  end.

Record state : Type := mkState { sa : Z; sb : Z; sc : Z; sd : Z }.

Definition initial : state :=
  mkState 0x67452301 0xefcdab89 0x98badcfe 0x10325476.

(** Operation [i] of the 64 on a block with the words [M]. *)
Definition step (M : list Z) (st : state) (i : Z) : state :=
  let '(mkState A B C D) := st in
  let '(F, g) :=
    if i <? 16 then (Z.lor (Z.land B C) (Z.land (lnot32 B) D), i)
    else if i <? 32 then
      (Z.lor (Z.land D B) (Z.land (lnot32 D) C), (5 * i + 1) mod 16)
    else if i <? 48 then (Z.lxor (Z.lxor B C) D, (3 * i + 5) mod 16)
    else (Z.lxor C (Z.lor B (lnot32 D)), (7 * i) mod 16) in
  let F := word (F + A + nth (Z.to_nat i) sines 0 + nth (Z.to_nat g) M 0) in
  mkState D (word (B + rotl F (nth (Z.to_nat i) shifts 0))) B C.

Definition rounds : list Z := List.map Z.of_nat (seq 0 64).

Definition compress (st : state) (block : list Z) : state :=
  let '(mkState A B C D) := fold_left (step (words_of 16 block)) rounds st in
  mkState (word (sa st + A)) (word (sb st + B))
          (word (sc st + C)) (word (sd st + D)).

Fixpoint blocks (count : nat) (bytes : list Z) : list (list Z) :=
  match count with
  | O => []
  | S count' => firstn 64 bytes :: blocks count' (skipn 64 bytes)
  end.

Definition digest (message : list Z) : list Z :=
  let padded := pad message in
  let st :=
    fold_left compress (blocks (Nat.div (List.length padded) 64) padded)
      initial in
  le_bytes 4 (sa st) ++ le_bytes 4 (sb st)
    ++ le_bytes 4 (sc st) ++ le_bytes 4 (sd st).

Definition hex_digit (n : Z) : ascii :=
  match n with
  | 0 => "0" | 1 => "1" | 2 => "2" | 3 => "3"
  | 4 => "4" | 5 => "5" | 6 => "6" | 7 => "7"
  | 8 => "8" | 9 => "9" | 10 => "a" | 11 => "b"
  | 12 => "c" | 13 => "d" | 14 => "e" | _ => "f"
  end%char.

Fixpoint hex (bytes : list Z) : string :=
  match bytes with
  | [] => EmptyString
  | b :: bytes' =>
      String (hex_digit (Z.shiftr b 4))
        (String (hex_digit (Z.land b 0xf)) (hex bytes'))
  end.

(** [hashlib.md5(data).hexdigest()] *)
Definition hexdigest (data : string) : string := hex (digest (bytes_of data)).

End MD5.

(** ** Python values and JSON documents *)

(** The keys of a dictionary as [json.dump] tells them apart; [KOther]
    is any other hashable object (a tuple, a frozenset, ...). *)
Inductive py_key : Type :=
  | KStr (s : string)
  | KInt (n : Z)
  | KFloat (x : float)
  | KBool (b : bool)
  | KNone
  | KOther.

(** The objects a caller hands to the cache and gets back from it.
    [PDict] lists the items of a dictionary in insertion order;
    [PObject] is an object of any other type, with the text [str] returns
    for it.  Objects that contain themselves are not values of this
    type. *)
Unset Elimination Schemes.
Inductive py : Type :=
  | PNone
  | PBool (b : bool)
  | PInt (n : Z)
  | PFloat (x : float)
  | PStr (s : string)
  | PList (items : list py)
  | PTuple (items : list py)
  | PDict (items : list (py_key * py))
  | PObject (str : string).

(** A JSON document: the content of a file that [json.load] accepts.
    An object lists its members as they are written, a name possibly more
    than once; [JReal x] is the literal that denotes the float [x]
    ([float.__repr__] writes the shortest literal that reads back as [x];
    [NaN] and [Infinity] are written and read as such). *)
Inductive json : Type :=
  | JNull
  | JBool (b : bool)
  | JInt (n : Z)
  | JReal (x : float)
  | JStr (s : string)
  | JArr (items : list json)
  | JObj (members : list (string * json)).
Set Elimination Schemes.

(** A file of the cache directory: [Corrupt] when [json.load] raises on
    it. *)
Inductive file_content : Type :=
  | Corrupt
  | Json (j : json).

(** What the cache takes from the interpreter: the ISO rendering of a
    [datetime] with its parser (a point in time is a number of
    microseconds), [float.__repr__], and whether an integer is within the
    limit on the conversion of integers to text (where there is one,
    [str(n)] raises [ValueError] beyond it). *)
Record platform : Type := mkPlatform {
  isoformat : Z -> string;
  fromisoformat : string -> option Z;
  float_repr : float -> string;
  int_str_ok : Z -> bool
}.


(** [d[name] = value] on the items of a dictionary whose keys are
    strings. *)
Definition key_is (name : string) (k : py_key) : bool :=
  match k with
  | KStr s => String.eqb s name
  | _ => false
  end.

Fixpoint dict_set (name : string) (value : py) (items : list (py_key * py))
  : list (py_key * py) :=
  match items with
  | [] => [(KStr name, value)]
  | (k, v) :: items' =>
      if key_is name k then (k, value) :: items'
      else (k, v) :: dict_set name value items'
  end.

(** [d.get(name)] *)
Fixpoint dict_get (name : string) (items : list (py_key * py)) : option py :=
  match items with
  | [] => None
  | (k, v) :: items' => if key_is name k then Some v else dict_get name items'
  end.

(** The dictionary [json.load] builds from the members of an object: a
    name written twice keeps its first place and its last value. *)
Definition dict_of (members : list (string * py)) : list (py_key * py) :=
  fold_left (fun items member => dict_set (fst member) (snd member) items)
    members [].

(** [json.load]: arrays become lists and objects dictionaries with
    string keys. *)
Fixpoint load (j : json) : py :=
  match j with
  | JNull => PNone
  | JBool b => PBool b
  | JInt n => PInt n
  | JReal x => PFloat x
  | JStr s => PStr s
  | JArr items => PList (List.map load items)
  | JObj members =>
      PDict (dict_of (List.map (fun member => (fst member, load (snd member)))
                        members))
  end.

(** The results of the parts when none of them raised. *)
Fixpoint all_some {A : Type} (l : list (option A)) : option (list A) :=
  match l with
  | [] => Some []
  | Some x :: l' => option_map (cons x) (all_some l')
  | None :: _ => None
  end.

Section Dump.
Variable pf : platform.

(** The name [json.dump] writes for a key; [None] when it raises
    [TypeError] (keys must be str, int, float, bool or None) or
    [ValueError] (the integer is beyond the conversion limit). *)
Definition key_text (k : py_key) : option string :=
  match k with
  | KStr s => Some s
  | KFloat x => Some (float_repr pf x)
  | KBool true => Some "true"
  | KBool false => Some "false"
  | KNone => Some "null"
  | KInt n => if int_str_ok pf n then Some (pretty n) else None
  | KOther => None
  end.

(** [json.dump(o, f, indent=2, default=str)]: the document written, or
    [None] when the call raises.  Lists and tuples are written as arrays,
    and an object of another type as the string [str] returns for it. *)
Fixpoint dump (o : py) : option json :=
  match o with
  | PNone => Some JNull
  | PBool b => Some (JBool b)
  | PInt n => if int_str_ok pf n then Some (JInt n) else None
  | PFloat x => Some (JReal x)
  | PStr s => Some (JStr s)
  | PList items | PTuple items =>
      option_map JArr (all_some (List.map dump items))
  | PDict items =>
      option_map JObj
        (all_some
           (List.map
              (fun item =>
                 match key_text (fst item), dump (snd item) with
                 | Some name, Some j => Some (name, j)
                 | _, _ => None
                 end) items))
  | PObject text => Some (JStr text)
  end.





End Dump.

(** Truth value of an object. *)
Definition truthy (o : py) : bool :=
  match o with
  | PNone => false
  | PBool b => b
  | PInt n => negb (n =? 0)%Z
  | PFloat x => negb (PrimFloat.eqb x 0%float)
  | PStr s => negb (String.eqb s "")
  | PList items | PTuple items => match items with [] => false | _ => true end
  | PDict items => match items with [] => false | _ => true end
  | PObject _ => true
  end.

(** ** [ReproducerCache] *)

Inductive kind : Type := PaperMetadata | RepositoryInfo | Analysis.

Definition subdir (k : kind) : string :=
  match k with
  | PaperMetadata => "papers"
  | RepositoryInfo => "repositories"
  | Analysis => "analysis"
  end.

Definition id_field (k : kind) : string :=
  match k with
  | PaperMetadata => "paper_id"
  | RepositoryInfo | Analysis => "repo_url"
  end.

Definition payload_field (k : kind) : string :=
  match k with
  | PaperMetadata => "metadata"
  | RepositoryInfo => "repo_info"
  | Analysis => "analysis"
  end.

(** The [max_age_days] each getter passes to [_is_cache_valid]. *)
Definition max_age_days (k : kind) : Z :=
  match k with
  | PaperMetadata => 30
  | RepositoryInfo => 7
  | Analysis => 3
  end.

(** [timedelta(days=d)] in microseconds. *)
Definition timedelta_days (d : Z) : Z := (d * 86400 * 1000000)%Z.

(** [_get_cache_key] *)
Definition _get_cache_key (identifier : string) : string :=
  MD5.hexdigest identifier.

Section WithPlatform.
Variable pf : platform.
Variable cache_dir : string.

(** [self.<kind>_cache_dir / f"{cache_key}.json"] *)
Definition cache_file (k : kind) (identifier : string) : string :=
  (cache_dir ++ "/" ++ subdir k ++ "/" ++ _get_cache_key identifier ++ ".json")%string.

(** [_is_cache_valid] at clock reading [now]: any exception of its body
    makes the entry invalid. *)
Definition _is_cache_valid (fs : gmap string file_content) (path : string)
    (max_age : Z) (now : Z) : bool :=
  match fs !! path with
  | None => false
  | Some Corrupt => false
  | Some (Json j) =>
      match load j with
      | PDict data =>
          match default (PStr "") (dict_get "cached_at" data) with
          | PStr text =>
              match fromisoformat pf text with
              | Some cached_time =>
                  (now - cached_time <? timedelta_days max_age)%Z
              | None => false
              end
          | _ => false
          end
      | _ => false
      end
  end.

(** [get_paper_metadata] / [get_repository_info] / [get_analysis]. *)
Definition get (k : kind) (fs : gmap string file_content)
    (identifier : string) (now : Z) : py :=
  let path := cache_file k identifier in
  if _is_cache_valid fs path (max_age_days k) now then
    match fs !! path with
    | Some (Json j) =>
        match load j with
        | PDict data =>
            match dict_get (payload_field k) data with
            | Some payload => payload
            | None => PNone
            end
        | _ => PNone
        end
    | _ => PNone
    end
  else PNone.

(** The dictionary [data] of a setter. *)
Definition entry (k : kind) (identifier : string) (payload : py) (now : Z)
  : py :=
  PDict [ (KStr (id_field k), PStr identifier);
          (KStr (payload_field k), payload);
          (KStr "cached_at", PStr (isoformat pf now)) ].

(** [set_paper_metadata] / [set_repository_info] / [set_analysis].  The
    file is opened for writing, which empties it, and [json.dump] writes
    the document piece by piece; when it raises, the exception is logged
    and swallowed and the file is left with the beginning of a document.
    The directory is taken to be writable. *)
Definition set (k : kind) (fs : gmap string file_content)
    (identifier : string) (payload : py) (now : Z)
  : gmap string file_content :=
  <[ cache_file k identifier :=
       match dump pf (entry k identifier payload now) with
       | Some document => Json document
       | None => Corrupt
       end ]> fs.

Definition get_repository_info := get RepositoryInfo.
Definition set_repository_info := set RepositoryInfo.
Definition get_analysis := get Analysis.
Definition set_analysis := set Analysis.


(** [path] is [dir/<name>.json] for a [name] without a slash: what
    [dir.glob('*.json')] lists. *)
Definition globbed (dir path : string) : bool :=
  let prefix := (dir ++ "/")%string in
  Str.startswith prefix path &&
  (let name := String.substring (String.length prefix)
                 (String.length path - String.length prefix) path in
   negb (Str.contains "/" name) &&
   Str.startswith (Str.rev ".json") (Str.rev name)).

Definition kind_dir (k : kind) : string := (cache_dir ++ "/" ++ subdir k)%string.

Definition clear_kind (k : kind) (fs : gmap string file_content)
  : gmap string file_content :=
  filter (fun entry => globbed (kind_dir k) (fst entry) = false) fs.

(** [clear_cache(cache_type)] *)
Definition clear_cache (cache_type : option string)
    (fs : gmap string file_content) : gmap string file_content :=
  let selected (name : string) :=
    match cache_type with
    | None => true
    | Some t => String.eqb t name
    end in
  let fs1 := if selected "papers" then clear_kind PaperMetadata fs else fs in
  let fs2 := if selected "repositories" then clear_kind RepositoryInfo fs1 else fs1 in
  if selected "analysis" then clear_kind Analysis fs2 else fs2.

(** Operations that change the cache directory. *)
Inductive op : Type :=
  | SetOp (k : kind) (identifier : string) (payload : py) (now : Z)
  | ClearOp (cache_type : option string).

Definition apply_op (fs : gmap string file_content) (o : op)
  : gmap string file_content :=
  match o with
  | SetOp k identifier payload now => set k fs identifier payload now
  | ClearOp cache_type => clear_cache cache_type fs
  end.

(** The directory after a history of operations on a new, empty one. *)
Definition after (history : list op) : gmap string file_content :=
  fold_left apply_op history ∅.



(** [len(list(dir.glob('*.json')))] for the directory of a kind. *)
Definition count_json (k : kind) (fs : gmap string file_content) : nat :=
  size (filter (fun entry => globbed (kind_dir k) (fst entry) = true) fs).

(** [get_cache_stats]: the numbers of entries per kind and the cache root. *)
Definition get_cache_stats (fs : gmap string file_content)
  : nat * nat * nat * string :=
  (count_json PaperMetadata fs, count_json RepositoryInfo fs,
   count_json Analysis fs, cache_dir).

End WithPlatform.

(** A platform for examples: a time stamp is rendered as its sign and
    binary digits, a float by its sign, mantissa and exponent, and
    integers of up to 4300 decimal digits are converted to text. *)
Fixpoint bits_of_pos (p : positive) : string :=
  match p with
  | xH => "1"
  | xO p' => String "0" (bits_of_pos p')
  | xI p' => String "1" (bits_of_pos p')
  end.

Fixpoint pos_of_bits (s : string) : option positive :=
  match s with
  | "1" => Some xH
  | String "0" s' => option_map xO (pos_of_bits s')
  | String "1" s' => option_map xI (pos_of_bits s')
  | _ => None
  end.

Definition example_isoformat (t : Z) : string :=
  match t with
  | Z0 => "0"
  | Zpos p => String "+" (bits_of_pos p)
  | Zneg p => String "-" (bits_of_pos p)
  end.

Definition example_fromisoformat (s : string) : option Z :=
  match s with
  | "0" => Some Z0
  | String "+" s' => option_map Zpos (pos_of_bits s')
  | String "-" s' => option_map Zneg (pos_of_bits s')
  | _ => None
  end.

Definition example_float_repr (x : float) : string :=
  match Prim2SF x with
  | S754_zero false => "0.0"
  | S754_zero true => "-0.0"
  | S754_infinity false => "inf"
  | S754_infinity true => "-inf"
  | S754_nan => "nan"
  | S754_finite s m e =>
      ((if s then "-" else "") ++ bits_of_pos m ++ "p" ++ example_isoformat e)%string
  end.

Definition example_platform : platform :=
  mkPlatform example_isoformat example_fromisoformat example_float_repr
    (fun n => (Z.abs n <? 10 ^ 4300)%Z).


End Cache.

(* ===================================================================== *)
(** * orchestrator.py *)
(* ===================================================================== *)

Module Orchestrator.

(** What a paper dictionary holds under ['title']: no such key, the value
    [None] (every extractor starts from ['title': None]), or a text. *)
Inductive title_value : Type :=
  | NoTitleKey
  | TitleIsNone
  | Title (text : string).

(** Paper metadata as the ingestion collaborator hands it over. *)
Record paper : Type := mkPaper {
  title : title_value;
  authors : list string;
  abstract : option string;
  github_urls : list string;
  arxiv_id : option string
}.

(** [self.report] *)
Record report : Type := mkReport {
  r_paper : option paper;
  r_repositories : list Finder.repo;
  r_analysis : option EnvSetup.analysis;
  r_environment : option EnvSetup.env_info;
  r_execution : option Executor.ExecutionResult;
  r_success : bool;
  r_timestamp : option string
}.

(** The report of [__init__]. *)
Definition new_report : report :=
  mkReport None [] None None None false None.

(** An entry of the checkpoint dictionary: [{'timestamp': .., 'data': ..}]
    under a stage name, or the stage name stored under ['last_stage']. *)
Inductive checkpoint_value : Type :=
  | StageEntry (timestamp : string) (data : paper)
  | LastStage (stage : string).

(** The file [.checkpoint.json] of the session directory. *)
Inductive checkpoint_file : Type :=
  | NoFile
  | Unreadable
  | Mapping (m : gmap string checkpoint_value).

(** What a run leaves behind: the report object, the checkpoint file, the
    successive contents written to [report.json], and the console. *)
Record state : Type := mkState {
  st_report : report;
  st_checkpoint : checkpoint_file;
  st_report_file : list report;
  st_console : list string
}.

(** How [_reproduce_from_metadata] ends when it is left to run: it
    returns [self.report], or the slice of a [None] title raises
    [TypeError] before the session directory exists.  A run that the
    user interrupts is dealt with where the interrupt is caught, in the
    command line. *)
Inductive run_result : Type :=
  | Returns (st : state)
  | RaisesTypeError (st : state).

(** The answers of the interactive session ([user_config]). *)
Record user_config : Type := mkUserConfig {
  uc_env_type : option string;
  uc_run_command : option string;
  uc_entry_point : option EnvSetup.entry_point;
  uc_timeout_minutes : option Z
}.

(** The collaborators of one run and the host it runs on.  Their calls are
    taken to return; only the clone is wrapped in a [try] by the source. *)
Record collaborators : Type := mkCollaborators {
  work_dir : string;
  clock_iso : string;                 (* datetime.now().isoformat() *)
  clock_stamp : string;               (* strftime('%Y%m%d_%H%M%S') *)
  existing_checkpoint : checkpoint_file;
  find_repositories : paper -> list Finder.repo;
  ask_repository_selection : list Finder.repo -> option Finder.repo;
  clone_from : string -> option string;   (* [Some e]: the clone raised [e] *)
  analyze : EnvSetup.analysis;
  gather_requirements : user_config;
  display_summary : bool;
  host : EnvSetup.world;
  popen : string -> Z -> Executor.popen
}.

Definition print (line : string) (st : state) : state :=
  mkState (st_report st) (st_checkpoint st) (st_report_file st)
    (st_console st ++ [line]).

Definition update_report (f : report -> report) (st : state) : state :=
  mkState (f (st_report st)) (st_checkpoint st) (st_report_file st)
    (st_console st).

Definition set_paper (p : paper) (r : report) : report :=
  mkReport (Some p) (r_repositories r) (r_analysis r) (r_environment r)
    (r_execution r) (r_success r) (r_timestamp r).

Definition set_repositories (l : list Finder.repo) (r : report) : report :=
  mkReport (r_paper r) l (r_analysis r) (r_environment r)
    (r_execution r) (r_success r) (r_timestamp r).

Definition set_analysis (a : EnvSetup.analysis) (r : report) : report :=
  mkReport (r_paper r) (r_repositories r) (Some a) (r_environment r)
    (r_execution r) (r_success r) (r_timestamp r).

Definition set_environment (e : EnvSetup.env_info) (r : report) : report :=
  mkReport (r_paper r) (r_repositories r) (r_analysis r) (Some e)
    (r_execution r) (r_success r) (r_timestamp r).

Definition set_execution (x : Executor.ExecutionResult) (r : report) : report :=
  mkReport (r_paper r) (r_repositories r) (r_analysis r) (r_environment r)
    (Some x) (r_success r) (r_timestamp r).

Definition set_success (b : bool) (r : report) : report :=
  mkReport (r_paper r) (r_repositories r) (r_analysis r) (r_environment r)
    (r_execution r) b (r_timestamp r).

Definition set_timestamp (t : string) (r : report) : report :=
  mkReport (r_paper r) (r_repositories r) (r_analysis r) (r_environment r)
    (r_execution r) (r_success r) (Some t).

(** [_save_report]: one more write of [report.json]. *)
Definition _save_report (st : state) : state :=
  mkState (st_report st) (st_checkpoint st)
    (st_report_file st ++ [st_report st]) (st_console st).

(** [_save_checkpoint(stage, data)] on the checkpoint file, at clock
    reading [now]; [has_path] is [self.checkpoint_file] being set. *)
Definition _save_checkpoint (has_path : bool) (stage : string) (data : paper)
    (now : string) (file : checkpoint_file) : checkpoint_file :=
  if has_path then
    let checkpoint : gmap string checkpoint_value :=
      match file with
      | Mapping m => m
      | NoFile | Unreadable => ∅
      end in
    Mapping (<["last_stage" := LastStage stage]>
               (<[stage := StageEntry now data]> checkpoint))
  else file.


(** Truth value of an optional string ([None] and [''] are false). *)
Definition truthy (s : option string) : bool :=
  match s with
  | None | Some EmptyString => false
  | Some _ => true
  end.

Definition rule : string := String.concat "" (repeat "=" 60).

Section Run.
Variable c : collaborators.
Variable interactive : bool.
Variable timeout : option Z.
Variable session_dir : string.

Definition repo_path : string := EnvSetup.path_join session_dir "repo".

(** "Determine what to run": [None] when no entry point is known,
    otherwise the command, which may itself be [None]. *)
Definition choose_command (cfg : user_config) (analysis : EnvSetup.analysis)
  : option (option string) :=
  if interactive && truthy (uc_run_command cfg) then Some (uc_run_command cfg)
  else match (if interactive then uc_entry_point cfg else None) with
       | Some ep => Some (EnvSetup.ep_command ep)
       | None =>
           match EnvSetup.entry_points analysis with
           | ep0 :: _ => Some (EnvSetup.ep_command ep0)
           | [] => None
           end
       end.

(** [timeout or (user_config.get('timeout_minutes', 30) * 60)] *)
Definition effective_timeout (cfg : user_config) : Z :=
  let minutes := default 30%Z (uc_timeout_minutes cfg) in
  match timeout with
  | Some t => if (t =? 0)%Z then (minutes * 60)%Z else t
  | None => (minutes * 60)%Z
  end.

(** Steps 5 and 6: run the command, store the result, save the report,
    print the summary. *)
Definition execute_stage (cfg : user_config) (analysis : EnvSetup.analysis)
    (st : state) : state :=
  let st := print "[bold]Step 5: Executing code[/bold]" st in
  match choose_command cfg analysis with
  | None =>
      print ("  " ++ repo_path)%string
        (print "Please run the code manually from:"
           (print "[yellow]⚠ No clear entry point found[/yellow]" st))
  | Some command =>
      let exec_timeout := effective_timeout cfg in
      let world :=
        match command with
        | Some cmd => popen c cmd exec_timeout
        | None =>
            Executor.PopenRaises "'NoneType' object is not iterable"
        end in
      let result :=
        Executor.execute (default "None" command) (Some exec_timeout)
          true true world in
      let st := update_report (set_execution result) st in
      let st := update_report (set_success (Executor.success result)) st in
      let st := _save_report st in
      let st := print rule st in
      let st :=
        if r_success (st_report st)
        then print "[bold green]✓ Reproduction completed successfully![/bold green]" st
        else print "[bold red]✗ Reproduction failed[/bold red]" st in
      let st :=
        print ("Report saved to: "
               ++ EnvSetup.path_join session_dir "report.json")%string st in
      print rule st
  end.

(** The strategy Step 4 runs, by the preference of the caller. *)
Definition choose_environment (cfg : user_config)
    (analysis : EnvSetup.analysis) : EnvSetup.env_info :=
  let envs := EnvSetup.path_join session_dir "envs" in
  let env_type :=
    if interactive && truthy (uc_env_type cfg)
    then default "auto" (uc_env_type cfg) else "auto" in
  if String.eqb env_type "docker"
     || (String.eqb env_type "auto" && EnvSetup.docker_support analysis)
  then EnvSetup.Strategy
         (EnvSetup.setup_docker_env (host c) repo_path analysis
            "research_reproducer")
  else if String.eqb env_type "conda"
  then EnvSetup.Strategy
         (EnvSetup.setup_conda_env (host c) repo_path analysis "research_env")
  else if String.eqb env_type "venv"
  then EnvSetup.Strategy
         (EnvSetup.setup_python_venv (host c) envs repo_path analysis
            "venv" None)
  else EnvSetup.auto_setup (host c) envs repo_path analysis true false.

(** Printing the errors of a failed environment, one line each. *)
Definition print_errors (errors : list string) (st : state) : state :=
  fold_left (fun acc error => print ("  • " ++ error)%string acc) errors st.

(** Step 4: set up the environment. *)
Definition environment_stage (cfg : user_config) (analysis : EnvSetup.analysis)
    (st : state) : state :=
  let st := print "[bold]Step 4: Setting up environment[/bold]" st in
  let env_info := choose_environment cfg analysis in
  let st := update_report (set_environment env_info) st in
  if EnvSetup.env_success env_info then
    let st :=
      print ("[green]✓[/green] Environment ready ("
             ++ EnvSetup.env_type env_info ++ ")")%string st in
    execute_stage cfg analysis st
  else
    print_errors (EnvSetup.env_errors env_info)
      (print "[red]✗ Environment setup failed[/red]" st).

(** [user_config] once the interactive session has gathered its answers:
    the empty dictionary in non-interactive mode. *)
Definition session_config : user_config :=
  if interactive then gather_requirements c
  else mkUserConfig None None None None.

(** Step 3: analyse the clone, then finish the interactive session. *)
Definition analysis_stage (st : state) : state :=
  let st := print "[bold]Step 3: Analyzing repository[/bold]" st in
  let analysis := analyze c in
  let st := update_report (set_analysis analysis) st in
  let st := print "[green]✓[/green] Analysis complete" st in
  let st :=
    print ("  Languages: "
           ++ String.concat ", " (EnvSetup.languages analysis))%string st in
  if interactive && negb (display_summary c)
  then print "[yellow]⚠ Reproduction cancelled by user[/yellow]" st
  else environment_stage session_config analysis st.

(** Step 2: clone the selected repository. *)
Definition clone_stage (selected_repo : Finder.repo) (st : state) : state :=
  let st := print "[bold]Step 2: Cloning repository[/bold]" st in
  match clone_from c (Finder.url selected_repo) with
  | Some e =>
      update_report (set_success false)
        (print ("[red]✗ Failed to clone repository: " ++ e ++ "[/red]")%string st)
  | None =>
      analysis_stage (print "[green]✓[/green] Repository cloned" st)
  end.
End Run.

(** [paper_metadata.get('title', 'unknown')]: [None] when the value is
    Python's [None]. *)
Definition title_text (p : paper) : option string :=
  match title p with
  | NoTitleKey => Some "unknown"
  | TitleIsNone => None
  | Title text => Some text
  end.

(** [title[:50].replace(' ', '_')] *)
Definition paper_name (text : string) : string :=
  Diagnosis.replace_from " " "_" (String.substring 0 50 text) 0.

(** [self.work_dir / f"{paper_name}_{timestamp}"] *)
Definition session_dir_of (c : collaborators) (text : string) : string :=
  EnvSetup.path_join (work_dir c) (paper_name text ++ "_" ++ clock_stamp c)%string.

(** The body of [_reproduce_from_metadata] from the creation of the
    session directory on, for a paper whose title is [text].  The optional
    AI assistant is left out: the source catches its failures and its
    output only fills [report['ai_insights']].  Progress spinners, the two
    analysis lines about dependencies and complexity, and the line breaks
    inside console messages are left out as well. *)
Definition pipeline (c : collaborators) (st : state)
    (paper_metadata : paper) (text : string) (interactive : bool)
    (timeout : option Z) : state :=
  let session_dir := session_dir_of c text in
  let st := print ("[dim]Session directory: " ++ session_dir ++ "[/dim]")%string st in
  let st :=
    mkState (st_report st)
      (_save_checkpoint true "initialized" paper_metadata (clock_iso c)
         (st_checkpoint st))
      (st_report_file st) (st_console st) in
  let st := print "[bold]Step 1: Finding repositories[/bold]" st in
  let repos := find_repositories c paper_metadata in
  match repos with
  | [] =>
      update_report (set_success false)
        (print "This paper may not have publicly available code."
           (print "[red]✗ No repositories found[/red]" st))
  | _ :: _ =>
      let st :=
        print ("[green]✓[/green] Found " ++ pretty (length repos)
               ++ " repository(ies)")%string st in
      let st := update_report (set_repositories repos) st in
      if interactive then
        match ask_repository_selection c repos with
        | None => print "[red]✗ No repository selected[/red]" st
        | Some selected_repo =>
            clone_stage c interactive timeout session_dir selected_repo st
        end
      else
        match Finder.get_official_repository repos with
        | Some selected_repo =>
            clone_stage c interactive timeout session_dir selected_repo st
        | None => st   (* not reached: [repos] is not empty *)
        end
  end.

(** [_reproduce_from_metadata] *)
Definition _reproduce_from_metadata (c : collaborators) (st : state)
    (paper_metadata : paper) (interactive : bool) (timeout : option Z)
  : run_result :=
  let st := update_report (set_timestamp (clock_iso c)) st in
  match title_text paper_metadata with
  | None => RaisesTypeError st
  | Some text => Returns (pipeline c st paper_metadata text interactive timeout)
  end.

(** A new orchestrator in a session directory that holds
    [existing_checkpoint c] and no report yet. *)
Definition new_orchestrator (c : collaborators) : state :=
  mkState new_report (existing_checkpoint c) [] [].

(** [reproduce_from_pdf] / [reproduce_from_url] once the metadata is
    extracted: store the paper in the report, then run. *)
Definition reproduce (c : collaborators) (st : state) (paper_metadata : paper)
    (interactive : bool) (timeout : option Z) : run_result :=
  _reproduce_from_metadata c (update_report (set_paper paper_metadata) st)
    paper_metadata interactive timeout.

(** The state a run returns, if it returns. *)
Definition returned (r : run_result) : option state :=
  match r with
  | Returns st => Some st
  | RaisesTypeError _ => None
  end.

(** The terminal summary names the report file. *)
Definition is_summary (line : string) : bool :=
  Str.startswith "Report saved to: " line.

Definition summary_printed (st : state) : bool :=
  existsb is_summary (st_console st).

(** [st'] continues [st] without running the command: nothing is written
    to [report.json], no summary is printed, no execution is recorded,
    and a report that was not successful stays so. *)
Definition halted (st st' : state) : Prop :=
  st_report_file st' = st_report_file st /\
  r_execution (st_report st') = r_execution (st_report st) /\
  summary_printed st' = summary_printed st /\
  (r_success (st_report st) = false -> r_success (st_report st') = false).

(** [st'] continues [st] through the execution of the command: its result
    is in the report and decides [success], the report is written once,
    as returned, and the summary is printed. *)
Definition completed (st st' : state) : Prop :=
  exists result,
    r_execution (st_report st') = Some result /\
    r_success (st_report st') = Executor.success result /\
    st_report_file st' = st_report_file st ++ [st_report st'] /\
    summary_printed st' = true.

(** Every stage after the first checkpoint leaves the checkpoint file
    alone and either halts, or completes, which needs [ran]. *)
Definition outcome (ran : Prop) (st st' : state) : Prop :=
  st_checkpoint st' = st_checkpoint st /\
  (halted st st' \/ (completed st st' /\ ran)).

(** What a run needs in order to execute the command: a candidate, a
    clone that works, an environment set up with success, and a command
    to run. *)
Definition executes (c : collaborators) (interactive : bool) (p : paper)
    (text : string) : Prop :=
  find_repositories c p <> [] /\
  (exists repo_url, clone_from c repo_url = None) /\
  EnvSetup.env_success
    (choose_environment c interactive (session_dir_of c text)
       (session_config c interactive) (analyze c)) = true /\
  choose_command interactive (session_config c interactive) (analyze c) <> None.











(** Collaborators for examples: a paper with one candidate repository, a
    Python project with the entry point [python main.py], a host on which
    every command succeeds, and a program that exits with [returncode]. *)
Definition example_paper : paper :=
  mkPaper (Title "Attention Is All You Need") ["A. Vaswani"] None []
    (Some "1706.03762").

Definition example_repo : Finder.repo :=
  Finder.mkRepo "https://github.com/example/attention" 100 (Some "paper_text") false.

Definition example_analysis : EnvSetup.analysis :=
  EnvSetup.mkAnalysis ["Python"]
    (Some (EnvSetup.mkPythonDeps ["requirements.txt"] false false []))
    None [EnvSetup.mkEntryPoint "main.py" (Some "python main.py")] false [].

Definition example_collaborators (repos : list Finder.repo) (returncode : Z)
  : collaborators :=
  mkCollaborators "./reproductions" "2024-01-01T00:00:00" "20240101_000000"
    NoFile (fun _ => repos) (fun _ => None) (fun _ => None)
    example_analysis (mkUserConfig None None None None) true
    EnvSetup.obliging_host
    (fun _ _ => Executor.PopenStarted (Executor.Exits returncode [] [])).

(** How the [try] block of the command [reproduce] of the command line
    (cli.py) ends once the metadata is extracted: the run of the
    orchestrator comes to its end, or the user interrupts it.  No handler
    of the run catches [KeyboardInterrupt], so an interrupt ends the run
    wherever it is. *)
Inductive cli_run : Type :=
  | Finished (r : run_result)
  | Interrupted.

(** A run on a new orchestrator; [interrupted] says whether the user
    interrupts it before it ends. *)
Definition run_cli (c : collaborators) (paper_metadata : paper)
    (interactive : bool) (timeout : option Z) (interrupted : bool) : cli_run :=
  if interrupted then Interrupted
  else Finished (reproduce c (new_orchestrator c) paper_metadata interactive
                   timeout).

(** The exit status of the command: 0 when the report says success, 1
    when it does not or when the run raises an [Exception], 130 after a
    [KeyboardInterrupt]. *)
Definition exit_status (r : cli_run) : Z :=
  match r with
  | Finished (Returns st) => if r_success (st_report st) then 0%Z else 1%Z
  | Finished (RaisesTypeError _) => 1%Z
  | Interrupted => 130%Z
  end.


(** What a stage can do to the fields ['environment'] and ['execution']
    of the report and to the console, from the state [st] on: nothing to
    the two fields; or it stores the environment [env], and then either
    the environment failed and its errors are printed, or a result of the
    executor is stored: the result of a command run with the time-out
    [exec_timeout], its output captured and streamed. *)
Definition reports (env : EnvSetup.env_info) (exec_timeout : Z)
    (st st' : state) : Prop :=
  (r_environment (st_report st') = r_environment (st_report st) /\
   r_execution (st_report st') = r_execution (st_report st)) \/
  (r_environment (st_report st') = Some env /\
   ((EnvSetup.env_success env = false /\
     r_execution (st_report st') = r_execution (st_report st) /\
     forall e, In e (EnvSetup.env_errors env) ->
       In ("  • " ++ e)%string (st_console st')) \/
    (EnvSetup.env_success env = true /\
     (r_execution (st_report st') = r_execution (st_report st) \/
      exists command world,
        r_execution (st_report st')
        = Some (Executor.execute command (Some exec_timeout) true true world))))).
(** Collaborators whose command is still running at the deadline, after
    it has written a line to each pipe. *)
Definition hanging_collaborators : collaborators :=
  mkCollaborators "./reproductions" "2024-01-01T00:00:00" "20240101_000000"
    NoFile (fun _ => [example_repo]) (fun _ => None) (fun _ => None)
    example_analysis (mkUserConfig None None None None) true
    EnvSetup.obliging_host
    (fun _ _ =>
       Executor.PopenStarted
         (Executor.StillRunning ["epoch 1"] ["Traceback"] None (-9) [] [])).

End Orchestrator.

(* ===================================================================== *)
(** * repo_analyzer.py: the complexity estimate *)
(* ===================================================================== *)

Module Analyzer.

(** The part of the analysis [_estimate_complexity] reads; [dependencies]
    lists, per ecosystem, the ['packages'] of its entry. *)
Record analysis : Type := mkAnalysis {
  dependencies : list (string * list string);
  gpu_required : bool;
  data_requirements : list string;
  docker_support : bool;
  entry_points : list EnvSetup.entry_point
}.

Definition total_deps (a : analysis) : nat :=
  list_sum (List.map (fun deps => length (snd deps)) (dependencies a)).

Definition nonempty {A : Type} (l : list A) : bool :=
  match l with [] => false | _ => true end.

(** The variable [score] at the end of [_estimate_complexity]. *)
Definition score (a : analysis) : Z :=
  ((if (50 <? total_deps a)%nat then 3
    else if (20 <? total_deps a)%nat then 2
    else if (10 <? total_deps a)%nat then 1 else 0)
   + (if gpu_required a then 2 else 0)
   + (if nonempty (data_requirements a) then 2 else 0)
   - (if docker_support a then 2 else 0)
   - (if nonempty (entry_points a) then 1 else 0))%Z.

(** [_estimate_complexity] *)
Definition _estimate_complexity (a : analysis) : string :=
  if (score a <=? 0)%Z then "low"
  else if (score a <=? 3)%Z then "medium"
  else "high".

End Analyzer.

(* ===================================================================== *)
(** * Properties of the retriers *)
(* ===================================================================== *)

Section RetryProperties.
Import Retry.

Context {A : Type}.
Variable func : nat -> outcome A.

Lemma wrapper_loop_sleep_value N d0 dmax b exceptions :
  forall fuel n i d,
    sleeps (fst (wrapper_loop func N dmax b exceptions fuel (S n)
                   (delay_after d0 dmax b n))) !! i = Some d ->
    d = delay_after d0 dmax b (n + i) /\ (S n + i < N)%nat.
Proof.
  induction fuel as [|fuel IH]; intros n i d; cbn [wrapper_loop].
  { cbn. rewrite lookup_nil. discriminate. }
  destruct (Nat.leb_spec (S n) N) as [Hle|Hgt];
    [|cbn; rewrite lookup_nil; discriminate].
  destruct (func (S n)) as [v|e]; [cbn; rewrite lookup_nil; discriminate|].
  destruct (exceptions e); [|cbn; rewrite lookup_nil; discriminate].
  destruct (Nat.eqb_spec (S n) N) as [Heq|Hne];
    [cbn; rewrite lookup_nil; discriminate|].
  specialize (IH (S n)). cbn [delay_after] in IH.
  destruct (wrapper_loop func N dmax b exceptions fuel (S (S n)) _)
    as [tr r].
  cbn [fst sleeps] in *. destruct i as [|i]; cbn [lookup list_lookup].
  - intros [= <-]. rewrite Nat.add_0_r. split; [reflexivity | lia].
  - intros Hi. destruct (IH i d Hi) as [-> Hlt].
    split; [f_equal; lia | lia].
Qed.

Lemma wrapper_loop_sleep_exists N dmax b exceptions :
  forall fuel a delay i,
    (i < fuel)%nat -> (a + i < N)%nat ->
    (forall j, (a <= j <= a + i)%nat ->
               exists e, func j = Raise e /\ exceptions e = true) ->
    is_Some (sleeps (fst (wrapper_loop func N dmax b exceptions
                            fuel a delay)) !! i).
Proof.
  induction fuel as [|fuel IH]; intros a delay i Hfuel Hlt Hfail; [lia|].
  cbn [wrapper_loop].
  destruct (Nat.leb_spec a N) as [_|Hgt]; [|lia].
  destruct (Hfail a ltac:(lia)) as (e & -> & ->).
  destruct (Nat.eqb_spec a N) as [Heq|_]; [lia|].
  specialize (IH (S a) (py_min (PrimFloat.mul delay b) dmax)).
  destruct (wrapper_loop func N dmax b exceptions fuel (S a) _)
    as [tr r].
  cbn [fst sleeps] in *. destruct i as [|i]; cbn [lookup list_lookup]; [eauto|].
  apply IH; [lia | lia |].
  intros j Hj. apply Hfail. lia.
Qed.



(** The recursion bound of the two loops is never reached: both retriers
    end by returning or raising. *)
Lemma wrapper_loop_terminates N dmax b exceptions :
  forall fuel a delay,
    (N - a < fuel)%nat ->
    snd (wrapper_loop func N dmax b exceptions fuel a delay) <> OutOfFuel.
Proof.
  induction fuel as [|fuel IH]; intros a delay Hfuel; [lia|].
  cbn [wrapper_loop].
  destruct (Nat.leb_spec a N) as [Hle|Hgt]; [|discriminate].
  destruct (func a) as [v|e]; [discriminate|].
  destruct (exceptions e); [|discriminate].
  destruct (Nat.eqb_spec a N) as [Heq|Hne]; [discriminate|].
  specialize (IH (S a) (py_min (PrimFloat.mul delay b) dmax)).
  destruct (wrapper_loop func N dmax b exceptions fuel (S a) _) as [tr r].
  cbn [snd] in *. apply IH. lia.
Qed.

Lemma execute_loop_terminates N dmax :
  forall fuel a delay,
    (N - a < fuel)%nat ->
    snd (execute_loop func N dmax fuel a delay) <> OutOfFuel.
Proof.
  induction fuel as [|fuel IH]; intros a delay Hfuel; [lia|].
  cbn [execute_loop].
  destruct (Nat.leb_spec a N) as [Hle|Hgt]; [|discriminate].
  destruct (func a) as [v|e]; [discriminate|].
  destruct (is_NonRetryableError e); [discriminate|].
  destruct (is_retryable_error e); cbn [negb orb]; [|discriminate].
  destruct (Nat.eqb_spec a N) as [Heq|Hne]; [discriminate|].
  specialize (IH (S a) (py_min (PrimFloat.mul delay 2%float) dmax)).
  destruct (execute_loop func N dmax fuel (S a) _) as [tr r].
  cbn [snd] in *. apply IH. lia.
Qed.

Lemma retriers_terminate N d0 dmax b exceptions :
  snd (wrapper func N d0 dmax b exceptions) <> OutOfFuel /\
  snd (execute func N d0 dmax) <> OutOfFuel.
Proof.
  split; [apply wrapper_loop_terminates | apply execute_loop_terminates]; lia.
Qed.


End RetryProperties.

(** The model computes the delays as the interpreter does: with
    [base_delay=0.1] and [exponential_base=3.0] the products are the
    rounded binary64 products, not the decimal ones. *)
Set Warnings "-inexact-float".
Lemma wrapper_delays_are_binary64 :
  Retry.sleeps (fst (Retry.wrapper (Retry.always_raises Retry.RetryableError)
                       4 0.1 60 3 Retry.is_retryable_error))
  = [0.1; 0.30000000000000004; 0.9000000000000001]%float /\
  (PrimFloat.eqb 0.30000000000000004 0.3 = false)%float.
Proof. split; vm_compute; reflexivity. Qed.
Set Warnings "+inexact-float".

(** C1 at a base delay above the cap.  [max_delay] is documented as the
    maximum delay between retries, and every delay is capped when it is
    updated; but the first sleep takes the base delay as it is.  For an
    always-failing fetch with three attempts, [base_delay=100.0],
    [max_delay=60.0] and [exponential_base=2.0], both retriers sleep
    100.0 and then 60.0: the first delay is above [max_delay], where the
    claim has [min(d0 * b^0, dmax) = 60.0], and the delays decrease.  In
    general the first sleep of the decorator is the base delay whenever
    the first attempt fails retryably and another attempt is left. *)
Theorem backoff_base_above_cap :
  Retry.sleeps (fst (Retry.wrapper (Retry.always_raises Retry.RetryableError)
                       3 100 60 2 Retry.is_retryable_error))
    = [100; 60]%float /\
  Retry.sleeps (fst (Retry.execute (Retry.always_raises Retry.RetryableError)
                       3 100 60))
    = [100; 60]%float /\
  PrimFloat.ltb 60 100 = true /\
  Retry.py_min (PrimFloat.mul 100 1) 60 = 60%float /\
  (forall (A : Type) (func : nat -> Retry.outcome A) (N : nat)
          (d0 dmax b : float) (exceptions : Retry.exn -> bool) (e : Retry.exn),
     (2 <= N)%nat -> func 1%nat = Retry.Raise e -> exceptions e = true ->
     Retry.sleeps (fst (Retry.wrapper func N d0 dmax b exceptions)) !! 0%nat
     = Some d0).
Proof.
  split; [vm_compute; reflexivity|]. split; [vm_compute; reflexivity|].
  split; [vm_compute; reflexivity|]. split; [vm_compute; reflexivity|].
  intros A func N d0 dmax b exceptions e HN Hfail Hretry.
  unfold Retry.wrapper. cbn [Retry.wrapper_loop].
  destruct (Nat.leb_spec 1 N) as [_|?]; [|lia]. rewrite Hfail, Hretry.
  destruct (Nat.eqb_spec 1 N) as [?|_]; [lia|].
  destruct (Retry.wrapper_loop _ _ _ _ _ _ _ _) as [tr r]. reflexivity.
Qed.


(* ===================================================================== *)
(** * Properties of the monitored executor *)
(* ===================================================================== *)

Section ExecutorProperties.
Import Executor.

Lemma execute_flags (command : string) (timeout : option Z)
    (capture_output stream_output : bool) (world : popen) :
  let r := execute command timeout capture_output stream_output world in
  success r = exit_code_is_zero r && negb (timed_out r).
Proof.
  unfold exit_code_is_zero.
  destruct world as [msg|b]; cbn; [reflexivity|].
  unfold run_and_wait.
  destruct b, capture_output, stream_output; cbn; reflexivity.
Qed.

(** Whatever the mode, a process still running at the deadline gives
    [timed_out = true] and [success = false]. *)
Lemma execute_timeout_flags (command : string) (timeout : option Z)
    (capture_output stream_output : bool)
    (out err : list string) (rc_kill : option Z) (rc : Z)
    (out' err' : list string) :
  let r := execute command timeout capture_output stream_output
             (PopenStarted (StillRunning out err rc_kill rc out' err')) in
  timed_out r = true /\ success r = false.
Proof.
  destruct capture_output, stream_output; cbn;
    rewrite ?andb_false_r; split; reflexivity.
Qed.

(** In the streaming mode nothing of what the readers collected reaches
    the result of a timed-out run. *)
Lemma execute_streaming_timeout_output (command : string) (timeout : option Z)
    (out err : list string) (rc_kill : option Z) (rc : Z)
    (out' err' : list string) :
  let r := execute command timeout true true
             (PopenStarted (StillRunning out err rc_kill rc out' err')) in
  stdout r = "" /\ stderr r = "" /\ exit_code r = rc_kill.
Proof. cbn. auto. Qed.


End ExecutorProperties.


(** C7 at a concrete run.  The child prints one line on each stream and is
    still running after one second.  With the default streaming mode the
    result is timed out and failed, but [stdout] and [stderr] are empty;
    the non-streaming path of the same function keeps the captured text. *)
Theorem streaming_timeout_drops_captured_output :
  let hello := ("hello" ++ String Str.newline "")%string in
  let oops := ("warming up" ++ String Str.newline "")%string in
  let world :=
    Executor.PopenStarted
      (Executor.StillRunning [hello] [oops] None (-9) [] []) in
  let streamed := Executor.execute "echo hello; sleep 60" (Some 1%Z) true true world in
  let plain := Executor.execute "echo hello; sleep 60" (Some 1%Z) true false world in
  Executor.timed_out streamed = true /\
  Executor.success streamed = false /\
  Executor.stdout streamed = "" /\ Executor.stderr streamed = "" /\
  Executor.stdout plain = hello /\ Executor.stderr plain = oops.
Proof. cbv zeta. repeat split; vm_compute; reflexivity. Qed.

(* ===================================================================== *)
(** * Properties of the candidate selection *)
(* ===================================================================== *)

Section FinderProperties.
Import Finder.




End FinderProperties.


(* ===================================================================== *)
(** * Properties of the environment provisioner *)
(* ===================================================================== *)

Section EnvSetupProperties.
Import EnvSetup.


Lemma combine_results_success (results : list strategy_info) :
  env_success (combine_results results) = true <->
  exists s, In s results /\ s_success s = true.
Proof.
  destruct results as [|s0 results]; cbn -[existsb].
  - split; [discriminate | intros (s & [] & _)].
  - apply existsb_exists.
Qed.

(** C9 (amended).  For an analysis with Docker support whose container
    files name no Dockerfile, the Docker strategy returns a failed result
    with a non-empty error list, and the error is "No Dockerfile found"
    when [docker --version] runs; [auto_setup] then returns what the
    language strategies give: the ['none'] descriptor, failed, when no
    strategy is implied by the languages (neither Python nor
    JavaScript/TypeScript), and otherwise the ['multi'] descriptor over
    their results, successful exactly when one of them is. *)
Theorem auto_setup_without_dockerfile
    (w : world) (work_dir repo_path : string) (a : analysis)
    (prefer_docker prefer_conda : bool) :
  docker_support a = true -> no_dockerfile a ->
  let docker := setup_docker_env w repo_path a "research_reproducer" in
  let results := language_results w work_dir repo_path a prefer_conda in
  let auto := auto_setup w work_dir repo_path a prefer_docker prefer_conda in
  s_type docker = "docker" /\ s_success docker = false /\
  s_errors docker <> [] /\
  (run_check w ["docker"; "--version"] = None ->
   s_errors docker = ["No Dockerfile found"]) /\
  (results = [] ->
   auto = NoEnvironment ["No compatible environment setup found"]) /\
  (results <> [] ->
   auto = Multi results (existsb s_success results) /\
   env_type auto = "multi") /\
  (env_success auto = true <-> exists s, In s results /\ s_success s = true) /\
  (results = [] <->
   has_language a "Python" = false /\
   existsb (has_language a) ["JavaScript"; "TypeScript"] = false).
Proof.
  intros Hsupport Hnone docker results auto.
  assert (Hdocker : s_type docker = "docker" /\ s_success docker = false /\
                    s_errors docker <> [] /\
                    (run_check w ["docker"; "--version"] = None ->
                     s_errors docker = ["No Dockerfile found"])).
  { unfold docker, setup_docker_env. unfold no_dockerfile in Hnone.
    destruct (run_check w ["docker"; "--version"]) as [e|].
    - destruct e; cbn; repeat split; congruence.
    - rewrite Hnone. cbn. repeat split; congruence. }
  assert (Hauto : auto = combine_results results).
  { unfold auto, auto_setup. rewrite Hsupport, andb_true_r.
    destruct prefer_docker; [|reflexivity].
    fold docker. destruct Hdocker as (_ & -> & _). reflexivity. }
  destruct Hdocker as (Ht & Hs & He & Hm).
  rewrite Hauto.
  split; [exact Ht|]. split; [exact Hs|]. split; [exact He|].
  split; [exact Hm|]. split; [|split; [|split]].
  - intros ->. reflexivity.
  - destruct results; [congruence | split; reflexivity].
  - apply combine_results_success.
  - unfold results, language_results, python_results, node_results.
    destruct (has_language a "Python");
      destruct (existsb (has_language a) ["JavaScript"; "TypeScript"]);
      try destruct prefer_conda;
      try destruct (s_success (setup_conda_env w repo_path a "research_env"));
      cbn; split; try discriminate; try (intros [? ?]; discriminate); auto.
Qed.

End EnvSetupProperties.

(** C9 as stated fails twice.  Without Docker on the host the Docker
    strategy reports that Docker is
    missing, not that the Dockerfile is; and for a repository in R alone
    [auto_setup] answers with the ['none'] descriptor, not ['multi']. *)
Lemma auto_setup_other_error_and_descriptor :
  EnvSetup.s_errors
    (EnvSetup.setup_docker_env EnvSetup.host_without_docker "session/repo"
       (EnvSetup.compose_only ["Python"]) "research_reproducer")
    = ["Docker is not installed or not in PATH"] /\
  EnvSetup.auto_setup EnvSetup.obliging_host "session/envs" "session/repo"
    (EnvSetup.compose_only ["R"]) true false
    = EnvSetup.NoEnvironment ["No compatible environment setup found"] /\
  EnvSetup.env_type
    (EnvSetup.auto_setup EnvSetup.obliging_host "session/envs" "session/repo"
       (EnvSetup.compose_only ["R"]) true false) <> "multi".
Proof. repeat split; vm_compute; congruence. Qed.

Lemma auto_setup_without_dockerfile_witness :
  EnvSetup.s_errors
    (EnvSetup.setup_docker_env EnvSetup.obliging_host "session/repo"
       (EnvSetup.compose_only ["Python"]) "research_reproducer")
    = ["No Dockerfile found"] /\
  EnvSetup.env_type
    (EnvSetup.auto_setup EnvSetup.obliging_host "session/envs" "session/repo"
       (EnvSetup.compose_only ["Python"]) true false) = "multi" /\
  EnvSetup.env_success
    (EnvSetup.auto_setup EnvSetup.obliging_host "session/envs" "session/repo"
       (EnvSetup.compose_only ["Python"]) true false) = true.
Proof.
  pose proof (auto_setup_without_dockerfile EnvSetup.obliging_host "session/envs"
                "session/repo" (EnvSetup.compose_only ["Python"]) true false
                ltac:(reflexivity) ltac:(reflexivity)) as H.
  cbv zeta in H. destruct H as (_ & _ & _ & Hmsg & _ & Hmulti & Hok & _).
  split; [apply Hmsg; reflexivity|].
  destruct Hmulti as [Hm Ht]; [vm_compute; discriminate|].
  split; [exact Ht|].
  apply Hok. eexists. split; [left; reflexivity | reflexivity].
Defined.

(* ===================================================================== *)
(** * Properties of the error diagnoser *)
(* ===================================================================== *)

Section DiagnosisProperties.
Import Regex Diagnosis.

Lemma search_skip (r : regex) (before rest : string) :
  no_match_within r before rest = true ->
  search r (before ++ rest) = search r rest.
Proof.
  induction before as [|ch before IH]; cbn [no_match_within]; [reflexivity|].
  destruct (match_here r (String ch before ++ rest)) eqn:Hm; [discriminate|].
  intros H.
  change (String ch before ++ rest)%string
    with (String ch (before ++ rest)%string) in *.
  cbn [search]. rewrite Hm. auto.
Qed.

Lemma search_here (r : regex) (s : string) (caps : list string) :
  match_here r s = Some caps -> search r s = Some caps.
Proof. intros H. destruct s; cbn [search]; rewrite H; reflexivity. Qed.

Lemma match_here_missing_foo (rest : string) :
  match_here missing_module_pattern (missing_foo ++ rest) = Some ["foo"].
Proof.
  cbv -[consumed]. unfold consumed. cbn [String.length].
  replace (_ - _)%nat with 3%nat by lia.
  reflexivity.
Qed.

Lemma search_missing_foo (before rest : string) :
  no_match_within missing_module_pattern before (missing_foo ++ rest) = true ->
  search missing_module_pattern (before ++ missing_foo ++ rest) = Some ["foo"].
Proof.
  intros H. rewrite search_skip by exact H.
  apply search_here, match_here_missing_foo.
Qed.

(** The first entry of the table, as [_initialize_patterns] builds it. *)
Lemma reachable_head (t : table) :
  reachable t ->
  exists rest,
    t = ("ModuleNotFoundError",
         mkInfo missing_module_pattern "dependency"
           ["Install the missing package: pip install {module}";
            "Check if package name has changed or been deprecated";
            "Try installing with conda: conda install {module}";
            "Check requirements.txt for correct package name"]) :: rest.
Proof.
  induction 1 as [|t msg ctx _ [rest ->]].
  - eexists. reflexivity.
  - unfold diagnose. cbn [first_match pattern].
    destruct (search missing_module_pattern msg) as [caps|].
    + cbn. eexists. reflexivity.
    + destruct (first_match rest msg) as [[[before [[name info] caps]] after]|].
      * destruct (has_groups (pattern info)); cbn [snd]; eexists; reflexivity.
      * cbn. eexists. reflexivity.
Qed.

(** When the missing-module pattern is found, its entry decides the
    diagnosis, whatever the later patterns would match. *)
Lemma diagnose_missing_module (t : table) (msg : string)
    (ctx : option context) (caps : list string) :
  reachable t ->
  search missing_module_pattern msg = Some caps ->
  fst (diagnose t msg ctx) =
    mkDiagnosis "ModuleNotFoundError" "dependency"
      (String.substring 0 200 msg) (Some (List.hd EmptyString caps))
      (List.map (customise (List.hd EmptyString caps))
         ["Install the missing package: pip install {module}";
          "Check if package name has changed or been deprecated";
          "Try installing with conda: conda install {module}";
          "Check requirements.txt for correct package name"]
       ++ context_fixes "dependency" ctx) true.
Proof.
  intros Ht Hs. destruct (reachable_head t Ht) as [rest ->].
  unfold diagnose. cbn [first_match pattern]. rewrite Hs. reflexivity.
Qed.

(** C10 (amended).  For every diagnoser state and every text in which the
    leftmost match of the missing-module pattern is
    [ModuleNotFoundError: No module named 'foo'], the diagnosis has error
    type "ModuleNotFoundError", category "dependency", root cause "foo"
    and a suggested fix that mentions "foo".  Whenever the missing-module
    pattern is found at all, it decides error type and category: it is
    the first entry of the table. *)
Theorem diagnose_missing_module_foo (t : table) (ctx : option context) :
  reachable t ->
  (forall before rest,
     no_match_within missing_module_pattern before (missing_foo ++ rest) = true ->
     let d := fst (diagnose t (before ++ missing_foo ++ rest) ctx) in
     error_type d = "ModuleNotFoundError" /\
     d_category d = "dependency" /\
     root_cause d = Some "foo" /\
     matched_pattern d = true /\
     exists suggestion,
       In suggestion (suggested_fixes d) /\
       Str.contains "foo" suggestion = true) /\
  (forall msg caps,
     search missing_module_pattern msg = Some caps ->
     let d := fst (diagnose t msg ctx) in
     error_type d = "ModuleNotFoundError" /\ d_category d = "dependency" /\
     root_cause d = Some (List.hd EmptyString caps)).
Proof.
  intros Ht. split.
  - intros before rest Hno d. unfold d.
    rewrite (diagnose_missing_module t _ ctx ["foo"] Ht)
      by (apply search_missing_foo; exact Hno).
    cbn [error_type d_category root_cause matched_pattern suggested_fixes].
    repeat split.
    exists "Install the missing package: pip install foo".
    split; [apply in_or_app; left; left; reflexivity | reflexivity].
  - intros msg caps Hs d. unfold d.
    rewrite (diagnose_missing_module t msg ctx caps Ht Hs).
    repeat split.
Qed.

End DiagnosisProperties.

(** C10 as stated fails for two missing modules in one trace: the text
    contains the line about
    'foo', but the leftmost match is the line about 'bar', so the root
    cause is "bar" and no suggested fix mentions "foo". *)
Lemma diagnose_reports_first_missing_module :
  Str.contains Diagnosis.missing_foo Diagnosis.two_missing_modules = true /\
  Diagnosis.root_cause
    (fst (Diagnosis.diagnose Diagnosis._initialize_patterns
            Diagnosis.two_missing_modules None)) = Some "bar" /\
  List.existsb (Str.contains "foo")
    (Diagnosis.suggested_fixes
       (fst (Diagnosis.diagnose Diagnosis._initialize_patterns
               Diagnosis.two_missing_modules None))) = false.
Proof. repeat split; vm_compute; reflexivity. Qed.

Lemma diagnose_missing_module_foo_witness :
  Diagnosis.root_cause
    (fst (Diagnosis.diagnose Diagnosis._initialize_patterns
            ("Traceback (most recent call last): " ++ Diagnosis.missing_foo
             ++ " (CUDA version mismatch)")
            None)) = Some "foo".
Proof.
  pose proof (proj1 (diagnose_missing_module_foo Diagnosis._initialize_patterns
                       None Diagnosis.reachable_init)
                "Traceback (most recent call last): "
                " (CUDA version mismatch)" ltac:(vm_compute; reflexivity)) as H.
  cbv zeta in H. destruct H as (_ & _ & Hroot & _). exact Hroot.
Defined.

(* ===================================================================== *)
(** * Properties of the result cache *)
(* ===================================================================== *)

Section CacheProperties.
Import Cache.

Lemma string_append_cons (ch : ascii) (a b : string) :
  (String ch a ++ b)%string = String ch (a ++ b)%string.
Proof. reflexivity. Qed.

Lemma string_length_append (a b : string) :
  String.length (a ++ b) = (String.length a + String.length b)%nat.
Proof.
  induction a as [|ch a IH]; [reflexivity|].
  rewrite string_append_cons. cbn [String.length Nat.add]. now rewrite IH.
Qed.

Lemma string_append_inv_head (a x y : string) :
  (a ++ x = a ++ y)%string -> x = y.
Proof.
  induction a as [|ch a IH]; [auto|].
  rewrite !string_append_cons. intros [= H]. auto.
Qed.

Lemma string_append_inv_tail (s x y : string) :
  (x ++ s = y ++ s)%string -> x = y.
Proof.
  revert y. induction x as [|ch x IH]; intros [|ch' y] H.
  - reflexivity.
  - apply (f_equal String.length) in H.
    rewrite !string_length_append in H. cbn [String.length] in H. lia.
  - apply (f_equal String.length) in H.
    rewrite !string_length_append in H. cbn [String.length] in H. lia.
  - rewrite !string_append_cons in H. injection H as -> H. f_equal. auto.
Qed.





Variable pf : platform.
Variable cache_dir : string.






Lemma cache_file_inj (k k' : kind) (identifier identifier' : string) :
  cache_file cache_dir k identifier = cache_file cache_dir k' identifier' ->
  k = k' /\ _get_cache_key identifier = _get_cache_key identifier'.
Proof.
  unfold cache_file.
  generalize (_get_cache_key identifier) (_get_cache_key identifier').
  intros key key' H.
  apply string_append_inv_head in H.
  destruct k, k'; cbn in H; try discriminate; split; try reflexivity;
    repeat (injection H as H);
    exact (string_append_inv_tail ".json" _ _ H).
Qed.





End CacheProperties.

(** The digests of RFC 1321 for the empty string and for ["abc"], and the
    digest of a URL as [hashlib] computes it. *)
Lemma md5_test_vectors :
  Cache.MD5.hexdigest "" = "d41d8cd98f00b204e9800998ecf8427e" /\
  Cache.MD5.hexdigest "abc" = "900150983cd24fb0d6963f7d28e17f72" /\
  Cache._get_cache_key "https://github.com/a/b"
  = "14b7465a61d322ac2ef9d799c27bf235".
Proof. repeat split; vm_compute; reflexivity. Qed.




(* ===================================================================== *)
(** * Properties of the pipeline orchestrator *)
(* ===================================================================== *)

Section OrchestratorProperties.
Import Orchestrator.

Lemma summary_printed_print (line : string) (st : state) :
  summary_printed (print line st) = summary_printed st || is_summary line.
Proof.
  unfold summary_printed, print. cbn [st_console].
  rewrite existsb_app. cbn [existsb]. now rewrite orb_false_r.
Qed.

Lemma print_errors_fields (errors : list string) (st : state) :
  st_report (print_errors errors st) = st_report st /\
  st_checkpoint (print_errors errors st) = st_checkpoint st /\
  st_report_file (print_errors errors st) = st_report_file st /\
  summary_printed (print_errors errors st) = summary_printed st.
Proof.
  unfold print_errors. revert st.
  induction errors as [|e errors IH]; intros st; cbn [fold_left]; [auto|].
  destruct (IH (print ("  • " ++ e) st)) as (-> & -> & -> & ->).
  rewrite summary_printed_print.
  change (is_summary ("  • " ++ e)) with false. rewrite orb_false_r. auto.
Qed.

Lemma halted_refl (st : state) : halted st st.
Proof. repeat split; auto. Qed.

(** A state that differs from [st0] in nothing the outcome looks at can
    stand in for it. *)
Lemma outcome_from (ran : Prop) (st0 st1 st' : state) :
  st_checkpoint st1 = st_checkpoint st0 ->
  st_report_file st1 = st_report_file st0 ->
  r_execution (st_report st1) = r_execution (st_report st0) ->
  summary_printed st1 = summary_printed st0 ->
  (r_success (st_report st0) = false -> r_success (st_report st1) = false) ->
  outcome ran st1 st' -> outcome ran st0 st'.
Proof.
  intros Hc Hf He Hs Hok
    [Hc' [(Hf' & He' & Hs' & Hok')|[(res & He' & Hr & Hf' & Hs') Hran]]].
  - split; [congruence|]. left. repeat split; try congruence. auto.
  - split; [congruence|]. right. split; [|exact Hran].
    exists res. repeat split; congruence.
Qed.

Lemma outcome_weaken (ran ran' : Prop) (st st' : state) :
  (ran -> ran') -> outcome ran st st' -> outcome ran' st st'.
Proof. intros Himp [Hc [Hh|[Hd Hran]]]; split; auto. Qed.

Lemma outcome_print (ran : Prop) (line : string) (st st' : state) :
  is_summary line = false ->
  outcome ran (print line st) st' -> outcome ran st st'.
Proof.
  intros Hline. apply outcome_from; try reflexivity; [|auto].
  rewrite summary_printed_print, Hline. apply orb_false_r.
Qed.

Lemma outcome_halt (ran : Prop) (st : state) : outcome ran st st.
Proof. split; [reflexivity | left; apply halted_refl]. Qed.

Lemma outcome_update (ran : Prop) (f : report -> report) (st st' : state) :
  (forall r, r_execution (f r) = r_execution r) ->
  (forall r, r_success r = false -> r_success (f r) = false) ->
  outcome ran (update_report f st) st' -> outcome ran st st'.
Proof.
  intros He Hs. apply outcome_from; try reflexivity; [apply He | apply Hs].
Qed.

(** Peel the prints and report updates that lead from [st] to the next
    decision of the stage. *)
Ltac step_quiet :=
  match goal with
  | |- outcome ?ran ?st ?st' =>
      match st' with
      | context [print ?line st] =>
          apply (outcome_print ran line st st'); [reflexivity|]
      | context [update_report ?f st] =>
          apply (outcome_update ran f st st');
          [intros ?; reflexivity | intros ? ?; auto |]
      end
  end.

Lemma execute_stage_outcome c interactive timeout session_dir cfg analysis st :
  outcome (choose_command interactive cfg analysis <> None) st
    (execute_stage c interactive timeout session_dir cfg analysis st).
Proof.
  unfold execute_stage. cbv zeta. step_quiet.
  destruct (choose_command interactive cfg analysis) as [command|].
  - set (result := Executor.execute _ _ _ _ _).
    cbn [st_report print update_report _save_report set_success
         set_execution r_success].
    destruct (Executor.success result) eqn:Hres;
      (split; [reflexivity|]; right; split; [|discriminate]; exists result;
       split; [reflexivity|]; split; [exact (eq_sym Hres)|];
       split; [reflexivity|];
       rewrite !summary_printed_print;
       change (is_summary ("Report saved to: " ++ _)) with true;
       now rewrite orb_true_r).
  - do 3 step_quiet. apply outcome_halt.
Qed.

Lemma environment_stage_outcome c interactive timeout session_dir cfg analysis st :
  outcome
    (EnvSetup.env_success
       (choose_environment c interactive session_dir cfg analysis) = true /\
     choose_command interactive cfg analysis <> None) st
    (environment_stage c interactive timeout session_dir cfg analysis st).
Proof.
  unfold environment_stage. cbv zeta. do 2 step_quiet.
  destruct (EnvSetup.env_success _) eqn:Henv.
  - step_quiet. eapply outcome_weaken; [|apply execute_stage_outcome]. auto.
  - step_quiet.
    match goal with
    | |- outcome _ ?st0 (print_errors ?errs ?st0) =>
        destruct (print_errors_fields errs st0) as (Hr & Hc & Hf & Hs)
    end.
    split; [exact Hc|]. left. unfold halted. rewrite Hr, Hf, Hs. auto.
Qed.

Lemma analysis_stage_outcome c interactive timeout session_dir st :
  outcome
    (EnvSetup.env_success
       (choose_environment c interactive session_dir
          (session_config c interactive) (analyze c)) = true /\
     choose_command interactive (session_config c interactive) (analyze c)
       <> None) st
    (analysis_stage c interactive timeout session_dir st).
Proof.
  unfold analysis_stage. cbv zeta. do 4 step_quiet.
  destruct (interactive && negb (display_summary c)).
  - step_quiet. apply outcome_halt.
  - apply environment_stage_outcome.
Qed.

Lemma clone_stage_outcome c interactive timeout session_dir repo st :
  outcome
    ((exists repo_url, clone_from c repo_url = None) /\
     EnvSetup.env_success
       (choose_environment c interactive session_dir
          (session_config c interactive) (analyze c)) = true /\
     choose_command interactive (session_config c interactive) (analyze c)
       <> None) st
    (clone_stage c interactive timeout session_dir repo st).
Proof.
  unfold clone_stage. cbv zeta. step_quiet.
  destruct (clone_from c (Finder.url repo)) as [e|] eqn:Hclone.
  - do 2 step_quiet. apply outcome_halt.
  - step_quiet. eapply outcome_weaken; [|apply analysis_stage_outcome].
    intros H. split; [eauto | exact H].
Qed.

(** The pipeline: the checkpoint file is written once, for the stage
    "initialized", and the run halts or completes. *)
Lemma pipeline_outcome c st paper_metadata text interactive timeout :
  let st' := pipeline c st paper_metadata text interactive timeout in
  st_checkpoint st' =
    _save_checkpoint true "initialized" paper_metadata (clock_iso c)
      (st_checkpoint st) /\
  (halted st st' \/
   (completed st st' /\ executes c interactive paper_metadata text)).
Proof.
  cbv zeta. unfold pipeline. cbv zeta.
  match goal with
  | |- context [print "[bold]Step 1: Finding repositories[/bold]" ?s] =>
      set (st1 := s)
  end.
  match goal with
  | |- st_checkpoint ?t = _ /\ _ =>
      assert (H : outcome (executes c interactive paper_metadata text) st1 t)
  end.
  { step_quiet. unfold executes.
    destruct (find_repositories c paper_metadata) as [|r repos].
    - do 3 step_quiet. apply outcome_halt.
    - do 2 step_quiet.
      destruct interactive.
      + destruct (ask_repository_selection c (r :: repos)).
        * eapply outcome_weaken; [|apply clone_stage_outcome].
          intros H. split; [discriminate | exact H].
        * step_quiet. apply outcome_halt.
      + destruct (Finder.get_official_repository (r :: repos)).
        * eapply outcome_weaken; [|apply clone_stage_outcome].
          intros H. split; [discriminate | exact H].
        * apply outcome_halt. }
  destruct H as [Hc H]. split; [exact Hc|].
  assert (Hs : summary_printed st1 = summary_printed st).
  { unfold summary_printed, st1. cbn [st_console print].
    rewrite existsb_app. cbn [existsb].
    change (is_summary ("[dim]Session directory: " ++ _)) with false.
    now rewrite !orb_false_r. }
  assert (Hf : st_report_file st1 = st_report_file st) by reflexivity.
  assert (He : r_execution (st_report st1) = r_execution (st_report st))
    by reflexivity.
  assert (Hk : r_success (st_report st1) = r_success (st_report st))
    by reflexivity.
  destruct H as [(Hf' & He' & Hs' & Hok')|[(res & He' & Hr & Hf' & Hs') Hran]].
  - left. repeat split; try congruence. intros Hfalse. apply Hok'. congruence.
  - right. split; [|exact Hran]. exists res. repeat split; congruence.
Qed.
















End OrchestratorProperties.





(* ===================================================================== *)
(** * Further properties of the retriers *)
(* ===================================================================== *)

Section RetryTraces.
Import Retry.

Context {A : Type}.
Variable func : nat -> outcome A.




Lemma wrapper_loop_shape N dmax b exceptions :
  forall fuel a delay,
    (N - a < fuel)%nat ->
    let tr := fst (wrapper_loop func N dmax b exceptions fuel a delay) in
    (calls tr <= N + 1 - a)%nat /\
    length (sleeps tr) = (calls tr - 1)%nat /\
    ((a <= N)%nat -> (1 <= calls tr)%nat).
Proof.
  induction fuel as [|fuel IH]; intros a delay Hfuel; [lia|].
  cbn [wrapper_loop].
  destruct (Nat.leb_spec a N) as [Hle|Hgt]; [|cbn; repeat split; lia].
  destruct (func a) as [v|e]; [cbn; repeat split; lia|].
  destruct (exceptions e); [|cbn; repeat split; lia].
  destruct (Nat.eqb_spec a N) as [Heq|Hne]; [cbn; repeat split; lia|].
  specialize (IH (S a) (py_min (PrimFloat.mul delay b) dmax) ltac:(lia)).
  destruct (wrapper_loop func N dmax b exceptions fuel (S a) _) as [tr r].
  cbn [fst calls sleeps length] in *.
  destruct IH as (Hc & Hs & Hpos). specialize (Hpos ltac:(lia)).
  repeat split; lia.
Qed.

Lemma execute_loop_shape N dmax :
  forall fuel a delay,
    (N - a < fuel)%nat ->
    let tr := fst (execute_loop func N dmax fuel a delay) in
    (calls tr <= N + 1 - a)%nat /\
    length (sleeps tr) = (calls tr - 1)%nat /\
    ((a <= N)%nat -> (1 <= calls tr)%nat).
Proof.
  induction fuel as [|fuel IH]; intros a delay Hfuel; [lia|].
  cbn [execute_loop].
  destruct (Nat.leb_spec a N) as [Hle|Hgt]; [|cbn; repeat split; lia].
  destruct (func a) as [v|e]; [cbn; repeat split; lia|].
  destruct (is_NonRetryableError e); [cbn; repeat split; lia|].
  destruct (is_retryable_error e); cbn [negb orb]; [|cbn; repeat split; lia].
  destruct (Nat.eqb_spec a N) as [Heq|Hne]; [cbn; repeat split; lia|].
  specialize (IH (S a) (py_min (PrimFloat.mul delay 2%float) dmax) ltac:(lia)).
  destruct (execute_loop func N dmax fuel (S a) _) as [tr r].
  cbn [fst calls sleeps length] in *.
  destruct IH as (Hc & Hs & Hpos). specialize (Hpos ltac:(lia)).
  repeat split; lia.
Qed.

Lemma wrapper_loop_not_none N dmax b exceptions :
  forall fuel a delay,
    (a <= N)%nat ->
    snd (wrapper_loop func N dmax b exceptions fuel a delay) <> ReturnedNone.
Proof.
  induction fuel as [|fuel IH]; intros a delay Ha; [discriminate|].
  cbn [wrapper_loop].
  destruct (Nat.leb_spec a N) as [Hle|Hgt]; [|lia].
  destruct (func a) as [v|e]; [discriminate|].
  destruct (exceptions e); [|discriminate].
  destruct (Nat.eqb_spec a N) as [Heq|Hne]; [discriminate|].
  specialize (IH (S a) (py_min (PrimFloat.mul delay b) dmax) ltac:(lia)).
  destruct (wrapper_loop func N dmax b exceptions fuel (S a) _) as [tr r].
  exact IH.
Qed.

(** X2.  Whatever the callable does, a retrier invokes it at most
    [max_attempts] times and sleeps exactly once between two consecutive
    invocations.  With [max_attempts = 0] nothing is invoked: the decorator
    returns [None] and [SmartRetry.execute] raises [TypeError] (it raises
    [last_exception], which is still [None]); with [max_attempts >= 1] the
    callable is invoked and the decorator never returns [None] of its own. *)
Theorem retry_call_budget (N : nat) (d0 dmax b : float) (exceptions : exn -> bool) :
  let W := wrapper func N d0 dmax b exceptions in
  let E := execute func N d0 dmax in
  (calls (fst W) <= N)%nat /\
  length (sleeps (fst W)) = (calls (fst W) - 1)%nat /\
  (calls (fst E) <= N)%nat /\
  length (sleeps (fst E)) = (calls (fst E) - 1)%nat /\
  (N = 0%nat ->
   W = ([], ReturnedNone) /\ E = ([], Raised (OtherException "TypeError"))) /\
  ((1 <= N)%nat ->
   (1 <= calls (fst W))%nat /\ (1 <= calls (fst E))%nat /\
   snd W <> ReturnedNone).
Proof.
  cbv zeta.
  destruct (wrapper_loop_shape N dmax b exceptions (S N) 1%nat d0 ltac:(lia))
    as (Hwc & Hws & Hwp).
  destruct (execute_loop_shape N dmax (S N) 1%nat d0 ltac:(lia))
    as (Hec & Hes & Hep).
  unfold wrapper, execute.
  split; [lia|]. split; [exact Hws|]. split; [lia|]. split; [exact Hes|].
  split.
  - intros ->. split; reflexivity.
  - intros HN. split; [auto|]. split; [auto|].
    apply wrapper_loop_not_none. exact HN.
Qed.

(** Comparisons of binary64 numbers, from their specification. *)
Lemma SFcompare_antisym (x y : spec_float) :
  SFcompare y x = option_map CompOpp (SFcompare x y).
Proof.
  destruct x as [sx|sx| |sx mx ex], y as [sy|sy| |sy my ey]; cbn;
    try reflexivity; try (destruct sx; reflexivity);
    try (destruct sy; reflexivity);
    try (destruct sx, sy; reflexivity).
  destruct sx, sy; try reflexivity;
    rewrite (Z.compare_antisym ey ex);
    destruct (ey ?= ex)%Z; cbn; try reflexivity;
    change (PosDef.Pos.compare_cont Eq) with Pos.compare;
    rewrite (Pos.compare_antisym my mx);
    destruct (my ?= mx)%positive; reflexivity.
Qed.

Lemma float_ltb_irrefl (x : float) : PrimFloat.ltb x x = false.
Proof.
  rewrite FloatAxioms.ltb_spec. unfold SFltb.
  destruct (Prim2SF x) as [s|s| |s m e]; cbn.
  - reflexivity.
  - now destruct s.
  - reflexivity.
  - destruct s; rewrite Z.compare_refl, Pos.compare_refl; reflexivity.
Qed.

Lemma float_not_nan (x : float) :
  PrimFloat.is_nan x = false -> SFcompare (Prim2SF x) (Prim2SF x) <> None.
Proof.
  unfold PrimFloat.is_nan. intros H.
  rewrite (FloatAxioms.eqb_spec x x) in H. unfold SFeqb in H.
  destruct (SFcompare (Prim2SF x) (Prim2SF x)) as [c|]; discriminate.
Qed.

Lemma float_not_above_leb (x y : float) :
  PrimFloat.ltb y x = false ->
  PrimFloat.is_nan x = false -> PrimFloat.is_nan y = false ->
  PrimFloat.leb x y = true.
Proof.
  rewrite FloatAxioms.ltb_spec, FloatAxioms.leb_spec. unfold SFltb, SFleb.
  intros Hlt Hx Hy. apply float_not_nan in Hx, Hy.
  rewrite (SFcompare_antisym (Prim2SF x) (Prim2SF y)) in Hlt.
  destruct (Prim2SF x) as [sx|sx| |sx mx ex], (Prim2SF y) as [sy|sy| |sy my ey];
    try (exfalso; apply Hx; reflexivity); try (exfalso; apply Hy; reflexivity);
    cbn in *;
    repeat match goal with
           | |- context [if ?b then _ else _] => destruct b
           | H : context [if ?b then _ else _] |- _ => destruct b
           end; try reflexivity; try discriminate;
    destruct (ex ?= ey)%Z; cbn in *; try reflexivity; try discriminate;
    destruct (PosDef.Pos.compare_cont Eq mx my); cbn in *;
      try reflexivity; discriminate.
Qed.

(** [min(x, dmax)] is never above [dmax], and is at most [dmax] when
    neither is a NaN. *)
Lemma py_min_cap (x dmax : float) :
  PrimFloat.ltb dmax (py_min x dmax) = false.
Proof.
  unfold py_min. destruct (PrimFloat.ltb dmax x) eqn:Hlt;
    [apply float_ltb_irrefl | exact Hlt].
Qed.

Lemma delay_after_cap (d0 dmax b : float) (n : nat) :
  PrimFloat.ltb dmax (delay_after d0 dmax b (S n)) = false /\
  (PrimFloat.is_nan (delay_after d0 dmax b (S n)) = false ->
   PrimFloat.is_nan dmax = false ->
   PrimFloat.leb (delay_after d0 dmax b (S n)) dmax = true).
Proof.
  cbn [delay_after]. split; [apply py_min_cap|].
  intros Hd Hm. apply float_not_above_leb; [apply py_min_cap | exact Hd | exact Hm].
Qed.

Lemma execute_loop_sleep_value N d0 dmax :
  forall fuel n i d,
    sleeps (fst (execute_loop func N dmax fuel (S n)
                   (delay_after d0 dmax 2%float n))) !! i = Some d ->
    d = delay_after d0 dmax 2%float (n + i).
Proof.
  induction fuel as [|fuel IH]; intros n i d; cbn [execute_loop].
  { cbn. rewrite lookup_nil. discriminate. }
  destruct (Nat.leb_spec (S n) N) as [Hle|Hgt];
    [|cbn; rewrite lookup_nil; discriminate].
  destruct (func (S n)) as [v|e]; [cbn; rewrite lookup_nil; discriminate|].
  destruct (is_NonRetryableError e); [cbn; rewrite lookup_nil; discriminate|].
  destruct (negb (is_retryable_error e) || (S n =? N)%nat);
    [cbn; rewrite lookup_nil; discriminate|].
  specialize (IH (S n)). cbn [delay_after] in IH.
  destruct (execute_loop func N dmax fuel (S (S n)) _) as [tr r].
  cbn [fst sleeps] in *. destruct i as [|i]; cbn [lookup list_lookup].
  - intros [= <-]. now rewrite Nat.add_0_r.
  - intros Hi. rewrite (IH i d Hi). f_equal. lia.
Qed.

(** X3.  For every configuration, also one with [base_delay > max_delay]:
    the [i]-th sleep of a retrier is the value of [delay] after [i]
    updates [delay = min(delay * base, max_delay)] in binary64 arithmetic
    (base 2 for [SmartRetry]); so the first sleep is exactly [base_delay],
    and every later sleep is never above [max_delay]: it is at most
    [max_delay] unless one of the two is a NaN. *)
Theorem retry_sleep_bounds (N : nat) (d0 dmax b : float) (exceptions : exn -> bool) :
  let W := sleeps (fst (wrapper func N d0 dmax b exceptions)) in
  let E := sleeps (fst (execute func N d0 dmax)) in
  (forall d, W !! 0%nat = Some d -> d = d0) /\
  (forall i d, W !! S i = Some d ->
     PrimFloat.ltb dmax d = false /\
     (PrimFloat.is_nan d = false -> PrimFloat.is_nan dmax = false ->
      PrimFloat.leb d dmax = true)) /\
  (forall d, E !! 0%nat = Some d -> d = d0) /\
  (forall i d, E !! S i = Some d ->
     PrimFloat.ltb dmax d = false /\
     (PrimFloat.is_nan d = false -> PrimFloat.is_nan dmax = false ->
      PrimFloat.leb d dmax = true)) /\
  (forall i d, W !! i = Some d -> d = delay_after d0 dmax b i) /\
  (forall i d, E !! i = Some d -> d = delay_after d0 dmax 2%float i).
Proof.
  cbv zeta. unfold wrapper, execute. repeat apply conj.
  - intros d Hd.
    apply (wrapper_loop_sleep_value func N d0 dmax b exceptions (S N) 0) in Hd.
    now destruct Hd as [-> _].
  - intros i d Hd.
    apply (wrapper_loop_sleep_value func N d0 dmax b exceptions (S N) 0) in Hd.
    destruct Hd as [-> _]. apply delay_after_cap.
  - intros d Hd.
    now apply (execute_loop_sleep_value N d0 dmax (S N) 0) in Hd.
  - intros i d Hd.
    apply (execute_loop_sleep_value N d0 dmax (S N) 0) in Hd.
    rewrite Hd. apply delay_after_cap.
  - intros i d Hd.
    apply (wrapper_loop_sleep_value func N d0 dmax b exceptions (S N) 0) in Hd.
    now destruct Hd as [-> _].
  - intros i d Hd.
    now apply (execute_loop_sleep_value N d0 dmax (S N) 0) in Hd.
Qed.

End RetryTraces.


(* ===================================================================== *)
(** * Further properties of the executor *)
(* ===================================================================== *)

Section ErrorScan.
Import Executor.

Lemma dedup_In (l : list string) (x : string) : In x (Str.dedup l) <-> In x l.
Proof.
  induction l as [|y l IH]; cbn [Str.dedup]; [reflexivity|].
  cbn [In]. rewrite filter_In, IH.
  destruct (String.eqb_spec y x) as [->|Hne]; cbn; [tauto|].
  split; [tauto | intros [?|?]; auto].
Qed.

Lemma dedup_NoDup (l : list string) : List.NoDup (Str.dedup l).
Proof.
  induction l as [|y l IH]; cbn [Str.dedup]; constructor.
  - rewrite filter_In. intros [_ H]. now rewrite String.eqb_refl in H.
  - now apply List.NoDup_filter.
Qed.

Lemma scan_spec (keep : string -> bool) (text : string) (e : string) :
  In e (Str.dedup (List.map Str.strip
                     (List.filter keep (Str.split Str.newline text)))) <->
  exists line, In line (Str.split Str.newline text) /\ keep line = true /\
               e = Str.strip line.
Proof.
  rewrite dedup_In, in_map_iff. split.
  - intros (line & <- & Hin). apply filter_In in Hin as [Hin Hk]. eauto.
  - intros (line & Hin & Hk & ->). exists line. split; [reflexivity|].
    apply filter_In. auto.
Qed.

(** X4.  [_analyze_errors] and [_analyze_warnings] return duplicate-free
    lists.  An entry is reported exactly when it is the stripped form of
    a line of [stderr] that contains one of the markers; the early return
    on an empty [stderr] agrees with this. *)
Theorem analyze_stderr_spec (stderr_text : string) :
  List.NoDup (_analyze_errors stderr_text) /\
  List.NoDup (_analyze_warnings stderr_text) /\
  (forall e, In e (_analyze_errors stderr_text) <->
     exists line, In line (Str.split Str.newline stderr_text) /\
       existsb (fun pattern => Str.contains pattern line) error_patterns = true /\
       e = Str.strip line) /\
  (forall e, In e (_analyze_warnings stderr_text) <->
     exists line, In line (Str.split Str.newline stderr_text) /\
       (Str.contains "Warning:" line || Str.contains "WARNING:" line) = true /\
       e = Str.strip line).
Proof.
  destruct stderr_text as [|ch rest].
  - split; [constructor|]. split; [constructor|].
    split; intros e; (split; [intros [] |]);
      intros (line & [<-|[]] & H & _); vm_compute in H; discriminate.
  - unfold _analyze_errors, _analyze_warnings.
    split; [apply dedup_NoDup|]. split; [apply dedup_NoDup|].
    split; intros e; apply scan_spec.
Qed.

End ErrorScan.

(* ===================================================================== *)
(** * What the executor reports *)
(* ===================================================================== *)

Section ExecutorReports.
Import Executor.



End ExecutorReports.

(* ===================================================================== *)
(** * Further properties of the result cache *)
(* ===================================================================== *)

Section StringFacts.

Lemma string_append_assoc (a b c : string) :
  ((a ++ b) ++ c)%string = (a ++ (b ++ c))%string.
Proof.
  induction a as [|ch a IH]; [reflexivity|].
  rewrite !string_append_cons. now rewrite IH.
Qed.

Lemma string_append_nil_r (a : string) : (a ++ "")%string = a.
Proof.
  induction a as [|ch a IH]; [reflexivity|].
  rewrite string_append_cons. now rewrite IH.
Qed.

Lemma startswith_append (p s : string) : Str.startswith p (p ++ s) = true.
Proof.
  induction p as [|ch p IH]; [reflexivity|].
  rewrite string_append_cons. cbn [Str.startswith].
  now rewrite Ascii.eqb_refl.
Qed.

Lemma startswith_common (a x y : string) :
  Str.startswith (a ++ x) (a ++ y) = Str.startswith x y.
Proof.
  induction a as [|ch a IH]; [reflexivity|].
  rewrite !string_append_cons. cbn [Str.startswith].
  now rewrite Ascii.eqb_refl.
Qed.

Lemma substring_after_prefix (p s : string) :
  String.substring (String.length p)
    (String.length (p ++ s) - String.length p) (p ++ s) = s.
Proof.
  rewrite string_length_append.
  replace (String.length p + String.length s - String.length p)%nat
    with (String.length s) by lia.
  induction p as [|ch p IH].
  - cbn [String.length]. change ("" ++ s)%string with s.
    induction s as [|c s IHs]; [reflexivity|]. cbn. now rewrite IHs.
  - rewrite string_append_cons. cbn [String.length String.substring]. exact IH.
Qed.

Lemma contains_char_append (c : ascii) (a b : string) :
  Str.contains (String c "") (a ++ b)
  = Str.contains (String c "") a || Str.contains (String c "") b.
Proof.
  induction a as [|ch a IH].
  - change ("" ++ b)%string with b. cbn [Str.contains Str.startswith orb].
    reflexivity.
  - rewrite string_append_cons. cbn [Str.contains Str.startswith].
    rewrite IH. destruct (Ascii.eqb c ch); reflexivity.
Qed.

Lemma rev_append_spec (s acc : string) :
  Str.rev_append s acc = (Str.rev s ++ acc)%string.
Proof.
  unfold Str.rev. revert acc.
  induction s as [|ch s IH]; intros acc; cbn [Str.rev_append]; [reflexivity|].
  rewrite IH, (IH (String ch "")), string_append_assoc. reflexivity.
Qed.

Lemma rev_app (a b : string) : Str.rev (a ++ b) = (Str.rev b ++ Str.rev a)%string.
Proof.
  induction a as [|ch a IH].
  - change ("" ++ b)%string with b. now rewrite string_append_nil_r.
  - rewrite string_append_cons. unfold Str.rev at 1 3. cbn [Str.rev_append].
    rewrite !rev_append_spec, IH, string_append_assoc. reflexivity.
Qed.

End StringFacts.

Section CacheMore.
Import Cache.
Variable pf : platform.
Variable cache_dir : string.

(** X5.  Entries do not interfere: a [set] changes what [get] returns only
    for the same kind and the same cache key; in particular the three
    kinds never collide on one identifier. *)
Theorem cache_set_other_entry (k k' : kind) (fs : gmap string file_content)
    (identifier identifier' : string) (payload : py) (now now' : Z) :
  k' <> k \/ _get_cache_key identifier' <> _get_cache_key identifier ->
  get pf cache_dir k' (set pf cache_dir k fs identifier payload now)
    identifier' now'
  = get pf cache_dir k' fs identifier' now'.
Proof.
  intros Hother.
  assert (Hpath : cache_file cache_dir k identifier
                  <> cache_file cache_dir k' identifier').
  { intros Heq. apply cache_file_inj in Heq as [-> Hkey].
    destruct Hother as [H|H]; [now apply H | now apply H]. }
  unfold get, _is_cache_valid, set. now rewrite !lookup_insert_ne.
Qed.


(** X7.  Whatever is in the cache directory, [get] serves a value only out
    of a well-formed, fresh entry: the file is a JSON document that loads
    as a dictionary whose ['cached_at'] is a string that [fromisoformat]
    accepts, the age is below the maximum age of the kind, and the value
    is what the dictionary holds under the payload key.  A missing,
    corrupt or malformed file is a miss. *)
Theorem cache_get_sound (k : kind) (fs : gmap string file_content)
    (identifier : string) (now : Z) :
  get pf cache_dir k fs identifier now <> PNone ->
  exists j data text cached_time,
    fs !! cache_file cache_dir k identifier = Some (Json j) /\
    load j = PDict data /\
    default (PStr "") (dict_get "cached_at" data) = PStr text /\
    fromisoformat pf text = Some cached_time /\
    (now - cached_time < timedelta_days (max_age_days k))%Z /\
    dict_get (payload_field k) data
      = Some (get pf cache_dir k fs identifier now).
Proof.
  unfold get, _is_cache_valid.
  destruct (fs !! cache_file cache_dir k identifier) as [[|j]|];
    [congruence | | congruence].
  destruct (load j) as [ | | | | | | |data| ] eqn:Hload; try congruence.
  destruct (default (PStr "") (dict_get "cached_at" data))
    as [ | | | |text| | | | ] eqn:Hstamp; try congruence.
  destruct (fromisoformat pf text) as [cached_time|] eqn:Hparse; [|congruence].
  destruct (now - cached_time <? timedelta_days (max_age_days k))%Z eqn:Hage;
    [|congruence].
  destruct (dict_get (payload_field k) data) as [payload|] eqn:Hpayload;
    [|congruence].
  intros _. exists j, data, text, cached_time.
  apply Z.ltb_lt in Hage.
  repeat apply conj; first [reflexivity | assumption].
Qed.

(** A cache key is a file name: a hex digest holds no slash. *)
Lemma cache_key_is_a_name (identifier : string) :
  Str.contains "/" (_get_cache_key identifier) = false.
Proof using Type.
  assert (Hdigit : forall n, Ascii.eqb "/" (MD5.hex_digit n) = false).
  { intros [|p|p]; [reflexivity | | reflexivity].
    do 4 (destruct p as [p|p|]; try reflexivity). }
  unfold _get_cache_key, MD5.hexdigest.
  generalize (MD5.digest (MD5.bytes_of identifier)). intros bytes.
  induction bytes as [|b bytes IH]; [reflexivity|].
  cbn [MD5.hex Str.contains Str.startswith].
  rewrite !Hdigit, IH. reflexivity.
Qed.

Lemma cache_file_split (k : kind) (identifier : string) :
  cache_file cache_dir k identifier
  = ((kind_dir cache_dir k ++ "/")
     ++ (_get_cache_key identifier ++ ".json"))%string.
Proof using Type.
  unfold cache_file, kind_dir. now rewrite !string_append_assoc.
Qed.

Lemma globbed_own (k : kind) (identifier : string) :
  globbed (kind_dir cache_dir k) (cache_file cache_dir k identifier) = true.
Proof using Type.
  unfold globbed. cbv zeta. rewrite cache_file_split.
  rewrite startswith_append, substring_after_prefix.
  rewrite (contains_char_append "/"), cache_key_is_a_name.
  rewrite rev_app. rewrite startswith_append. reflexivity.
Qed.

Lemma globbed_other (k k' : kind) (identifier : string) :
  k' <> k ->
  globbed (kind_dir cache_dir k) (cache_file cache_dir k' identifier) = false.
Proof using Type.
  intros Hne. unfold globbed. cbv zeta.
  replace (Str.startswith (kind_dir cache_dir k ++ "/")
             (cache_file cache_dir k' identifier)) with false; [reflexivity|].
  unfold kind_dir, cache_file. rewrite string_append_assoc, startswith_common.
  destruct k, k'; try congruence; reflexivity.
Qed.

Lemma clear_kind_own (k : kind) (fs : gmap string file_content)
    (identifier : string) :
  clear_kind cache_dir k fs !! cache_file cache_dir k identifier = None.
Proof using Type.
  apply map_lookup_filter_None_2. right. intros x _. cbn [fst].
  rewrite globbed_own. discriminate.
Qed.

Lemma clear_kind_other (k k' : kind) (fs : gmap string file_content)
    (identifier : string) :
  k' <> k ->
  clear_kind cache_dir k fs !! cache_file cache_dir k' identifier
  = fs !! cache_file cache_dir k' identifier.
Proof using Type.
  intros Hne. unfold clear_kind. rewrite map_lookup_filter.
  destruct (fs !! cache_file cache_dir k' identifier) as [x|]; [|reflexivity].
  cbn. rewrite option_guard_True; [reflexivity|].
  cbn [fst]. now apply globbed_other.
Qed.

(** X8.  After [clear_cache()] or [clear_cache(<name of the kind>)] every
    [get] of that kind is a miss; clearing one kind leaves the files of
    the other kinds in place; and a [cache_type] that is none of the
    three names clears nothing. *)
Theorem clear_cache_spec (fs : gmap string file_content) :
  (forall k cache_type identifier now,
     cache_type = None \/ cache_type = Some (subdir k) ->
     get pf cache_dir k (clear_cache cache_dir cache_type fs) identifier now
     = PNone) /\
  (forall k k' identifier,
     k' <> k ->
     clear_cache cache_dir (Some (subdir k)) fs
       !! cache_file cache_dir k' identifier
     = fs !! cache_file cache_dir k' identifier) /\
  (forall name,
     name <> "papers" -> name <> "repositories" -> name <> "analysis" ->
     clear_cache cache_dir (Some name) fs = fs).
Proof using Type.
  split; [|split].
  - intros k cache_type identifier now Hsel.
    assert (Hgone : clear_cache cache_dir cache_type fs
                      !! cache_file cache_dir k identifier = None).
    { destruct Hsel as [->| ->]; destruct k; cbn;
        rewrite ?clear_kind_other by discriminate;
        apply clear_kind_own. }
    unfold get, _is_cache_valid. now rewrite Hgone.
  - intros k k' identifier Hne.
    destruct k, k'; try congruence; cbn;
      now rewrite clear_kind_other by discriminate.
  - intros name H1 H2 H3. unfold clear_cache.
    apply String.eqb_neq in H1, H2, H3. now rewrite H1, H2, H3.
Qed.

Lemma count_json_clear (k k' : kind) (fs : gmap string file_content) :
  count_json cache_dir k fs = 0%nat ->
  count_json cache_dir k (clear_kind cache_dir k' fs) = 0%nat.
Proof using Type.
  unfold count_json. rewrite !map_size_empty_iff, !map_empty.
  intros Hall path. apply map_lookup_filter_None_2. right. intros x Hx.
  apply map_lookup_filter_Some in Hx as [Hx _].
  destruct (map_lookup_filter_None_1 _ _ _ (Hall path)) as [Hnone|Hnot];
    [congruence | exact (Hnot x Hx)].
Qed.

Lemma count_json_cleared (k : kind) (fs : gmap string file_content) :
  count_json cache_dir k (clear_kind cache_dir k fs) = 0%nat.
Proof using Type.
  unfold count_json. rewrite map_size_empty_iff, map_empty.
  intros path. apply map_lookup_filter_None_2. right. intros x Hx.
  apply map_lookup_filter_Some in Hx as [_ Hx]. cbn [fst] in *. congruence.
Qed.

(** X9.  After [clear_cache()] the statistics show no entry of any kind;
    a [set] under a new cache key adds exactly one entry to the count of
    its kind, and a [set] under a key that is present adds none. *)
Theorem cache_stats_spec (fs : gmap string file_content) :
  get_cache_stats cache_dir (clear_cache cache_dir None fs)
    = (0%nat, 0%nat, 0%nat, cache_dir) /\
  (forall k identifier payload now,
     count_json cache_dir k (set pf cache_dir k fs identifier payload now)
     = match fs !! cache_file cache_dir k identifier with
       | None => S (count_json cache_dir k fs)
       | Some _ => count_json cache_dir k fs
       end).
Proof using Type.
  split.
  - unfold get_cache_stats, clear_cache. cbn.
    rewrite (count_json_clear PaperMetadata Analysis)
      by apply count_json_clear, count_json_cleared.
    rewrite (count_json_clear RepositoryInfo Analysis)
      by apply count_json_cleared.
    now rewrite count_json_cleared.
  - intros k identifier payload now. unfold count_json, set.
    rewrite map_filter_insert_True by (cbn [fst]; apply globbed_own).
    destruct (fs !! cache_file cache_dir k identifier) as [old|] eqn:Hold.
    + rewrite map_size_insert_Some; [reflexivity|].
      exists old. apply map_lookup_filter_Some_2; [exact Hold|].
      cbn [fst]. apply globbed_own.
    + rewrite map_size_insert_None; [reflexivity|].
      apply map_lookup_filter_None_2. now left.
Qed.

End CacheMore.

Lemma cache_set_other_entry_witness :
  Cache.get Cache.example_platform ".cache" Cache.RepositoryInfo
    (Cache.set Cache.example_platform ".cache" Cache.Analysis ∅
       "https://github.com/a/b" (Cache.PStr "analysis") 0)
    "https://github.com/a/b" 1
  = Cache.get Cache.example_platform ".cache" Cache.RepositoryInfo ∅
      "https://github.com/a/b" 1 /\
  Cache.get Cache.example_platform ".cache" Cache.Analysis
    (Cache.set Cache.example_platform ".cache" Cache.Analysis ∅
       "https://github.com/a/b" (Cache.PStr "analysis") 0)
    "https://github.com/c/d" 1
  = Cache.get Cache.example_platform ".cache" Cache.Analysis ∅
      "https://github.com/c/d" 1.
Proof.
  split; apply cache_set_other_entry.
  - left. discriminate.
  - right. vm_compute. discriminate.
Defined.


Lemma cache_get_sound_witness :
  Cache.get Cache.example_platform ".cache" Cache.PaperMetadata
    (<[ ".cache/papers/bf1931c94b405047996c4df50cd1b2d4.json" :=
          Cache.Json
            (Cache.JObj [("metadata", Cache.JStr "A draft");
                         ("cached_at", Cache.JStr "+1");
                         ("metadata", Cache.JStr "A paper")]) ]> ∅)
    "2301.00001" 2
  = Cache.PStr "A paper" /\
  (<[ ".cache/papers/bf1931c94b405047996c4df50cd1b2d4.json" :=
        Cache.Json
          (Cache.JObj [("metadata", Cache.JStr "A draft");
                       ("cached_at", Cache.JStr "+1");
                       ("metadata", Cache.JStr "A paper")]) ]> ∅
   : gmap string Cache.file_content)
    !! Cache.cache_file ".cache" Cache.PaperMetadata "2301.00001"
  <> None.
Proof.
  assert (Hserved :
    Cache.get Cache.example_platform ".cache" Cache.PaperMetadata
      (<[ ".cache/papers/bf1931c94b405047996c4df50cd1b2d4.json" :=
            Cache.Json
              (Cache.JObj [("metadata", Cache.JStr "A draft");
                           ("cached_at", Cache.JStr "+1");
                           ("metadata", Cache.JStr "A paper")]) ]> ∅)
      "2301.00001" 2
    = Cache.PStr "A paper") by (vm_compute; reflexivity).
  split; [exact Hserved|].
  match type of Hserved with
  | Cache.get _ _ _ ?fs _ _ = _ =>
      destruct (cache_get_sound Cache.example_platform ".cache"
                  Cache.PaperMetadata fs "2301.00001" 2%Z)
        as (j & data & text & cached_time & Hfile & _)
  end.
  { rewrite Hserved. discriminate. }
  rewrite Hfile. discriminate.
Defined.

Lemma clear_cache_spec_witness :
  Cache.get Cache.example_platform ".cache" Cache.PaperMetadata
    (Cache.clear_cache ".cache" None
       (Cache.set Cache.example_platform ".cache" Cache.PaperMetadata ∅
          "2301.00001" (Cache.PStr "A paper") 0))
    "2301.00001" 1
  = Cache.PNone.
Proof.
  destruct (clear_cache_spec Cache.example_platform ".cache"
              (Cache.set Cache.example_platform ".cache" Cache.PaperMetadata ∅
                 "2301.00001" (Cache.PStr "A paper") 0)) as (Hmiss & _).
  apply Hmiss. now left.
Defined.

Lemma cache_stats_spec_witness :
  Cache.count_json ".cache" Cache.Analysis
    (Cache.set Cache.example_platform ".cache" Cache.Analysis ∅
       "https://github.com/a/b" Cache.PNone 0)
  = 1%nat.
Proof.
  destruct (cache_stats_spec Cache.example_platform ".cache" ∅) as (_ & Hset).
  rewrite Hset. reflexivity.
Defined.

(* ===================================================================== *)
(** * Properties of the repository search *)
(* ===================================================================== *)

Section FindRepositoriesProperties.
Import Finder.

Lemma insert_by_stars_perm (r : repo) (l : list repo) :
  Permutation (insert_by_stars r l) (r :: l).
Proof.
  induction l as [|x l IH]; cbn [insert_by_stars]; [reflexivity|].
  destruct (stars x <=? stars r)%Z; [reflexivity|].
  rewrite IH. apply perm_swap.
Qed.

Lemma sort_by_stars_perm (l : list repo) : Permutation (sort_by_stars l) l.
Proof.
  induction l as [|x l IH]; cbn; [reflexivity|].
  fold (sort_by_stars l). rewrite insert_by_stars_perm. now rewrite IH.
Qed.

Lemma insert_by_stars_sorted (r : repo) (l : list repo) :
  sorted_by_stars l -> sorted_by_stars (insert_by_stars r l).
Proof.
  induction l as [|x l IH]; cbn [insert_by_stars sorted_by_stars].
  - intros _. split; [constructor | exact I].
  - intros [Hall Hsorted].
    destruct (Z.leb_spec (stars x) (stars r)) as [Hle|Hgt];
      cbn [sorted_by_stars].
    + split; [|split; assumption].
      constructor; [exact Hle|].
      eapply List.Forall_impl; [|exact Hall]. cbn. intros y Hy. lia.
    + split; [|auto].
      eapply Permutation_Forall; [symmetry; apply insert_by_stars_perm|].
      constructor; [lia | exact Hall].
Qed.

Lemma sort_by_stars_sorted (l : list repo) : sorted_by_stars (sort_by_stars l).
Proof.
  induction l as [|x l IH]; cbn; [exact I|].
  now apply insert_by_stars_sorted.
Qed.

Lemma existsb_key (unique : list (string * repo)) (key : string) :
  existsb (fun item => String.eqb (fst item) key) unique = true
  <-> In key (List.map fst unique).
Proof.
  rewrite existsb_exists, in_map_iff. split.
  - intros (item & Hin & Heq). apply String.eqb_eq in Heq. eauto.
  - intros (item & Heq & Hin). exists item. split; [exact Hin|].
    now apply String.eqb_eq.
Qed.

Lemma remember_keyed (unique : list (string * repo)) (r : repo) :
  keyed unique ->
  keyed (remember unique r) /\
  In (url_key r) (List.map fst (remember unique r)) /\
  (forall item, In item unique -> In item (remember unique r)).
Proof.
  intros [Hnodup Hkeys]. unfold remember.
  destruct (existsb _ unique) eqn:Hseen.
  - apply existsb_key in Hseen. repeat split; auto.
  - assert (Hnew : ~ In (url_key r) (List.map fst unique)).
    { intros Hin. apply existsb_key in Hin. congruence. }
    repeat split.
    + rewrite List.map_app. cbn [List.map fst].
      apply List.NoDup_app; [exact Hnodup | |].
      * constructor; [intros [] | constructor].
      * intros key Hin [<-|[]]. exact (Hnew Hin).
    + intros item Hin. apply in_app_or in Hin as [Hin|[<-|[]]]; auto.
    + rewrite List.map_app. apply in_or_app. right. now left.
    + intros item Hin. apply in_or_app. now left.
Qed.

Lemma fold_remember_spec (repos : list repo) :
  forall unique,
    keyed unique ->
    let result := fold_left remember repos unique in
    keyed result /\
    (forall r, In r repos -> In (url_key r) (List.map fst result)) /\
    (forall item, In item unique -> In item result) /\
    (forall item, In item result ->
       In item unique \/
       (~ In (fst item) (List.map fst unique) /\
        exists before after,
          repos = before ++ snd item :: after /\
          forall x, In x before -> url_key x <> url_key (snd item))).
Proof.
  induction repos as [|r repos IH]; intros unique Hkeyed; cbn [fold_left].
  - repeat split; try apply Hkeyed; auto. intros r [].
  - destruct (remember_keyed unique r Hkeyed) as (Hkeyed' & Hr & Hkeep).
    destruct (IH (remember unique r) Hkeyed') as (Hres & Hall & Hmono & Hnew).
    cbv zeta in *. repeat split; try apply Hres.
    + intros r' [<-|Hin]; [|now apply Hall].
      apply in_map_iff in Hr as (item & Hfst & Hitem).
      apply in_map_iff. exists item. split; [exact Hfst | now apply Hmono].
    + intros item Hin. apply Hmono, Hkeep, Hin.
    + intros item Hin.
      destruct (Hnew item Hin) as [Hold|(Hfresh & before & after & -> & Hfirst)].
      * unfold remember in Hold.
        destruct (existsb _ unique) eqn:Hseen; [now left|].
        apply in_app_or in Hold as [Hold|[<-|[]]]; [now left|].
        right. split.
        { intros Hin'. apply existsb_key in Hin'. cbn [fst] in Hin'. congruence. }
        exists [], repos. split; [reflexivity | intros x []].
      * right. split.
        { intros Hin'. apply Hfresh.
          apply in_map_iff in Hin' as (item' & Hfst & Hitem').
          apply in_map_iff. exists item'. split; [exact Hfst | now apply Hkeep]. }
        exists (r :: before), after. split; [reflexivity|].
        intros x [<-|Hx]; [|now apply Hfirst].
        intros Heq. apply Hfresh.
        destruct Hres as [_ Hitems]. rewrite (Hitems item Hin), <- Heq.
        exact Hr.
Qed.

Variable github_stars : string -> option Z.
Variable _search_papers_with_code : string -> list repo.

(** X10.  [find_repositories] returns the candidates ordered by stars,
    largest first.  So when [get_official_repository] is applied to its
    result, the selected candidate is one of those found, and unless it is
    marked official or comes from the paper's text it has the most stars
    of all. *)
Theorem find_repositories_sorted (github_urls : list string)
    (title arxiv_id : option string) (use_papers_with_code : bool) :
  let found := find_repositories github_stars _search_papers_with_code
                 github_urls title arxiv_id use_papers_with_code in
  sorted_by_stars found /\
  (found = [] <-> get_official_repository found = None) /\
  (forall r, get_official_repository found = Some r ->
     In r found /\
     (is_official r = true \/ from_paper_text r = true \/
      List.Forall (fun x => (stars x <= stars r)%Z) found)).
Proof.
  intros found.
  assert (Hsorted : sorted_by_stars found) by apply sort_by_stars_sorted.
  split; [exact Hsorted|]. clearbody found. split.
  - unfold get_official_repository. destruct found as [|first rest].
    + split; reflexivity.
    + split; [discriminate|].
      destruct (List.filter is_official (first :: rest));
        [destruct (List.filter from_paper_text (first :: rest))|]; discriminate.
  - intros r. unfold get_official_repository.
    destruct found as [|first rest]; [discriminate|].
    destruct (List.filter is_official (first :: rest)) as [|o os] eqn:Ho.
    + destruct (List.filter from_paper_text (first :: rest)) as [|p ps] eqn:Hp.
      * intros [= <-]. split; [now left|]. right; right.
        destruct Hsorted as [Hall _]. constructor; [lia | exact Hall].
      * intros [= <-].
        assert (Hin : In p (List.filter from_paper_text (first :: rest)))
          by (rewrite Hp; now left).
        apply filter_In in Hin as [Hin Hprop]. auto.
    + intros [= <-].
      assert (Hin : In o (List.filter is_official (first :: rest)))
        by (rewrite Ho; now left).
      apply filter_In in Hin as [Hin Hprop]. auto.
Qed.

(** X11.  [find_repositories] keeps one candidate per URL, compared
    without trailing slashes and without case: no two results share a
    key, every candidate's key is represented, and the candidate kept for
    a key is the first one collected with it, so a repository named in
    the paper's text wins over the same repository listed by Papers with
    Code.  A result marked official was returned by Papers with Code. *)
Theorem find_repositories_unique (github_urls : list string)
    (title arxiv_id : option string) (use_papers_with_code : bool) :
  let collected := candidates github_stars _search_papers_with_code
                     github_urls title arxiv_id use_papers_with_code in
  let found := find_repositories github_stars _search_papers_with_code
                 github_urls title arxiv_id use_papers_with_code in
  List.NoDup (List.map url_key found) /\
  (forall c, In c collected -> exists r, In r found /\ url_key r = url_key c) /\
  (forall r, In r found ->
     exists before after,
       collected = before ++ r :: after /\
       forall x, In x before -> url_key x <> url_key r) /\
  (forall r, In r found -> is_official r = true ->
     use_papers_with_code = true /\
     exists text, title = Some text /\ In r (_search_papers_with_code text)).
Proof.
  intros collected found.
  destruct (fold_remember_spec collected [])
    as ([Hnodup Hitems] & Hall & _ & Hnew).
  { split; [constructor | intros item []]. }
  cbv zeta in *. fold (unique_repos collected) in *.
  assert (Hperm : Permutation found (List.map snd (unique_repos collected)))
    by apply sort_by_stars_perm.
  assert (Hkeys : List.map url_key (List.map snd (unique_repos collected))
                  = List.map fst (unique_repos collected)).
  { rewrite List.map_map. apply List.map_ext_in. intros item Hin.
    symmetry. now apply Hitems. }
  assert (Hfirst : forall r, In r found ->
            exists before after,
              collected = before ++ r :: after /\
              forall x, In x before -> url_key x <> url_key r).
  { intros r Hr.
    apply (Permutation_in _ Hperm) in Hr.
    apply in_map_iff in Hr as (item & <- & Hin).
    destruct (Hnew item Hin) as [[]|(_ & before & after & Hsplit & Hfirst)].
    eauto. }
  split; [|split; [|split; [exact Hfirst|]]].
  - eapply Permutation_NoDup.
    + symmetry. apply Permutation_map. exact Hperm.
    + now rewrite Hkeys.
  - intros c Hc. specialize (Hall c Hc).
    apply in_map_iff in Hall as (item & Hfst & Hin).
    exists (snd item). split.
    + eapply Permutation_in; [symmetry; exact Hperm|].
      apply in_map_iff. eauto.
    + rewrite <- Hfst. symmetry. now apply Hitems.
  - intros r Hr Hofficial.
    destruct (Hfirst r Hr) as (before & after & Hsplit & _).
    assert (Hin : In r collected).
    { rewrite Hsplit. apply in_or_app. right. now left. }
    unfold collected, candidates in Hin.
    apply in_app_or in Hin as [Hin|Hin].
    + apply in_flat_map in Hin as (github_url & _ & Hin).
      unfold _get_repo_info in Hin.
      destruct (github_stars github_url); cbn in Hin; [|destruct Hin].
      destruct Hin as [<-|[]]. discriminate.
    + apply in_app_or in Hin as [Hin|Hin].
      * destruct title as [[|c t]|]; try destruct Hin.
        destruct use_papers_with_code; [|destruct Hin]. eauto.
      * destruct arxiv_id as [[|c t]|]; destruct Hin.
Qed.

End FindRepositoriesProperties.

(* ===================================================================== *)
(** * Properties of the provisioning strategies *)
(* ===================================================================== *)

Section StrategyProperties.
Import EnvSetup.
Variable w : world.
Variable work_dir : string.
Variable repo_path : string.
Variable a : analysis.

Lemma venv_install_requirements_spec (pip_cmd : string) (files errs : list string) :
  let installs :=
    List.map (fun req_file =>
                (req_file, [pip_cmd; "install"; "-r"; path_join repo_path req_file]))
      (List.filter (fun req_file => path_exists w (path_join repo_path req_file))
         files) in
  match venv_install_requirements w repo_path pip_cmd files errs with
  | (errs', None) =>
      forallb (fun i => returns w (snd i)) installs = true /\
      errs' = errs ++ flat_map (fun i => install_failure w (snd i) (fst i)) installs
  | (errs', Some e) =>
      forallb (fun i => returns w (snd i)) installs = false /\
      (forall m err, e <> CalledProcessError m err) /\
      exists done, errs' = errs ++ done
  end.
Proof.
  revert errs. induction files as [|req_file files IH]; intros errs.
  - cbn. split; [reflexivity | now rewrite app_nil_r].
  - cbn [venv_install_requirements List.filter].
    destruct (path_exists w (path_join repo_path req_file)); [|apply IH].
    cbn [List.map forallb flat_map snd fst].
    unfold run_check, returns, install_failure.
    destruct (run w [pip_cmd; "install"; "-r"; path_join repo_path req_file])
      as [rc err|m|m|m].
    + destruct (rc =? 0)%Z.
      * cbn [andb app]. apply IH.
      * cbn [andb]. specialize (IH (errs ++ [("Failed to install from " ++ req_file ++ ": " ++ err)%string])).
        cbv zeta in IH.
        destruct (venv_install_requirements w repo_path pip_cmd files _)
          as [errs' [e|]].
        -- destruct IH as (Hf & He & done & ->). split; [exact Hf|].
           split; [exact He|]. rewrite <- app_assoc. eauto.
        -- destruct IH as (Hf & ->). split; [exact Hf|].
           now rewrite <- app_assoc.
    + cbn. split; [reflexivity|]. split; [congruence|]. exists []. now rewrite app_nil_r.
    + cbn. split; [reflexivity|]. split; [congruence|]. exists []. now rewrite app_nil_r.
    + cbn. split; [reflexivity|]. split; [congruence|]. exists []. now rewrite app_nil_r.
Qed.

(** X13.  [setup_python_venv] succeeds exactly when the environment is
    created, [pip] is upgraded, and every install it attempts (one per
    requirements file that exists, then [setup.py]) returns, with
    whatever code.  An install that exits with a non-zero code is
    recorded and does not fail the strategy: on success the errors are
    the messages of those installs, in order.  On failure the last error
    is the message of the exception that ended the attempt. *)
Theorem setup_python_venv_spec (env_name : string) (python_version : option string) :
  let r := setup_python_venv w work_dir repo_path a env_name python_version in
  let env_path := path_join work_dir env_name in
  let pip_cmd := venv_pip_cmd w env_path in
  let installs :=
    requirement_installs w repo_path pip_cmd a
    ++ setup_py_installs w repo_path pip_cmd a in
  s_type r = "python_venv" /\
  (s_success r = true <->
   run_check w [venv_python_cmd python_version; "-m"; "venv"; env_path] = None /\
   run_check w [pip_cmd; "install"; "--upgrade"; "pip"] = None /\
   forallb (fun i => returns w (snd i)) installs = true) /\
  (s_success r = true ->
   s_errors r = flat_map (fun i => install_failure w (snd i) (fst i)) installs) /\
  (s_success r = false ->
   exists e done,
     s_errors r
     = done ++ [("Failed to setup Python environment: " ++ str_of e)%string]).
Proof.
  cbv zeta. unfold setup_python_venv.
  fold (venv_python_cmd python_version).
  fold (venv_pip_cmd w (path_join work_dir env_name)).
  set (env_path := path_join work_dir env_name).
  set (pip_cmd := venv_pip_cmd w env_path).
  destruct (run_check w [venv_python_cmd python_version; "-m"; "venv"; env_path])
    as [e|] eqn:Hcreate.
  { cbn. split; [reflexivity|]. split; [|split].
    - split; [discriminate | intros (H & _); discriminate].
    - discriminate.
    - intros _. exists e, []. reflexivity. }
  destruct (run_check w [pip_cmd; "install"; "--upgrade"; "pip"]) as [e|] eqn:Hpip.
  { cbn. split; [reflexivity|]. split; [|split].
    - split; [discriminate | intros (_ & H & _); discriminate].
    - discriminate.
    - intros _. exists e, []. reflexivity. }
  pose proof (venv_install_requirements_spec pip_cmd
                (requirements_files (python_deps_of a)) []) as Hreq.
  cbv zeta in Hreq. fold (requirement_installs w repo_path pip_cmd a) in Hreq.
  rewrite forallb_app, flat_map_app.
  destruct (venv_install_requirements w repo_path pip_cmd
              (requirements_files (python_deps_of a)) []) as [errs [e|]].
  { destruct Hreq as (Hf & _ & done & ->). rewrite Hf. cbn.
    split; [reflexivity|]. split; [|split].
    - split; [discriminate | intros (_ & _ & H); discriminate].
    - discriminate.
    - intros _. exists e, done. reflexivity. }
  destruct Hreq as (Hf & ->). rewrite Hf. cbn [app andb].
  unfold setup_py_installs.
  destruct (setup_py (python_deps_of a)
            && path_exists w (path_join repo_path "setup.py")).
  - cbn [forallb flat_map snd fst]. unfold run_check, returns, install_failure.
    destruct (run w [pip_cmd; "install"; "-e"; repo_path]) as [rc err|m|m|m].
    + destruct (rc =? 0)%Z; cbn; rewrite ?app_nil_r;
        (split; [reflexivity|]);
        (split; [split; auto | split; [intros _; reflexivity | discriminate]]).
    + cbn. split; [reflexivity|]. split; [|split].
      * split; [discriminate | intros (_ & _ & H); discriminate].
      * discriminate.
      * intros _. eexists (FileNotFoundError m), _. reflexivity.
    + cbn. split; [reflexivity|]. split; [|split].
      * split; [discriminate | intros (_ & _ & H); discriminate].
      * discriminate.
      * intros _. eexists (TimeoutExpired m), _. reflexivity.
    + cbn. split; [reflexivity|]. split; [|split].
      * split; [discriminate | intros (_ & _ & H); discriminate].
      * discriminate.
      * intros _. eexists (OtherError m), _. reflexivity.
  - cbn. rewrite app_nil_r. split; [reflexivity|].
    split; [split; auto | split; [intros _; reflexivity | discriminate]].
Qed.

(** A failed virtual environment ends its errors with the message of
    the exception that ended the attempt. *)
Lemma venv_failure_last_error (env_name : string)
    (python_version : option string) :
  let r := setup_python_venv w work_dir repo_path a env_name python_version in
  s_success r = false ->
  exists e done,
    s_errors r
    = done ++ [("Failed to setup Python environment: " ++ str_of e)%string].
Proof.
  cbv zeta. unfold setup_python_venv. cbv zeta.
  repeat match goal with
         | |- context [match run_check w ?argv with _ => _ end] =>
             destruct (run_check w argv) as [?|]
         | |- context [match venv_install_requirements ?h ?p ?c ?f ?e
                       with _ => _ end] =>
             destruct (venv_install_requirements h p c f e) as [? [|]]
         | |- context [if ?b then _ else _] => destruct b
         | |- context [match ?e with CalledProcessError _ _ => _ | _ => _ end] =>
             destruct e
         end;
    cbn [s_success s_errors];
    first [discriminate | intros _; eexists _, _; reflexivity].
Qed.

(** X14.  How the strategies account for a failure.  The Conda and the
    Docker strategy report exactly one error when they fail and none when
    they succeed, and a failed virtual environment reports at least one;
    a tool that is not installed is named in the error.  The Node
    strategy is the exception: it succeeds exactly when [npm] is there,
    the analysis found a [package.json] and [npm install] works, and
    when [npm] is there and the analysis found no [package.json] it
    fails, without any error. *)
Theorem failed_strategy_errors (env_name image_name : string)
    (python_version : option string) :
  let venv := setup_python_venv w work_dir repo_path a env_name python_version in
  let conda := setup_conda_env w repo_path a env_name in
  let docker := setup_docker_env w repo_path a image_name in
  let node := setup_node_env w a in
  (s_success venv = false -> s_errors venv <> []) /\
  (if s_success conda then s_errors conda = []
   else exists e, s_errors conda = [e]) /\
  (if s_success docker then s_errors docker = []
   else exists e, s_errors docker = [e]) /\
  (if s_success node then s_errors node = []
   else s_errors node = [] <->
        run_check w ["npm"; "--version"] = None /\
        package_json (node_deps_of a) = false) /\
  (s_success node = true <->
   run_check w ["npm"; "--version"] = None /\
   package_json (node_deps_of a) = true /\
   run_check w ["npm"; "install"] = None) /\
  (run_check w ["npm"; "--version"] = None ->
   package_json (node_deps_of a) = false ->
   s_success node = false /\ s_errors node = []) /\
  (forall e, run_check w ["npm"; "--version"] = Some e ->
     s_success node = false /\ exists msg, s_errors node = [msg]) /\
  (forall e, run_check w ["npm"; "--version"] = None ->
     package_json (node_deps_of a) = true ->
     run_check w ["npm"; "install"] = Some e ->
     s_success node = false /\ exists msg, s_errors node = [msg]) /\
  (forall m, run w ["conda"; "--version"] = RaisesFileNotFound m ->
     s_errors conda = ["Conda is not installed or not in PATH"]) /\
  (forall m, run w ["docker"; "--version"] = RaisesFileNotFound m ->
     s_errors docker = ["Docker is not installed or not in PATH"]) /\
  (forall m, run w ["npm"; "--version"] = RaisesFileNotFound m ->
     s_errors node = ["npm is not installed or not in PATH"]).
Proof.
  cbv zeta.
  split; [|split; [|split; [|split; [|split; [|split; [|split;
    [|split; [|split; [|split]]]]]]]]].
  - intros Hfail.
    destruct (venv_failure_last_error env_name python_version Hfail)
      as (e & done & ->). now destruct done.
  - unfold setup_conda_env.
    destruct (run_check w ["conda"; "--version"]) as [e|].
    { destruct e; cbn; eauto. }
    destruct (conda_env (python_deps_of a)), (conda_files (python_deps_of a));
      repeat match goal with
             | |- context [match run_check w ?argv with _ => _ end] =>
                 destruct (run_check w argv) as [[]|]
             | |- context [match conda_install_requirements ?w ?r ?n ?f with _ => _ end] =>
                 destruct (conda_install_requirements w r n f) as [[]|]
             end; cbn; eauto.
  - unfold setup_docker_env.
    destruct (run_check w ["docker"; "--version"]) as [e|].
    { destruct e; cbn; eauto. }
    destruct (List.filter _ (container_files a)); [cbn; eauto|].
    destruct (run w _) as [rc err|m|m|m]; [destruct (rc =? 0)%Z|..]; cbn; eauto.
  - unfold setup_node_env.
    destruct (run_check w ["npm"; "--version"]) as [e|].
    { destruct e; cbn; split; try discriminate; intros [? _]; discriminate. }
    destruct (package_json (node_deps_of a)).
    + destruct (run_check w ["npm"; "install"]) as [e|]; [|reflexivity].
      destruct e; cbn; split; try discriminate; intros [_ ?]; discriminate.
    + cbn. split; auto.
  - unfold setup_node_env.
    destruct (run_check w ["npm"; "--version"]) as [e|].
    { destruct e; cbn; split; try discriminate; intros [? _]; discriminate. }
    destruct (package_json (node_deps_of a)).
    + destruct (run_check w ["npm"; "install"]) as [e|];
        [|cbn; split; [intros _; repeat split | reflexivity]].
      destruct e; cbn; split; try discriminate; intros (_ & _ & ?); discriminate.
    + cbn. split; [discriminate | intros (_ & ? & _); discriminate].
  - intros Hnpm Hpkg. unfold setup_node_env. rewrite Hnpm, Hpkg.
    split; reflexivity.
  - intros e Hnpm. unfold setup_node_env. rewrite Hnpm.
    destruct e; cbn; eauto.
  - intros e Hnpm Hpkg Hinstall. unfold setup_node_env.
    rewrite Hnpm, Hpkg, Hinstall. destruct e; cbn; eauto.
  - intros m Hrun. unfold setup_conda_env, run_check. now rewrite Hrun.
  - intros m Hrun. unfold setup_docker_env, run_check. now rewrite Hrun.
  - intros m Hrun. unfold setup_node_env, run_check. now rewrite Hrun.
Qed.

(** X15.  The shape of what [auto_setup] returns.  A single-strategy
    descriptor is returned only for a Docker build that was wanted, tried
    and succeeded; after any failed Docker attempt the language
    strategies decide.  The aggregate lists one or two results: for
    Python the Conda result only when Conda was preferred and succeeded,
    otherwise the result of the virtual environment alone (a failed Conda
    attempt leaves no trace), then the Node result for JavaScript or
    TypeScript.  The ['none'] descriptor means that no language strategy
    applied. *)
Theorem auto_setup_shape (prefer_docker prefer_conda : bool) :
  let auto := auto_setup w work_dir repo_path a prefer_docker prefer_conda in
  let docker := setup_docker_env w repo_path a "research_reproducer" in
  let conda := setup_conda_env w repo_path a "research_env" in
  let venv := setup_python_venv w work_dir repo_path a "venv" None in
  let python :=
    if has_language a "Python"
    then [if prefer_conda && s_success conda then conda else venv] else [] in
  let node :=
    if has_language a "JavaScript" || has_language a "TypeScript"
    then [setup_node_env w a] else [] in
  (forall s, auto = Strategy s ->
     prefer_docker = true /\ docker_support a = true /\ s = docker /\
     s_success s = true /\ s_errors s = [] /\
     s_run_command s = Some "docker run -it research_reproducer") /\
  (prefer_docker && docker_support a && s_success docker = true ->
   auto = Strategy docker) /\
  (prefer_docker && docker_support a && s_success docker = false ->
   auto = match python ++ node with
          | [] => NoEnvironment ["No compatible environment setup found"]
          | _ :: _ => Multi (python ++ node) (existsb s_success (python ++ node))
          end).
Proof.
  cbv zeta.
  assert (Hlang : language_results w work_dir repo_path a prefer_conda
    = (if has_language a "Python"
       then [if prefer_conda
                && s_success (setup_conda_env w repo_path a "research_env")
             then setup_conda_env w repo_path a "research_env"
             else setup_python_venv w work_dir repo_path a "venv" None]
       else [])
      ++ (if has_language a "JavaScript" || has_language a "TypeScript"
          then [setup_node_env w a] else [])).
  { unfold language_results, python_results, node_results. cbn [existsb].
    rewrite orb_false_r.
    destruct (has_language a "Python"), prefer_conda; cbn [andb]; try reflexivity.
    destruct (s_success (setup_conda_env w repo_path a "research_env"));
      reflexivity. }
  assert (Hcombine : forall results,
    combine_results results
    = match results with
      | [] => NoEnvironment ["No compatible environment setup found"]
      | _ => Multi results (existsb s_success results)
      end) by (intros []; reflexivity).
  assert (Hdocker : s_success (setup_docker_env w repo_path a "research_reproducer") = true ->
    s_errors (setup_docker_env w repo_path a "research_reproducer") = [] /\
    s_run_command (setup_docker_env w repo_path a "research_reproducer")
      = Some "docker run -it research_reproducer").
  { unfold setup_docker_env.
    destruct (run_check w ["docker"; "--version"]) as [e|].
    { destruct e; discriminate. }
    destruct (List.filter _ (container_files a)); [discriminate|].
    destruct (run w _) as [rc err|m|m|m]; [destruct (rc =? 0)%Z|..];
      try discriminate. intros _. split; reflexivity. }
  unfold auto_setup. rewrite <- Hlang, Hcombine.
  destruct (prefer_docker && docker_support a) eqn:Hwanted.
  - apply andb_true_iff in Hwanted as [-> ->].
    destruct (s_success (setup_docker_env w repo_path a "research_reproducer"))
      eqn:Hok.
    + split; [|split; [reflexivity | discriminate]].
      intros s [= <-]. destruct (Hdocker eq_refl) as [He Hr]. auto 10.
    + split; [|split; [discriminate | reflexivity]].
      intros s Hs. destruct (language_results _ _ _ _ _); discriminate.
  - split; [|split; [discriminate | reflexivity]].
    intros s Hs. destruct (language_results _ _ _ _ _); discriminate.
Qed.

End StrategyProperties.

Lemma failed_strategy_errors_witness :
  EnvSetup.s_success
    (EnvSetup.setup_node_env EnvSetup.obliging_host
       (EnvSetup.mkAnalysis ["JavaScript"] None None [] false [])) = false /\
  EnvSetup.s_errors
    (EnvSetup.setup_node_env EnvSetup.obliging_host
       (EnvSetup.mkAnalysis ["JavaScript"] None None [] false [])) = [].
Proof.
  pose proof (failed_strategy_errors EnvSetup.obliging_host "envs" "repo"
                (EnvSetup.mkAnalysis ["JavaScript"] None None [] false [])
                "venv" "research_reproducer" None) as H.
  cbv zeta in H. destruct H as (_ & _ & _ & _ & _ & Hnone & _).
  apply Hnone; reflexivity.
Defined.

(* ===================================================================== *)
(** * The diagnoser as a stateful object *)
(* ===================================================================== *)

Section DiagnoserState.
Import Regex Diagnosis.

Lemma first_match_split (t : table) (msg : string) before name info caps after :
  first_match t msg = Some (before, (name, info, caps), after) ->
  t = before ++ (name, info) :: after /\
  search (pattern info) msg = Some caps /\
  List.Forall (fun entry => search (pattern (snd entry)) msg = None) before.
Proof.
  revert before. induction t as [|[name0 info0] t IH]; intros before;
    cbn [first_match]; [discriminate|].
  destruct (search (pattern info0) msg) as [caps0|] eqn:Hs.
  - intros [= <- <- <- <- <-]. auto.
  - destruct (first_match t msg) as [[[before' [[name' info'] caps']] after']|];
      [|discriminate].
    intros [= <- <- <- <- <-].
    destruct (IH before' eq_refl) as (-> & Hs' & Hb). auto.
Qed.

Lemma first_match_found (msg : string) before name info caps after :
  List.Forall (fun entry => search (pattern (snd entry)) msg = None) before ->
  search (pattern info) msg = Some caps ->
  first_match (before ++ (name, info) :: after) msg
  = Some (before, (name, info, caps), after).
Proof.
  intros Hb Hs. induction Hb as [|[name0 info0] before H0 Hb IH];
    cbn [app first_match pattern snd] in *.
  - now rewrite Hs.
  - now rewrite H0, IH.
Qed.

Lemma first_match_category (t : table) (msg : string) before name info caps after :
  first_match t msg = Some (before, (name, info, caps), after) ->
  In (name, info) t.
Proof.
  intros H. apply first_match_split in H as (-> & _). apply in_or_app.
  right. now left.
Qed.

(** One call of [diagnose] on a group-less match: the entry is found
    again, with the context fixes appended to its fixes. *)
Lemma diagnose_extends (t : table) (msg : string) (ctx : option context)
    before name info caps after :
  first_match t msg = Some (before, (name, info, caps), after) ->
  has_groups (pattern info) = false ->
  first_match (snd (diagnose t msg ctx)) msg
  = Some (before,
          (name,
           mkInfo (pattern info) (category info)
             (fixes info ++ context_fixes (category info) ctx), caps),
          after).
Proof.
  intros Hm Hg. unfold diagnose. rewrite Hm, Hg. cbn [snd].
  apply first_match_split in Hm as (_ & Hs & Hb).
  now apply first_match_found.
Qed.

Lemma diagnose_repeatedly_extends (n : nat) :
  forall (t : table) (msg : string) (ctx : option context)
         before name info caps after,
  first_match t msg = Some (before, (name, info, caps), after) ->
  has_groups (pattern info) = false ->
  first_match (diagnose_repeatedly n t msg ctx) msg
  = Some (before,
          (name,
           mkInfo (pattern info) (category info)
             (fixes info
              ++ List.concat (repeat (context_fixes (category info) ctx) n)),
           caps),
          after).
Proof.
  induction n as [|n IH]; intros t msg ctx before name info caps after Hm Hg.
  - cbn. rewrite app_nil_r. now destruct info.
  - cbn [diagnose_repeatedly repeat List.concat].
    rewrite (IH _ msg ctx _ _ _ _ _ (diagnose_extends t msg ctx _ _ _ _ _ Hm Hg) Hg).
    cbn [pattern category fixes]. now rewrite <- app_assoc.
Qed.

(** X16.  The fixes of a pattern without a group are handed out as the
    list stored in the table, and the context suggestions are appended to
    that very list.  So for a message whose first match is such a
    pattern, after [n] diagnoses with a context the next diagnosis, even
    one without any context, lists the stored fixes followed by [n]
    copies of the context suggestions.  For a pattern with a group the
    table is left as it was. *)
Theorem diagnose_context_fixes_accumulate (t : table) (msg : string)
    (ctx : option context) (n : nat) :
  matched_pattern (fst (diagnose t msg None)) = true ->
  let first := fst (diagnose t msg None) in
  let later := fst (diagnose (diagnose_repeatedly n t msg ctx) msg None) in
  (root_cause first = None ->
   suggested_fixes later
   = suggested_fixes first
     ++ List.concat (repeat (context_fixes (d_category first) ctx) n)) /\
  (root_cause first <> None ->
   diagnose_repeatedly n t msg ctx = t /\ later = first).
Proof.
  intros Hmatched. cbv zeta.
  destruct (first_match t msg)
    as [[[before [[name info] caps]] after]|] eqn:Hm.
  2: { unfold diagnose in Hmatched. rewrite Hm in Hmatched. discriminate. }
  destruct (has_groups (pattern info)) eqn:Hg.
  - assert (Hsame : forall k, diagnose_repeatedly k t msg ctx = t).
    { induction k as [|k IH]; [reflexivity|].
      cbn [diagnose_repeatedly]. unfold diagnose at 1. rewrite Hm, Hg.
      exact IH. }
    split.
    + unfold diagnose at 1. rewrite Hm, Hg. discriminate.
    + intros _. now rewrite Hsame.
  - split.
    + intros _. unfold diagnose.
      rewrite (diagnose_repeatedly_extends n t msg ctx _ _ _ _ _ Hm Hg), Hm.
      cbn [pattern category fixes]. rewrite Hg.
      cbn [fst suggested_fixes d_category context_fixes].
      now rewrite !app_nil_r.
    + unfold diagnose at 1. rewrite Hm, Hg. cbn. congruence.
Qed.

Lemma grown_from_refl (entry : string * pattern_info) : grown_from entry entry.
Proof.
  unfold grown_from. repeat split; auto. exists []. now rewrite app_nil_r.
Qed.

Lemma diagnose_keeps_growing (t0 t : table) (msg : string) (ctx : option context) :
  List.Forall2 grown_from t0 t ->
  List.Forall2 grown_from t0 (snd (diagnose t msg ctx)).
Proof.
  intros Hinv. unfold diagnose.
  destruct (first_match t msg)
    as [[[before [[name info] caps]] after]|] eqn:Hm; [|exact Hinv].
  destruct (has_groups (pattern info)) eqn:Hg; [exact Hinv|].
  cbn [snd]. apply first_match_split in Hm as (-> & _ & _).
  apply Forall2_app_inv_r in Hinv as (before0 & rest0 & Hb & Hr & ->).
  inversion Hr as [|entry0 entry after0 after' Hentry Hafter]; subst.
  apply Forall2_app; [exact Hb|]. constructor; [|exact Hafter].
  destruct Hentry as (Hname & Hpat & Hcat & [added Hfix] & Hgroups).
  cbn [fst snd pattern category fixes] in *.
  unfold grown_from. cbn [fst snd pattern category fixes].
  split; [exact Hname|]. split; [exact Hpat|]. split; [exact Hcat|]. split.
  - exists (added ++ context_fixes (category info) ctx).
    rewrite Hfix. now rewrite app_assoc.
  - rewrite <- Hpat, Hg. discriminate.
Qed.

Lemma reachable_grown (t : table) :
  reachable t -> List.Forall2 grown_from _initialize_patterns t.
Proof.
  induction 1 as [|t msg ctx _ IH].
  - repeat constructor; apply grown_from_refl.
  - now apply diagnose_keeps_growing.
Qed.

Lemma grown_entry (t0 t : table) (entry : string * pattern_info) :
  List.Forall2 grown_from t0 t -> In entry t ->
  exists entry0, In entry0 t0 /\ grown_from entry0 entry.
Proof.
  induction 1 as [|e0 e t0 t He _ IH]; intros Hin; [destruct Hin|].
  destruct Hin as [->|Hin].
  - exists e0. split; [now left | exact He].
  - destruct (IH Hin) as (entry0 & Hin0 & Hg). exists entry0.
    split; [now right | exact Hg].
Qed.

(** Without a context nothing is appended, and the table stays as it
    is. *)
Lemma diagnose_without_context (t : table) (msg : string) :
  snd (diagnose t msg None) = t.
Proof.
  unfold diagnose.
  destruct (first_match t msg)
    as [[[before [[name info] caps]] after]|] eqn:Hm; [|reflexivity].
  destruct (has_groups (pattern info)); [reflexivity|].
  cbn [snd context_fixes]. apply first_match_split in Hm as (-> & _).
  rewrite app_nil_r. now destruct info.
Qed.

(** X17.  What calls of [diagnose] can and cannot do to a diagnoser.  The
    table keeps its entries, in order, with their names, patterns and
    categories; a list of fixes only grows, and only for a pattern
    without a group; a diagnosis without a context changes nothing.
    Every diagnosis describes the message by its first 200 characters and
    carries one of the seven categories; it is unmatched exactly when its
    error type is ['unknown'], and then it has no root cause and only the
    context suggestions; otherwise its error type is a name of the
    table. *)
Theorem diagnoser_invariant (t : table) :
  reachable t ->
  List.Forall2 grown_from _initialize_patterns t /\
  (forall msg, snd (diagnose t msg None) = t) /\
  (forall msg ctx,
     let d := fst (diagnose t msg ctx) in
     description d = String.substring 0 200 msg /\
     In (d_category d) categories /\
     (matched_pattern d = false <-> error_type d = "unknown") /\
     (matched_pattern d = false ->
      d_category d = "unknown" /\ root_cause d = None /\
      suggested_fixes d = context_fixes "unknown" ctx) /\
     (matched_pattern d = true ->
      In (error_type d) (List.map fst _initialize_patterns))).
Proof.
  intros Ht. pose proof (reachable_grown t Ht) as Hinv.
  split; [exact Hinv|]. split.
  - intros msg. apply diagnose_without_context.
  - intros msg ctx. cbv zeta. unfold diagnose.
    destruct (first_match t msg)
      as [[[before [[name info] caps]] after]|] eqn:Hm.
    + apply first_match_category in Hm.
      destruct (grown_entry _ _ _ Hinv Hm)
        as (entry0 & Hin0 & Hname & _ & Hcat & _).
      cbn [fst snd] in Hname, Hcat.
      assert (Hknown : In (category info) categories /\ name <> "unknown" /\
                       In name (List.map fst _initialize_patterns)).
      { rewrite Hname, Hcat. clear -Hin0.
        repeat (destruct Hin0 as [<-|Hin0];
                [split; [cbn; tauto | split; [discriminate | cbn; tauto]]|]).
        destruct Hin0. }
      destruct Hknown as (Hc & Hn & Hnames).
      destruct (has_groups (pattern info));
        cbn [fst description d_category matched_pattern error_type];
        (split; [reflexivity|]); (split; [exact Hc|]);
        (split; [split; [discriminate | intros; congruence]|]);
        (split; [discriminate | intros _; exact Hnames]).
    + cbn. split; [reflexivity|]. split; [tauto|].
      split; [split; reflexivity|]. split; [auto | discriminate].
Qed.

Lemma lit_match_append (text s : string) : lit_match text (text ++ s) = Some s.
Proof.
  induction text as [|ch text IH]; [reflexivity|].
  rewrite string_append_cons. cbn [lit_match].
  now rewrite Ascii.eqb_refl.
Qed.

Lemma star_greedy_all {R : Type} (p : ascii -> bool) (taken : string)
    (next : ascii) (rest : string) (k : string -> option R) (res : R) :
  Str.all_chars p taken = true -> p next = false ->
  k (String next rest) = Some res ->
  star_greedy p (taken ++ String next rest) k = Some res.
Proof.
  intros Hall Hnext Hk. induction taken as [|ch taken IH].
  - change ("" ++ String next rest)%string with (String next rest).
    cbn [star_greedy]. now rewrite Hnext.
  - rewrite string_append_cons. cbn [Str.all_chars] in Hall.
    apply andb_true_iff in Hall as [Hch Hall].
    cbn [star_greedy]. now rewrite Hch, (IH Hall).
Qed.

Lemma consumed_prefix (taken rest : string) :
  consumed (taken ++ rest) rest = taken.
Proof.
  unfold consumed. rewrite string_length_append.
  replace (String.length taken + String.length rest - String.length rest)%nat
    with (String.length taken) by lia.
  induction taken as [|ch taken IH].
  - change ("" ++ rest)%string with rest. now destruct rest.
  - rewrite string_append_cons. cbn [String.length String.substring].
    now rewrite IH.
Qed.

Lemma match_here_missing_module (name rest : string) :
  name <> "" -> Str.all_chars word name = true ->
  match_here missing_module_pattern (missing_module_line name ++ rest)
  = Some [name].
Proof.
  intros Hne Hword. unfold match_here, missing_module_pattern, missing_module_line.
  rewrite !string_append_assoc. cbn [rmatch]. rewrite lit_match_append.
  unfold Plus. cbn [rmatch].
  destruct name as [|ch name]; [congruence|].
  cbn [Str.all_chars] in Hword. apply andb_true_iff in Hword as [Hch Hword].
  rewrite string_append_cons, Hch.
  change ("'" ++ rest)%string with (String "'" rest).
  erewrite star_greedy_all; [reflexivity | exact Hword | reflexivity |].
  cbn [lit_match]. rewrite Ascii.eqb_refl. cbn [app]. do 2 f_equal.
  change (String ch (name ++ String "'" rest))
    with (String ch name ++ String "'" rest)%string.
  apply consumed_prefix.
Qed.

Lemma customise_module (name before_field : string) :
  Str.contains "{" before_field = false ->
  customise name (before_field ++ "{module}") = (before_field ++ name)%string.
Proof.
  intros Hplain. unfold customise.
  assert (Hhas : Str.contains "{module}" (before_field ++ "{module}") = true).
  { clear Hplain. induction before_field as [|ch s IH]; [reflexivity|].
    rewrite string_append_cons. cbn [Str.contains]. rewrite IH.
    apply orb_true_r. }
  rewrite Hhas. unfold format_field.
  change ("{" ++ "module" ++ "}")%string with "{module}".
  induction before_field as [|ch s IH].
  - change ("" ++ "{module}")%string with "{module}".
    change ("" ++ name)%string with name.
    cbv -[String.append]. apply string_append_nil_r.
  - rewrite !string_append_cons. cbn [Str.contains Str.startswith] in Hplain.
    apply orb_false_iff in Hplain as [Hch Hplain].
    cbn [replace_from Str.startswith].
    destruct (Ascii.eqb "{" ch) eqn:Heq; [discriminate|].
    rewrite IH; [reflexivity | exact Hplain |].
    clear -s. induction s as [|c s IHs]; [reflexivity|].
    rewrite string_append_cons. cbn [Str.contains]. rewrite IHs.
    apply orb_true_r.
Qed.

(** X18.  A traceback line about a missing module is diagnosed by the
    name of the module, whatever the name: when the leftmost match of the
    missing-module pattern is [ModuleNotFoundError: No module named
    '<name>'] for a non-empty [name] of word characters, the root cause
    is [name] and the fixes start with the two install commands for
    [name], in every state of the diagnoser. *)
Theorem diagnose_missing_module_name (t : table) (ctx : option context)
    (before name rest : string) :
  reachable t ->
  name <> "" -> Str.all_chars word name = true ->
  no_match_within missing_module_pattern before
    (missing_module_line name ++ rest) = true ->
  let d := fst (diagnose t (before ++ missing_module_line name ++ rest) ctx) in
  error_type d = "ModuleNotFoundError" /\
  d_category d = "dependency" /\
  root_cause d = Some name /\
  suggested_fixes d
  = [("Install the missing package: pip install " ++ name)%string;
     "Check if package name has changed or been deprecated";
     ("Try installing with conda: conda install " ++ name)%string;
     "Check requirements.txt for correct package name"]
    ++ context_fixes "dependency" ctx.
Proof.
  intros Ht Hne Hword Hleft d. subst d.
  rewrite (diagnose_missing_module t _ ctx [name] Ht).
  2: { rewrite search_skip by exact Hleft.
       apply search_here, match_here_missing_module; assumption. }
  cbn [error_type d_category root_cause suggested_fixes List.hd List.map].
  split; [reflexivity|]. split; [reflexivity|]. split; [reflexivity|].
  f_equal.
  change "Install the missing package: pip install {module}"
    with ("Install the missing package: pip install " ++ "{module}")%string.
  change "Try installing with conda: conda install {module}"
    with ("Try installing with conda: conda install " ++ "{module}")%string.
  rewrite !customise_module by reflexivity.
  reflexivity.
Qed.

End DiagnoserState.

Lemma diagnose_context_fixes_accumulate_witness :
  Diagnosis.suggested_fixes
    (fst (Diagnosis.diagnose
            (Diagnosis.diagnose_repeatedly 2 Diagnosis._initialize_patterns
               "RuntimeError: CUDA error: out of memory"
               (Some (Diagnosis.mkContext None None true)))
            "RuntimeError: CUDA error: out of memory" None))
  = ["Install CUDA toolkit matching PyTorch/TensorFlow version";
     "Check GPU availability: nvidia-smi";
     "Set environment to use CPU: export CUDA_VISIBLE_DEVICES=''";
     "Update GPU drivers";
     "Try CPU version of the framework"]
    ++ Diagnosis.context_fixes "gpu" (Some (Diagnosis.mkContext None None true))
    ++ Diagnosis.context_fixes "gpu" (Some (Diagnosis.mkContext None None true)).
Proof.
  exact (proj1 (diagnose_context_fixes_accumulate Diagnosis._initialize_patterns
                  "RuntimeError: CUDA error: out of memory"
                  (Some (Diagnosis.mkContext None None true)) 2 eq_refl)
           eq_refl).
Defined.

Lemma diagnoser_invariant_witness :
  snd (Diagnosis.diagnose
         (snd (Diagnosis.diagnose Diagnosis._initialize_patterns
                 "Connection refused"
                 (Some (Diagnosis.mkContext None None true))))
         "PermissionError: [Errno 13]" None)
  = snd (Diagnosis.diagnose Diagnosis._initialize_patterns
           "Connection refused"
           (Some (Diagnosis.mkContext None None true))).
Proof.
  apply (diagnoser_invariant _
           (Diagnosis.reachable_step _ "Connection refused"
              (Some (Diagnosis.mkContext None None true))
              Diagnosis.reachable_init)).
Defined.

Lemma diagnose_missing_module_name_witness :
  Diagnosis.root_cause
    (fst (Diagnosis.diagnose Diagnosis._initialize_patterns
            ("Traceback (most recent call last): "
             ++ Diagnosis.missing_module_line "numpy" ++ " (version 1.2)")
            None))
  = Some "numpy".
Proof.
  apply (diagnose_missing_module_name Diagnosis._initialize_patterns None
           "Traceback (most recent call last): " "numpy" " (version 1.2)"
           Diagnosis.reachable_init);
    [discriminate | reflexivity | vm_compute; reflexivity].
Defined.

(* ===================================================================== *)
(** * The pipeline and its callers *)
(* ===================================================================== *)

Section PipelineReports.
Import Orchestrator.

Lemma print_errors_console (errors : list string) (st : state) :
  st_console (print_errors errors st)
  = st_console st ++ List.map (fun e => ("  • " ++ e)%string) errors.
Proof.
  unfold print_errors. revert st.
  induction errors as [|e errors IH]; intros st; cbn [fold_left List.map].
  - now rewrite app_nil_r.
  - rewrite IH. cbn [print st_console]. now rewrite <- app_assoc.
Qed.

Lemma pipeline_reports c st paper_metadata text interactive timeout :
  reports
    (choose_environment c interactive (session_dir_of c text)
       (session_config c interactive) (analyze c))
    (effective_timeout timeout (session_config c interactive))
    st (pipeline c st paper_metadata text interactive timeout).
Proof.
  unfold pipeline, clone_stage, analysis_stage, environment_stage,
    execute_stage. cbv zeta.
  set (env := choose_environment c interactive (session_dir_of c text)
                (session_config c interactive) (analyze c)).
  destruct (find_repositories c paper_metadata) as [|r repos];
    [left; split; reflexivity|].
  assert (Hstage : forall selected st0,
    r_environment (st_report st0) = r_environment (st_report st) ->
    r_execution (st_report st0) = r_execution (st_report st) ->
    reports env
      (effective_timeout timeout (session_config c interactive)) st
      (clone_stage c interactive timeout (session_dir_of c text) selected st0)).
  { intros selected st0 Henv Hexec.
    unfold clone_stage, analysis_stage, environment_stage, execute_stage.
    cbv zeta. fold env.
    destruct (clone_from c (Finder.url selected)) as [e|];
      [left; split; assumption|].
    destruct (interactive && negb (display_summary c));
      [left; split; assumption|].
    right. destruct (EnvSetup.env_success env) eqn:Hok.
    - destruct (choose_command interactive (session_config c interactive)
                  (analyze c)) as [command|].
      + split.
        * cbn [st_report print update_report _save_report set_success
               set_execution set_environment r_success r_environment].
          now destruct (Executor.success _).
        * right. split; [reflexivity|]. right.
          eexists _, _.
          cbn [st_report print update_report _save_report set_success
               set_execution set_environment r_success r_execution].
          destruct (Executor.success _); reflexivity.
      + split; [reflexivity|]. right. split; [reflexivity|]. left. exact Hexec.
    - match goal with
      | |- context [print_errors ?errs ?st1] =>
          destruct (print_errors_fields errs st1) as (Hr & _);
          pose proof (print_errors_console errs st1) as Hcons
      end.
      rewrite Hr. split; [reflexivity|]. left. split; [reflexivity|].
      split; [exact Hexec|].
      intros e He. rewrite Hcons. apply in_or_app. right.
      apply in_map_iff. eauto. }
  destruct interactive.
  - destruct (ask_repository_selection c (r :: repos)) as [selected|];
      [|left; split; reflexivity].
    apply Hstage; reflexivity.
  - destruct (Finder.get_official_repository (r :: repos)) as [selected|];
      [|left; split; reflexivity].
    apply Hstage; reflexivity.
Qed.



Lemma pipeline_success_iff c st0 paper_metadata text interactive timeout :
  r_success (st_report st0) = false ->
  r_execution (st_report st0) = None ->
  let st' := pipeline c st0 paper_metadata text interactive timeout in
  r_success (st_report st') = true <->
  exists result,
    r_execution (st_report st') = Some result /\
    Executor.exit_code result = Some 0%Z /\
    Executor.timed_out result = false.
Proof.
  intros Hfalse Hnone st'.
  destruct (pipeline_outcome c st0 paper_metadata text interactive timeout)
    as [_ Hout].
  pose proof (pipeline_reports c st0 paper_metadata text interactive timeout)
    as Hrep.
  fold st' in Hout, Hrep.
  destruct Hout as [(_ & He & _ & Hok)|[(res & He & Hr & _) _]].
  - rewrite (Hok Hfalse). split; [discriminate|].
    intros (result & Hres & _). rewrite He, Hnone in Hres. discriminate.
  - assert (Hexec : exists command exec_timeout world,
              res = Executor.execute command (Some exec_timeout) true true world).
    { destruct Hrep as [[_ Hsame]|[_ [(_ & Hsame & _)|[_ [Hsame|Hx]]]]];
        try (rewrite He, Hnone in Hsame; discriminate).
      destruct Hx as (command & world & Hx).
      rewrite He in Hx. injection Hx as ->. eauto. }
    destruct Hexec as (command & exec_timeout & world & ->).
    rewrite Hr, He.
    pose proof (execute_flags command (Some exec_timeout) true true world)
      as Hfl. cbv zeta in Hfl. rewrite Hfl.
    unfold Executor.exit_code_is_zero.
    set (result := Executor.execute command (Some exec_timeout) true true world).
    split.
    + intros Hboth. exists result. split; [reflexivity|].
      apply andb_true_iff in Hboth as [Hcode Htimed].
      apply negb_true_iff in Htimed. split; [|exact Htimed].
      destruct (Executor.exit_code result) as [rc|]; [|discriminate].
      apply Z.eqb_eq in Hcode. now subst.
    + intros (result' & [= <-] & Hcode & Htimed). now rewrite Hcode, Htimed.
Qed.

(** X20.  The exit status of the command line.  A run on a new
    orchestrator ends with status 0, 1 or 130: with 130 exactly when the
    user interrupts it, and with 0 exactly when it is not interrupted and
    returns a report whose execution result has exit code 0 and did not
    time out.  Every halt, every failed or timed-out command, and the
    [TypeError] of a paper whose title is [None] give status 1. *)
Theorem cli_exit_status c paper_metadata interactive timeout interrupted :
  let run := reproduce c (new_orchestrator c) paper_metadata interactive timeout in
  let status :=
    exit_status (run_cli c paper_metadata interactive timeout interrupted) in
  (status = 0%Z \/ status = 1%Z \/ status = 130%Z) /\
  (status = 130%Z <-> interrupted = true) /\
  (status = 0%Z <->
   interrupted = false /\
   exists st' result,
     run = Returns st' /\
     r_execution (st_report st') = Some result /\
     Executor.exit_code result = Some 0%Z /\
     Executor.timed_out result = false) /\
  (interrupted = false -> title paper_metadata = TitleIsNone ->
   status = 1%Z) /\
  (interrupted = false ->
   forall st', run = Returns st' -> r_success (st_report st') = false ->
   status = 1%Z).
Proof.
  cbv zeta. unfold run_cli. destruct interrupted.
  { cbn [exit_status]. split; [auto|]. split; [split; auto|].
    split; [split; [discriminate | intros [? _]; discriminate]|].
    split; discriminate. }
  unfold reproduce, _reproduce_from_metadata. cbv zeta.
  destruct (title_text paper_metadata) as [text|] eqn:Htitle.
  - set (st0 := update_report (set_timestamp (clock_iso c))
                  (update_report (set_paper paper_metadata) (new_orchestrator c))).
    pose proof (pipeline_success_iff c st0 paper_metadata text interactive
                  timeout eq_refl eq_refl) as Hiff.
    cbv zeta in Hiff.
    set (st' := pipeline c st0 paper_metadata text interactive timeout) in *.
    cbn [exit_status].
    split; [destruct (r_success (st_report st')); auto|].
    split; [split; [destruct (r_success (st_report st')); discriminate
                   | discriminate]|].
    split; [|split].
    + split.
      * intros Hzero. destruct (r_success (st_report st')); [|discriminate].
        destruct (proj1 Hiff eq_refl) as (result & H1 & H2 & H3).
        split; [reflexivity|]. exists st', result. auto.
      * intros (_ & st'' & result & [= <-] & H1 & H2 & H3).
        rewrite (proj2 Hiff) by eauto. reflexivity.
    + intros _ Hnone. unfold title_text in Htitle. rewrite Hnone in Htitle.
      discriminate.
    + intros _ st'' [= <-] Hfail. now rewrite Hfail.
  - cbn [exit_status]. split; [auto|].
    split; [split; discriminate|]. split; [|split; [reflexivity|]].
    + split; [discriminate | intros (_ & st' & result & H & _); discriminate].
    + intros _ st' H. discriminate.
Qed.

(** X24.  Every command of the pipeline runs under a time-out, with its
    output streamed: the time-out asked for, or [timeout_minutes] (30 by
    default) in seconds when none, or 0, was asked for.  So when the
    command is still running at the deadline, the report of the run has
    [timed_out] set and [success] false, and the output the command had
    written is not in it: [stdout] and [stderr] are empty, and the only
    error is the time-out message. *)
Theorem timed_out_run_report c paper_metadata interactive timeout :
  let exec_timeout :=
    effective_timeout timeout (session_config c interactive) in
  (exec_timeout
   = match timeout with
     | Some t => if (t =? 0)%Z then (default 30%Z (uc_timeout_minutes
                                       (session_config c interactive)) * 60)%Z
                 else t
     | None => (default 30%Z (uc_timeout_minutes
                                (session_config c interactive)) * 60)%Z
     end) /\
  (interactive = false -> timeout = None -> exec_timeout = 1800%Z) /\
  match reproduce c (new_orchestrator c) paper_metadata interactive timeout with
  | Returns st' =>
      match r_execution (st_report st') with
      | Some result =>
          (exists command world,
             result = Executor.execute command (Some exec_timeout) true true world) /\
          (Executor.timed_out result = true ->
           r_success (st_report st') = false /\
           Executor.stdout result = "" /\ Executor.stderr result = "" /\
           Executor.errors result
           = [Executor.timeout_message (Some exec_timeout)] /\
           Executor.warnings result = [])
      | None => True
      end
  | RaisesTypeError _ => True
  end.
Proof.
  cbv zeta. split; [reflexivity|]. split; [intros -> ->; reflexivity|].
  unfold reproduce, _reproduce_from_metadata. cbv zeta.
  destruct (title_text paper_metadata) as [text|]; [|exact I].
  set (st0 := update_report (set_timestamp (clock_iso c))
                (update_report (set_paper paper_metadata) (new_orchestrator c))).
  destruct (pipeline_outcome c st0 paper_metadata text interactive timeout)
    as [_ Hout].
  pose proof (pipeline_reports c st0 paper_metadata text interactive timeout)
    as Hrep.
  set (st' := pipeline c st0 paper_metadata text interactive timeout) in *.
  destruct (r_execution (st_report st')) as [result|] eqn:Hres; [|exact I].
  assert (Hexec : exists command world,
            result = Executor.execute command
                       (Some (effective_timeout timeout
                                (session_config c interactive)))
                       true true world).
  { destruct Hrep as [[_ Hsame]|[_ [(_ & Hsame & _)|[_ [Hsame|Hx]]]]];
      try (rewrite Hres in Hsame; discriminate).
    destruct Hx as (command & world & Hx).
    rewrite Hres in Hx. injection Hx as ->. eauto. }
  split; [exact Hexec|]. intros Htimed.
  destruct Hexec as (command & world & ->).
  assert (Hsuccess : r_success (st_report st') = false).
  { destruct Hout as [(_ & _ & _ & Hok)|[(res & He & Hr & _) _]];
      [now apply Hok|].
    rewrite Hres in He. injection He as <-. rewrite Hr.
    rewrite execute_flags, Htimed. apply andb_false_r. }
  split; [exact Hsuccess|].
  destruct world as [msg|[rc out err|out err rc_kill rc out' err']];
    try discriminate.
  repeat split.
Qed.

End PipelineReports.

Section ArxivLookup.
Import Orchestrator.
Variable pf : Cache.platform.
Variable cache_dir : string.


End ArxivLookup.



Lemma timed_out_run_report_witness :
  option_map
    (fun st =>
       option_map Executor.stdout
         (Orchestrator.r_execution (Orchestrator.st_report st)))
    (Orchestrator.returned
       (Orchestrator.reproduce Orchestrator.hanging_collaborators
          (Orchestrator.new_orchestrator Orchestrator.hanging_collaborators)
          Orchestrator.example_paper false (Some 60%Z)))
  = Some (Some "").
Proof.
  pose proof (timed_out_run_report Orchestrator.hanging_collaborators
                Orchestrator.example_paper false (Some 60%Z)) as H.
  cbv zeta in H. destruct H as (_ & _ & H).
  destruct (Orchestrator.reproduce _ _ _ _ _) as [st'|st'] eqn:Hrun;
    [|vm_compute in Hrun; discriminate].
  cbn [Orchestrator.returned option_map].
  destruct (Orchestrator.r_execution (Orchestrator.st_report st'))
    as [result|] eqn:Hexec;
    [|vm_compute in Hrun; injection Hrun as <-; discriminate].
  destruct H as (_ & H). cbn [option_map].
  destruct (Executor.timed_out result) eqn:Htimed.
  - destruct (H eq_refl) as (_ & -> & _). reflexivity.
  - vm_compute in Hrun. injection Hrun as <-.
    injection Hexec as <-. discriminate.
Defined.

Lemma cli_exit_status_witness :
  Orchestrator.exit_status
    (Orchestrator.run_cli
       (Orchestrator.example_collaborators [Orchestrator.example_repo] 0)
       Orchestrator.example_paper false None true) = 130%Z /\
  Orchestrator.exit_status
    (Orchestrator.run_cli (Orchestrator.example_collaborators [] 0)
       Orchestrator.example_paper false None false) = 1%Z.
Proof.
  split.
  - pose proof (cli_exit_status
                  (Orchestrator.example_collaborators [Orchestrator.example_repo] 0)
                  Orchestrator.example_paper false None true) as H.
    cbv zeta in H. destruct H as (_ & [_ Hint] & _). now apply Hint.
  - pose proof (cli_exit_status (Orchestrator.example_collaborators [] 0)
                  Orchestrator.example_paper false None false) as H.
    cbv zeta in H. destruct H as (_ & _ & _ & _ & Hhalt).
    eapply Hhalt; [reflexivity | vm_compute; reflexivity | vm_compute; reflexivity].
Defined.

(* ===================================================================== *)
(** * The repository lookups under their retry decorator *)
(* ===================================================================== *)

Section GuardedLookups.
Import Finder.

(** X22.  The retry decorator of [_get_repo_info] and
    [_search_papers_with_code] never retries: each body catches every
    exception itself and returns, so whatever exception is raised inside,
    and for every configuration with at least one attempt, the decorated
    method invokes the body once, does not sleep, does not raise, and
    returns what the handler of the body returns. *)
Theorem guarded_lookup_runs_once {A : Type} (body : nat -> body_outcome A)
    (max_attempts : nat) (base_delay max_delay exponential_base : float)
    (exceptions : Retry.exn -> bool) :
  (1 <= max_attempts)%nat ->
  let run :=
    Retry.wrapper (guarded_body body) max_attempts base_delay max_delay
      exponential_base exceptions in
  Retry.calls (fst run) = 1%nat /\ Retry.sleeps (fst run) = [] /\
  snd run
  = Retry.Returned
      match body 1%nat with
      | Finishes v => v
      | RaisesInside _ so_far => so_far
      end.
Proof.
  intros Hattempts. cbv zeta. unfold Retry.wrapper.
  cbn [Retry.wrapper_loop].
  destruct (Nat.leb_spec 1 max_attempts) as [_|Hlt]; [|lia].
  unfold guarded_body. destruct (body 1%nat); repeat split.
Qed.

End GuardedLookups.

Lemma guarded_lookup_runs_once_witness :
  Finder.decorated_lookup
    (fun _ => Finder.RaisesInside Retry.RequestsTimeout (None : option Finder.repo))
  = ([Retry.Call 1], Retry.Returned None).
Proof.
  pose proof (guarded_lookup_runs_once
                (fun _ => Finder.RaisesInside Retry.RequestsTimeout
                            (None : option Finder.repo))
                3 2 60 2 Finder.is_request_exception ltac:(lia)) as H.
  cbv zeta in H. destruct H as (_ & _ & Hresult).
  unfold Finder.decorated_lookup.
  destruct (Retry.wrapper _ _ _ _ _ _) as [trace result] eqn:Hrun.
  cbn [snd] in Hresult. subst result.
  vm_compute in Hrun. now injection Hrun as <-.
Defined.

(* ===================================================================== *)
(** * Properties of the complexity estimate *)
(* ===================================================================== *)

Section Complexity.
Import Analyzer.

(** X23.  The complexity estimate is one of ['low'], ['medium'], ['high']
    (never the initial ['unknown']).  The number of packages alone never
    makes a repository ['high']: that needs a GPU requirement or data
    requirements.  A repository with Docker support and an entry point is
    ['high'] only with more than 50 packages, a GPU requirement and data
    requirements together; and one with at most 10 packages, no GPU
    requirement and no data requirements is always ['low']. *)
Theorem estimate_complexity_levels (a : analysis) :
  let level := _estimate_complexity a in
  In level ["low"; "medium"; "high"] /\
  (level = "high" <-> (4 <= score a)%Z) /\
  (level = "low" <-> (score a <= 0)%Z) /\
  (level = "high" ->
   gpu_required a = true \/ data_requirements a <> []) /\
  (docker_support a = true -> entry_points a <> [] ->
   (level = "high" <->
    (50 < total_deps a)%nat /\ gpu_required a = true /\
    data_requirements a <> [])) /\
  ((total_deps a <= 10)%nat -> gpu_required a = false ->
   data_requirements a = [] -> level = "low").
Proof.
  cbv zeta.
  assert (Hhigh : _estimate_complexity a = "high" <-> (4 <= score a)%Z).
  { unfold _estimate_complexity.
    destruct (Z.leb_spec (score a) 0), (Z.leb_spec (score a) 3);
      split; try discriminate; try lia; reflexivity. }
  assert (Hlow : _estimate_complexity a = "low" <-> (score a <= 0)%Z).
  { unfold _estimate_complexity.
    destruct (Z.leb_spec (score a) 0), (Z.leb_spec (score a) 3);
      split; try discriminate; try lia; reflexivity. }
  split; [|split; [exact Hhigh|split; [exact Hlow|]]].
  { unfold _estimate_complexity.
    destruct (score a <=? 0)%Z, (score a <=? 3)%Z; cbn; tauto. }
  rewrite Hhigh, Hlow. unfold score.
  destruct (Nat.ltb_spec 50 (total_deps a)) as [H50|H50];
    destruct (Nat.ltb_spec 20 (total_deps a)) as [H20|H20];
    destruct (Nat.ltb_spec 10 (total_deps a)) as [H10|H10]; try lia;
    destruct (gpu_required a), (data_requirements a) as [|d ds],
      (docker_support a), (entry_points a) as [|e es];
    cbn [nonempty];
    (split; [intros ?; try lia; try (left; reflexivity); right; discriminate|]);
    (split;
     [intros ? ?;
      first [ discriminate | congruence
            | split;
              [intros ?; first [lia | repeat split; first [discriminate | lia]]
              |intros (? & ? & ?); first [lia | discriminate | congruence]] ]
     |intros ? ? ?; first [lia | discriminate]]).
Qed.

End Complexity.

(* ===================================================================== *)
(** * Quick fixes and the analysis of an execution result *)
(* ===================================================================== *)

Section ExecutionAnalysis.
Import Regex Diagnosis.

(** X25.  [get_quick_fix] answers from a diagnoser of its own, so it
    always returns the fixes as [_initialize_patterns] lists them, with
    their placeholders, and for a name that is not in the table the one
    line that says so; it never returns an empty list.  What a diagnoser
    in any state suggests for a match without a root cause starts with
    the quick fixes of its error type; an unmatched diagnosis has an
    error type without quick fixes. *)
Theorem quick_fix_is_initial (t : table) :
  reachable t ->
  (forall name, get_quick_fix name <> []) /\
  (forall name,
     ~ In name (List.map fst _initialize_patterns) ->
     get_quick_fix name = ["No quick fixes available for this error type"]) /\
  (forall msg ctx,
     let d := fst (diagnose t msg ctx) in
     (matched_pattern d = true -> root_cause d = None ->
      exists added, suggested_fixes d = get_quick_fix (error_type d) ++ added) /\
     (matched_pattern d = false ->
      get_quick_fix (error_type d)
      = ["No quick fixes available for this error type"])).
Proof.
  intros Ht.
  assert (Hmissing : forall name,
            ~ In name (List.map fst _initialize_patterns) ->
            get_quick_fix name = ["No quick fixes available for this error type"]).
  { intros name Hname. unfold get_quick_fix, lookup_pattern.
    destruct (List.find _ _initialize_patterns) as [entry|] eqn:Hfind;
      [|reflexivity].
    apply find_some in Hfind as [Hin Heq]. apply String.eqb_eq in Heq.
    exfalso. apply Hname. rewrite <- Heq. now apply in_map. }
  split; [|split; [exact Hmissing|]].
  - intros name. unfold get_quick_fix, lookup_pattern.
    destruct (List.find _ _initialize_patterns) as [entry|] eqn:Hfind;
      [|discriminate].
    apply find_some in Hfind as [Hin _]. cbn [option_map].
    repeat (destruct Hin as [<-|Hin]; [discriminate|]). destruct Hin.
  - intros msg ctx. cbv zeta. unfold diagnose.
    destruct (first_match t msg)
      as [[[before [[name info] caps]] after]|] eqn:Hm.
    + apply first_match_category in Hm.
      destruct (grown_entry _ _ _ (reachable_grown t Ht) Hm)
        as (entry0 & Hin0 & Hname & _ & _ & [added Hfixes] & _).
      cbn [fst snd] in Hname, Hfixes.
      destruct (has_groups (pattern info));
        cbn [fst matched_pattern root_cause suggested_fixes error_type];
        (split; [|discriminate]); [discriminate|].
      intros _ _. exists (added ++ context_fixes (category info) ctx).
      rewrite Hfixes, Hname, <- app_assoc. f_equal.
      repeat (destruct Hin0 as [<-|Hin0]; [reflexivity|]). destruct Hin0.
    + cbn. split; [discriminate|]. intros _. reflexivity.
Qed.

Lemma diagnose_each_spec (errors : list string) (t : table) :
  diagnose_each t errors
  = (List.map (fun error => fst (diagnose t error None)) errors, t).
Proof.
  induction errors as [|error errors IH]; [reflexivity|].
  cbn [diagnose_each List.map].
  destruct (diagnose t error None) as [d t1] eqn:Hd.
  assert (Ht1 : t1 = t).
  { pose proof (diagnose_without_context t error) as H. now rewrite Hd in H. }
  subst t1. rewrite IH. reflexivity.
Qed.

Lemma most_common_cases (counts : list (string * nat)) :
  match most_common counts with
  | Some cat => In cat (List.map fst counts)
  | None => counts = []
  end.
Proof.
  destruct counts as [|first counts]; [reflexivity|]. cbn [most_common].
  revert first. induction counts as [|item counts IH]; intros first.
  - left. reflexivity.
  - cbn [fold_left]. destruct (snd first <? snd item)%nat.
    + destruct (IH item) as [H|H]; cbn [List.map]; [right; left; exact H|].
      right. right. exact H.
    + destruct (IH first) as [H|H]; cbn [List.map]; [left; exact H|].
      right. right. exact H.
Qed.

Lemma bump_keys (cat : string) (counts : list (string * nat)) (key : string) :
  In key (List.map fst (bump cat counts)) ->
  key = cat \/ In key (List.map fst counts).
Proof.
  induction counts as [|[c n] counts IH]; cbn [bump List.map fst].
  - intros [<-|[]]. now left.
  - destruct (String.eqb c cat).
    + intros H. right. exact H.
    + cbn [List.map fst]. intros [<-|H]; [right; now left|].
      destruct (IH H) as [->|Hin]; [now left | right; now right].
Qed.

Lemma count_categories_keys (errors : list Diagnosis) (key : string) :
  In key (List.map fst (count_categories errors)) ->
  exists error, In error errors /\ d_category error = key.
Proof.
  unfold count_categories.
  assert (Hgen : forall counts,
            In key (List.map fst
                      (fold_left (fun counts error => bump (d_category error) counts)
                         errors counts)) ->
            In key (List.map fst counts) \/
            exists error, In error errors /\ d_category error = key).
  { induction errors as [|error errors IH]; intros counts; cbn [fold_left].
    - now left.
    - intros H. destruct (IH _ H) as [Hin|(e & He & Hcat)].
      + apply bump_keys in Hin as [->|Hin]; [|now left].
        right. exists error. split; [now left | reflexivity].
      + right. exists e. split; [now right | exact Hcat]. }
  intros H. destruct (Hgen [] H) as [[]|Hex]. exact Hex.
Qed.

(** The counts of [_generate_recommendations]. *)
Lemma count_of_bump (key cat : string) (counts : list (string * nat)) :
  count_of key (bump cat counts)
  = (count_of key counts + (if String.eqb cat key then 1 else 0))%nat.
Proof.
  induction counts as [|[c n] counts IH]; cbn [bump count_of].
  - destruct (String.eqb cat key); lia.
  - destruct (String.eqb_spec c cat) as [->|Hne]; cbn [count_of].
    + destruct (String.eqb cat key); lia.
    + destruct (String.eqb_spec c key) as [->|Hne'].
      * destruct (String.eqb_spec cat key) as [->|_]; [congruence | lia].
      * exact IH.
Qed.

Lemma keys_bump (cat : string) (counts : list (string * nat)) :
  List.map fst (bump cat counts)
  = List.map fst counts
    ++ (if existsb (fun c => String.eqb c cat) (List.map fst counts)
        then [] else [cat]).
Proof.
  induction counts as [|[c n] counts IH]; [reflexivity|].
  cbn [bump List.map fst existsb].
  destruct (String.eqb c cat); cbn [orb List.map fst].
  - now rewrite app_nil_r.
  - now rewrite IH.
Qed.

Lemma count_of_absent (key : string) (counts : list (string * nat)) :
  ~ In key (List.map fst counts) -> count_of key counts = 0%nat.
Proof.
  induction counts as [|[c n] counts IH]; [reflexivity|].
  cbn [List.map fst In count_of]. intros Hnot.
  destruct (String.eqb_spec c key) as [->|_]; [exfalso; auto|]. auto.
Qed.

Lemma count_of_entry (key : string) (n : nat) (counts : list (string * nat)) :
  List.NoDup (List.map fst counts) -> In (key, n) counts ->
  count_of key counts = n.
Proof.
  induction counts as [|[c m] counts IH]; [intros _ []|].
  cbn [List.map fst count_of]. intros Hnd [[= -> ->]|Hin].
  - now rewrite String.eqb_refl.
  - apply List.NoDup_cons_iff in Hnd as [Hc Hnd].
    destruct (String.eqb_spec c key) as [->|_]; [|auto].
    exfalso. apply Hc. change key with (fst (key, n)). now apply in_map.
Qed.

Lemma count_of_app (key : string) (pre post : list (string * nat)) :
  count_of key (pre ++ post)
  = if existsb (fun c => String.eqb c key) (List.map fst pre)
    then count_of key pre else count_of key post.
Proof.
  induction pre as [|[c n] pre IH]; [reflexivity|].
  cbn [List.app List.map fst existsb count_of].
  destruct (String.eqb c key); [reflexivity | exact IH].
Qed.

Lemma existsb_category_key (key : string) (keys : list string) :
  existsb (fun c => String.eqb c key) keys = true <-> In key keys.
Proof.
  rewrite existsb_exists. split.
  - intros (c & Hin & Heq). apply String.eqb_eq in Heq. now subst.
  - intros Hin. exists key. split; [exact Hin | apply String.eqb_refl].
Qed.

(** The state of the dictionary [categories] after the loop has gone
    through [errors], from the dictionary [counts] on. *)
Lemma counted_from (errors : list Diagnosis) (counts : list (string * nat)) :
  let counts' :=
    fold_left (fun counts error => bump (d_category error) counts)
      errors counts in
  (forall key,
     count_of key counts' = (count_of key counts + occurrences key errors)%nat) /\
  (List.NoDup (List.map fst counts) -> List.NoDup (List.map fst counts')) /\
  (exists added, List.map fst counts' = List.map fst counts ++ added) /\
  (Forall (fun entry => 1 <= snd entry)%nat counts ->
   Forall (fun entry => 1 <= snd entry)%nat counts').
Proof.
  cbv zeta. revert counts.
  induction errors as [|error errors IH]; intros counts; cbn [fold_left].
  - split; [|split; [|split]].
    + intros key. unfold occurrences. cbn. lia.
    + auto.
    + exists []. now rewrite app_nil_r.
    + auto.
  - destruct (IH (bump (d_category error) counts)) as (Hc & Hnd & [added Hk] & Hpos).
    split; [|split; [|split]].
    + intros key. rewrite Hc, count_of_bump. unfold occurrences.
      cbn [List.filter].
      destruct (String.eqb (d_category error) key); cbn [List.length]; lia.
    + intros Hnd0. apply Hnd. rewrite keys_bump.
      destruct (existsb _ (List.map fst counts)) eqn:Hin;
        [now rewrite app_nil_r|].
      apply List.NoDup_app; [exact Hnd0 | repeat constructor; intros [] |].
      intros key Hkey [<-|[]].
      apply existsb_category_key in Hkey. congruence.
    + rewrite Hk, keys_bump, <- app_assoc. eauto.
    + intros Hpos0. apply Hpos. clear -Hpos0.
      induction counts as [|[c n] counts IHc]; cbn [bump].
      * repeat constructor.
      * apply Forall_cons_iff in Hpos0 as [Hn Hpos0].
        destruct (String.eqb c (d_category error)); constructor; cbn in *;
          auto; lia.
Qed.

(** What [max(categories, key=categories.get)] returns: an entry with
    the largest count, each entry before it having a smaller one. *)
Lemma most_common_split (counts : list (string * nat)) (cat : string) :
  most_common counts = Some cat ->
  exists pre n post,
    counts = pre ++ (cat, n) :: post /\
    Forall (fun entry => snd entry < n)%nat pre /\
    Forall (fun entry => snd entry <= n)%nat post.
Proof.
  destruct counts as [|first counts]; [discriminate|]. cbn [most_common].
  assert (Hgen : forall (rest pre : list (string * nat)) (best : string * nat)
                        (mid : list (string * nat)),
    Forall (fun entry => snd entry < snd best)%nat pre ->
    Forall (fun entry => snd entry <= snd best)%nat mid ->
    exists pre' post',
      pre ++ best :: mid ++ rest
      = pre' ++ fold_left (fun best item =>
                             if (snd best <? snd item)%nat then item else best)
                  rest best :: post' /\
      Forall (fun entry =>
                snd entry
                < snd (fold_left (fun best item =>
                                    if (snd best <? snd item)%nat
                                    then item else best) rest best))%nat pre' /\
      Forall (fun entry =>
                snd entry
                <= snd (fold_left (fun best item =>
                                     if (snd best <? snd item)%nat
                                     then item else best) rest best))%nat post').
  { induction rest as [|item rest IH]; intros pre best mid Hpre Hmid.
    - cbn [fold_left]. exists pre, mid. rewrite app_nil_r. auto.
    - cbn [fold_left]. destruct (Nat.ltb_spec (snd best) (snd item)) as [Hlt|Hge].
      + destruct (IH (pre ++ best :: mid) item []) as (pre' & post' & Heq & H1 & H2).
        * apply Forall_app. split; [|constructor].
          -- eapply List.Forall_impl; [|exact Hpre]. cbn. intros; lia.
          -- exact Hlt.
          -- eapply List.Forall_impl; [|exact Hmid]. cbn. intros; lia.
        * constructor.
        * exists pre', post'. split; [|auto].
          rewrite <- Heq. cbn [List.app]. rewrite <- !app_assoc. reflexivity.
      + destruct (IH pre best (mid ++ [item])) as (pre' & post' & Heq & H1 & H2).
        * exact Hpre.
        * apply Forall_app. split; [exact Hmid|]. repeat constructor. exact Hge.
        * exists pre', post'. split; [|auto].
          rewrite <- Heq. rewrite <- !app_assoc. reflexivity. }
  intros [= Hcat].
  destruct (Hgen counts [] first [] ltac:(constructor) ltac:(constructor))
    as (pre' & post' & Heq & H1 & H2).
  cbn [List.app] in Heq.
  destruct (fold_left _ counts first) as [c n] eqn:Hbest.
  cbn [fst snd] in *. subst c. exists pre', n, post'. auto.
Qed.

Lemma prefix_before (key : string) (a r p q : list string) :
  a ++ r = p ++ key :: q -> ~ In key a -> exists a', p = a ++ a'.
Proof.
  revert p. induction a as [|x a IH]; intros p Heq Hnot; [eauto|].
  destruct p as [|y p]; cbn [List.app] in Heq.
  - injection Heq as <- _. exfalso. apply Hnot. now left.
  - injection Heq as <- Heq. destruct (IH p Heq) as [a' ->].
    + intros Hin. apply Hnot. now right.
    + exists a'. reflexivity.
Qed.

(** A category met before the first diagnosis of category [cat] has its
    key before the key [cat] in the dictionary. *)
Lemma counted_order (errors : list Diagnosis) (counts : list (string * nat))
    (cat : string) (pre post : list (string * nat)) (n : nat)
    (before after : list Diagnosis) (error : Diagnosis) :
  fold_left (fun counts error => bump (d_category error) counts) errors counts
  = pre ++ (cat, n) :: post ->
  ~ In cat (List.map fst counts) ->
  errors = before ++ error :: after ->
  (forall e, In e (before ++ [error]) -> d_category e <> cat) ->
  In (d_category error) (List.map fst pre).
Proof.
  revert counts before. induction errors as [|x errors IH];
    intros counts before Hfold Hnot Hsplit Hcat.
  { destruct before; discriminate. }
  cbn [fold_left] in Hfold.
  assert (Hnot' : ~ In cat (List.map fst (bump (d_category x) counts))).
  { rewrite keys_bump. intros Hin. apply in_app_or in Hin as [Hin|Hin]; [auto|].
    destruct (existsb _ _); [destruct Hin|]. destruct Hin as [Heq|[]].
    destruct before as [|b before]; cbn [List.app] in Hsplit;
      injection Hsplit as Hx _; apply (Hcat x); [|exact Heq | | exact Heq];
      cbn [List.app In]; left; symmetry; exact Hx. }
  destruct before as [|b before]; cbn [List.app] in Hsplit.
  - injection Hsplit as -> ->.
    destruct (counted_from after (bump (d_category error) counts))
      as (_ & _ & [added Hkeys] & _).
    cbv zeta in Hkeys. rewrite Hfold in Hkeys.
    rewrite List.map_app in Hkeys. cbn [List.map fst] in Hkeys.
    destruct (prefix_before cat _ _ _ _ (eq_sym Hkeys) Hnot') as [a' ->].
    apply in_or_app. left. rewrite keys_bump. apply in_or_app.
    destruct (existsb _ (List.map fst counts)) eqn:Hin.
    + left. now apply existsb_category_key.
    + right. now left.
  - injection Hsplit as -> ->.
    apply (IH (bump (d_category b) counts) before Hfold Hnot' eq_refl).
    intros e He. apply Hcat. now right.
Qed.

Lemma most_common_is_most_common (errors : list Diagnosis) :
  match most_common (count_categories errors) with
  | Some cat => most_common_category cat errors
  | None => errors = []
  end.
Proof.
  unfold count_categories.
  destruct (counted_from errors []) as (Hcount & Hnd & _ & Hpos).
  cbv zeta in Hcount, Hnd, Hpos.
  specialize (Hnd ltac:(constructor)). specialize (Hpos ltac:(constructor)).
  set (counts := fold_left _ errors []) in *.
  destruct (most_common counts) as [cat|] eqn:Hmost.
  - destruct (most_common_split counts cat Hmost)
      as (pre & n & post & Hsplit & Hpre & Hpost).
    assert (Hn : count_of cat counts = n).
    { apply count_of_entry; [exact Hnd|]. rewrite Hsplit.
      apply in_or_app. right. now left. }
    assert (Hle : forall key, (count_of key counts <= n)%nat).
    { intros key.
      destruct (in_dec String.string_dec key (List.map fst counts)) as [Hin|Hout];
        [|rewrite count_of_absent; [lia | exact Hout]].
      apply in_map_iff in Hin as ([k m] & Hk & Hin). cbn [fst] in Hk. subst k.
      rewrite (count_of_entry key m counts Hnd Hin).
      rewrite Hsplit in Hin. apply in_app_or in Hin as [Hin|[[= -> ->]|Hin]].
      - rewrite List.Forall_forall in Hpre. specialize (Hpre _ Hin). cbn in Hpre. lia.
      - lia.
      - rewrite List.Forall_forall in Hpost. exact (Hpost _ Hin). }
    assert (Hocc : forall key, occurrences key errors = count_of key counts).
    { intros key. rewrite Hcount. reflexivity. }
    split; [|split].
    + assert (H1 : (1 <= occurrences cat errors)%nat).
      { rewrite Hocc, Hn. rewrite List.Forall_forall in Hpos.
        apply (Hpos (cat, n)). rewrite Hsplit. apply in_or_app. right. now left. }
      unfold occurrences in H1.
      destruct (List.filter _ errors) as [|error l] eqn:Hf; [cbn in H1; lia|].
      assert (Hin : In error (List.filter
                                (fun error => String.eqb (d_category error) cat)
                                errors)) by (rewrite Hf; now left).
      apply filter_In in Hin as [Hin Heq]. apply String.eqb_eq in Heq. eauto.
    + intros other. rewrite !Hocc, Hn. apply Hle.
    + intros before error after Herrors Hbefore. rewrite !Hocc, Hn.
      assert (Hin : In (d_category error) (List.map fst pre)).
      { apply (counted_order errors [] cat pre post n before after error);
          [exact Hsplit | intros [] | exact Herrors | exact Hbefore]. }
      apply in_map_iff in Hin as ([k m] & Hk & Hin). cbn [fst] in Hk. subst k.
      rewrite (count_of_entry (d_category error) m counts Hnd).
      * rewrite List.Forall_forall in Hpre. exact (Hpre _ Hin).
      * rewrite Hsplit. apply in_or_app. now left.
  - destruct counts as [|first rest] eqn:Hcounts; [|discriminate].
    destruct errors as [|error errors]; [reflexivity|].
    pose proof (Hcount (d_category error)) as H. cbn [count_of] in H.
    unfold occurrences in H. cbn [List.filter] in H.
    rewrite String.eqb_refl in H. cbn [List.length] in H. lia.
Qed.

(** Only one category is the most common one. *)
Lemma most_common_category_unique (errors : list Diagnosis) (cat cat' : string) :
  most_common_category cat errors -> most_common_category cat' errors ->
  cat = cat'.
Proof.
  assert (Hfirst : forall cat errors,
    (exists error, In error errors /\ d_category error = cat) ->
    exists before error after,
      errors = before ++ error :: after /\ d_category error = cat /\
      forall e, In e before -> d_category e <> cat).
  { clear. intros cat errors. induction errors as [|x errors IH];
      intros (error & Hin & Hcat); [destruct Hin|].
    destruct (String.string_dec (d_category x) cat) as [Hx|Hx].
    - exists [], x, errors. split; [reflexivity|]. split; [exact Hx|].
      intros e [].
    - destruct Hin as [->|Hin]; [contradiction|].
      destruct (IH (ex_intro _ error (conj Hin Hcat)))
        as (before & e0 & after & -> & He0 & Hbefore).
      exists (x :: before), e0, after. split; [reflexivity|].
      split; [exact He0|]. intros e [<-|He]; auto. }
  intros (Hin & Hmax & Htie) (Hin' & Hmax' & Htie').
  destruct (String.string_dec cat cat') as [Heq|Hne]; [exact Heq|exfalso].
  destruct (Hfirst cat errors Hin) as (b & e & a & Hsplit & He & Hb).
  destruct (Hfirst cat' errors Hin') as (b' & e' & a' & Hsplit' & He' & Hb').
  (* the first diagnosis of one of the two categories comes first *)
  assert (Hcases : (forall x, In x (b ++ [e]) -> d_category x <> cat') \/
                   (forall x, In x (b' ++ [e']) -> d_category x <> cat)).
  { clear -Hsplit Hsplit' He He' Hb Hb' Hne. subst errors.
    revert b' Hsplit' Hb'. induction b as [|x b IH]; intros b' Hsplit' Hb'.
    - left. intros x [<-|[]]. congruence.
    - destruct b' as [|x' b']; cbn [List.app] in Hsplit'.
      + right. injection Hsplit' as Hx _. intros y [<-|[]].
        intros Hy. apply (Hb x); [now left|]. congruence.
      + injection Hsplit' as -> Hsplit'.
        destruct (IH (fun y Hy => Hb y (or_intror Hy)) b' Hsplit'
                    (fun y Hy => Hb' y (or_intror Hy))) as [H|H].
        * left. intros y [<-|Hy]; [apply Hb'; now left | now apply H].
        * right. intros y [<-|Hy]; [apply Hb; now left | now apply H]. }
  destruct Hcases as [H|H].
  - pose proof (Htie' b e a Hsplit H) as Hlt. rewrite He in Hlt.
    specialize (Hmax cat'). lia.
  - pose proof (Htie b' e' a' Hsplit' H) as Hlt. rewrite He' in Hlt.
    specialize (Hmax' cat). lia.
Qed.

Lemma generate_recommendations_advice (errors : list Diagnosis)
    (exit_code : option Z) :
  _generate_recommendations errors exit_code
  = (match most_common (count_categories errors) with
     | Some cat => category_advice cat
     | None => []
     end)
    ++ (match exit_code with
        | Some 0%Z => []
        | _ => [review_logs]
        end).
Proof. reflexivity. Qed.

(** X26.  [analyze_execution_result] leaves the diagnoser as it found it
    (no context is passed).  Its error list holds the diagnosis of every
    error of the result, in order, followed by the diagnosis of the whole
    [stderr] when that is not empty and matches a pattern.  A successful
    result gets no recommendation.  A failed one gets at most three: two
    for its most common category, which is the category of one of the
    diagnosed errors, and only for the categories dependency, gpu, data
    and network; and last, unless the exit code is 0, the advice to review
    the logs, also when there is no exit code.  The most common category
    is the one category with the most diagnoses whose first diagnosis
    comes before that of any other category with as many; the
    recommendations of a failed result are the two lines of the table
    for that category, or none for another category or without
    diagnoses, followed by the advice to review the logs. *)
Theorem analyze_execution_result_spec (t : table) (r : Executor.ExecutionResult) :
  let a := fst (analyze_execution_result t r) in
  snd (analyze_execution_result t r) = t /\
  ea_errors a
  = List.map (fun error => fst (diagnose t error None)) (Executor.errors r)
    ++ (match Executor.stderr r with
        | EmptyString => []
        | stderr_text =>
            if matched_pattern (fst (diagnose t stderr_text None))
            then [fst (diagnose t stderr_text None)] else []
        end) /\
  ea_warnings a = Executor.warnings r /\
  (Executor.success r = true -> ea_recommendations a = []) /\
  (length (ea_recommendations a) <= 3)%nat /\
  (Executor.success r = false -> Executor.exit_code r <> Some 0%Z ->
   List.last (ea_recommendations a) EmptyString = review_logs) /\
  (Executor.success r = false -> Executor.exit_code r = Some 0%Z ->
   ~ In review_logs (ea_recommendations a)) /\
  (forall advice, In advice (ea_recommendations a) -> advice <> review_logs ->
   exists error,
     In error (ea_errors a) /\
     In (d_category error) ["dependency"; "gpu"; "data"; "network"]) /\
  (Executor.success r = false ->
   let review :=
     match Executor.exit_code r with
     | Some 0%Z => []
     | _ => [review_logs]
     end in
   (ea_errors a = [] /\ ea_recommendations a = review) \/
   (exists cat,
      most_common_category cat (ea_errors a) /\
      ea_recommendations a = category_advice cat ++ review)) /\
  (forall cat cat',
     most_common_category cat (ea_errors a) ->
     most_common_category cat' (ea_errors a) -> cat = cat') /\
  (forall cat,
     (In cat ["dependency"; "gpu"; "data"; "network"] /\
      length (category_advice cat) = 2%nat) \/
     (~ In cat ["dependency"; "gpu"; "data"; "network"] /\
      category_advice cat = [])).
Proof.
  cbv zeta. unfold analyze_execution_result.
  rewrite diagnose_each_spec.
  set (ds := List.map (fun error => fst (diagnose t error None))
               (Executor.errors r)).
  assert (Hstderr :
    (match Executor.stderr r with
     | EmptyString => (ds, t)
     | stderr_text =>
         let '(d, t2) := diagnose t stderr_text None in
         (if matched_pattern d then ds ++ [d] else ds, t2)
     end)
    = (ds ++ match Executor.stderr r with
             | EmptyString => []
             | stderr_text =>
                 if matched_pattern (fst (diagnose t stderr_text None))
                 then [fst (diagnose t stderr_text None)] else []
             end, t)).
  { destruct (Executor.stderr r) as [|ch rest]; [now rewrite app_nil_r|].
    cbv zeta.
    pose proof (diagnose_without_context t (String ch rest)) as Hsame.
    destruct (diagnose t (String ch rest) None) as [d t2].
    cbn [fst snd] in *. subst t2.
    destruct (matched_pattern d); [reflexivity | now rewrite app_nil_r]. }
  rewrite Hstderr. clear Hstderr.
  set (ds' := ds ++ _). cbn [fst snd ea_errors ea_warnings ea_recommendations].
  split; [reflexivity|]. split; [reflexivity|]. split; [reflexivity|].
  split; [intros ->; reflexivity|].
  assert (Hrecs : forall exit_code,
    exists by_category,
      _generate_recommendations ds' exit_code
      = by_category ++ match exit_code with
                       | Some 0%Z => []
                       | _ => [review_logs]
                       end /\
      (length by_category <= 2)%nat /\
      ~ In review_logs by_category /\
      (forall advice, In advice by_category ->
         exists error,
           In error ds' /\
           In (d_category error) ["dependency"; "gpu"; "data"; "network"])).
  { intros exit_code. unfold _generate_recommendations.
    pose proof (most_common_cases (count_categories ds')) as Hcommon.
    destruct (most_common (count_categories ds')) as [cat|].
    2: { exists []. cbn. repeat split; auto. intros advice []. }
    apply count_categories_keys in Hcommon as (error & Hin & Hcat).
    destruct (String.eqb_spec cat "dependency") as [Hd|_];
      [|destruct (String.eqb_spec cat "gpu") as [Hg|_];
        [|destruct (String.eqb_spec cat "data") as [Hdata|_];
          [|destruct (String.eqb_spec cat "network") as [Hn|_]]]].
    5: { exists []. cbn. repeat split; auto. intros advice []. }
    all: eexists; (split; [reflexivity|]); (split; [cbn; lia|]);
         (split; [cbn; intros [H|[H|[]]]; discriminate|]);
         intros advice _; exists error; (split; [exact Hin|]);
         rewrite Hcat;
         match goal with H : _ = String _ _ |- _ => rewrite H end;
         cbn; tauto. }
  split.
  { destruct (Executor.success r); [cbn; lia|].
    destruct (Hrecs (Executor.exit_code r)) as (by_category & -> & Hlen & _).
    rewrite length_app.
    destruct (Executor.exit_code r) as [[| |]|]; cbn [length]; lia. }
  split.
  { intros -> Hcode.
    destruct (Hrecs (Executor.exit_code r)) as (by_category & -> & _).
    destruct (Executor.exit_code r) as [[|p|p]|]; try congruence;
      apply last_last. }
  split.
  { intros -> Hcode.
    destruct (Hrecs (Executor.exit_code r)) as (by_category & -> & _ & Hnot & _).
    rewrite Hcode, app_nil_r. exact Hnot. }
  split.
  { intros advice Hin Hne.
    destruct (Executor.success r); [destruct Hin|].
    destruct (Hrecs (Executor.exit_code r)) as (by_category & Heq & _ & _ & Hcat).
    rewrite Heq in Hin. apply in_app_or in Hin as [Hin|Hin].
    - exact (Hcat advice Hin).
    - destruct (Executor.exit_code r) as [[|p|p]|]; cbn in Hin;
        destruct Hin as [<-|[]] || destruct Hin; congruence. }
  split.
  { intros ->. cbv zeta. rewrite generate_recommendations_advice.
    pose proof (most_common_is_most_common ds') as Hmost.
    destruct (most_common (count_categories ds')) as [cat|].
    - right. exists cat. split; [exact Hmost | reflexivity].
    - left. split; [exact Hmost | reflexivity]. }
  split; [apply most_common_category_unique|].
  intros cat. unfold category_advice.
  destruct (String.eqb_spec cat "dependency") as [->|Hd];
    [left; split; [cbn; tauto | reflexivity]|].
  destruct (String.eqb_spec cat "gpu") as [->|Hg];
    [left; split; [cbn; tauto | reflexivity]|].
  destruct (String.eqb_spec cat "data") as [->|Hdata];
    [left; split; [cbn; tauto | reflexivity]|].
  destruct (String.eqb_spec cat "network") as [->|Hn];
    [left; split; [cbn; tauto | reflexivity]|].
  right. split; [|reflexivity].
  intros [H|[H|[H|[H|[]]]]]; congruence.
Qed.

End ExecutionAnalysis.

Lemma quick_fix_is_initial_witness :
  Diagnosis.get_quick_fix "CUDA_ERROR" <> [].
Proof.
  exact (proj1 (quick_fix_is_initial Diagnosis._initialize_patterns
                  Diagnosis.reachable_init) "CUDA_ERROR").
Defined.

Lemma analyze_execution_result_spec_witness :
  Diagnosis.ea_recommendations
    (fst (Diagnosis.analyze_execution_result Diagnosis._initialize_patterns
            (Executor.mkResult false (Some 1%Z) "" ""
               ["RuntimeError: CUDA error"; Diagnosis.missing_foo] [] false)))
  = Diagnosis.category_advice "gpu" ++ [Diagnosis.review_logs].
Proof.
  pose proof (analyze_execution_result_spec Diagnosis._initialize_patterns
                (Executor.mkResult false (Some 1%Z) "" ""
                   ["RuntimeError: CUDA error"; Diagnosis.missing_foo] [] false))
    as H.
  cbv zeta in H.
  destruct H as (_ & Herrors & _ & _ & _ & _ & _ & _ & Hrecs & _).
  specialize (Hrecs eq_refl).
  destruct Hrecs as [[Hnone _]|(cat & Hcat & ->)].
  { rewrite Herrors in Hnone. vm_compute in Hnone. discriminate. }
  rewrite Herrors in Hcat. destruct Hcat as ((error & Hin & Hc) & _ & Htie).
  cbn [Executor.errors Executor.stderr List.map List.app] in Hin, Htie.
  destruct Hin as [<-|[<-|[]]].
  - vm_compute in Hc. subst cat. reflexivity.
  - exfalso.
    specialize (Htie [] _ _ eq_refl).
    vm_compute in Hc. subst cat.
    assert (Hlt : (1 < 1)%nat); [|lia].
    apply Htie. intros e [<-|[]]. vm_compute. discriminate.
Defined.
